(** * Agentic-RAG: structural queries over indexed repository metadata

    A shallow embedding of the indexer ([load_data.py]), of the structural
    query tools ([structure_agent.py]) and of the content retrieval tools
    ([content_agent.py]), with the document store they talk to; of the
    router and the query function ([extract_information.py]); and of the
    walk over the repository ([github_data_extractor.py]).

    Conventions.
    - A Python [str] is a Rocq [string]; a character is an [ascii], read as
      the code point of that number.  The strings of this development are
      thus the ones whose code points lie below 256.
    - [os.path] and [os.sep] are the POSIX ones: the separator is ["/"].
    - A Python computation that may raise is a value of [result]; a
      [try: ... except Exception as e: ...] block is [try_except].
    - Diagnostic [print] calls are left out: they do not affect any result. *)

From Stdlib Require Import List String Ascii ZArith Lia Bool Arith.
From Stdlib Require Import Permutation Sorted DecimalString.
Import ListNotations.

Local Open Scope string_scope.
Local Open Scope list_scope.

(** String concatenation, Python's [+] on [str] and the pieces of an f-string. *)
Infix "+:+" := String.append (at level 60, right associativity).

(* ================================================================== *)
(** ** Python strings and [os.path] *)

Module PyStr.

(** [os.sep] on POSIX. *)
Definition sep : ascii := "/"%char.
Definition dot : ascii := "."%char.

(** [s.count(c)] for a one-character needle. *)
Fixpoint count (c : ascii) (s : string) : nat :=
  match s with
  | EmptyString => 0
  | String x rest => (if Ascii.eqb x c then 1 else 0) + count c rest
  end.

(** [s == c * len(s)]: every character of [s] is [c]. *)
Fixpoint all_char (c : ascii) (s : string) : bool :=
  match s with
  | EmptyString => true
  | String x rest => Ascii.eqb x c && all_char c rest
  end.

(** [s.rstrip(c)]: [s] without its trailing run of [c]. *)
Fixpoint rstrip (c : ascii) (s : string) : string :=
  match s with
  | EmptyString => EmptyString
  | String x rest =>
      match rstrip c rest with
      | EmptyString => if Ascii.eqb x c then EmptyString else String x EmptyString
      | r => String x r
      end
  end.

(** [(s[:i], s[i:])] for [i = s.rfind(c) + 1]: the cut after the last
    occurrence of [c]; the first part is empty when [c] does not occur. *)
Fixpoint rsplit_after (c : ascii) (s : string) : string * string :=
  match s with
  | EmptyString => (EmptyString, EmptyString)
  | String x rest =>
      let (head, tail) := rsplit_after c rest in
      match head with
      | EmptyString =>
          if Ascii.eqb x c then (String x EmptyString, tail)
          else (EmptyString, String x tail)
      | _ => (String x head, tail)
      end
  end.

(** [(s[:i], s[i:])] for [i = s.rfind(c)], or [None] when [i = -1]. *)
Fixpoint rsplit_at (c : ascii) (s : string) : option (string * string) :=
  match s with
  | EmptyString => None
  | String x rest =>
      match rsplit_at c rest with
      | Some (root, ext) => Some (String x root, ext)
      | None => if Ascii.eqb x c then Some (EmptyString, s) else None
      end
  end.

(** [s.replace(".", "\\.")]: a backslash is put before every dot. *)
Fixpoint escape_dots (s : string) : string :=
  match s with
  | EmptyString => EmptyString
  | String x rest =>
      if Ascii.eqb x dot then String "\"%char (String x (escape_dots rest))
      else String x (escape_dots rest)
  end.

(** The characters [str.strip()] removes, those of [str.isspace]: the
    code points 9 to 13 and 28 to 32, the next line control U+0085 and the
    no-break space U+00A0. *)
Definition is_space (c : ascii) : bool :=
  let n := nat_of_ascii c in
  (((9 <=? n) && (n <=? 13)) || ((28 <=? n) && (n <=? 32))
   || (n =? 133) || (n =? 160))%nat.

(** Truth value of [s.strip()]: some character of [s] is not white space. *)
Fixpoint strip_nonempty (s : string) : bool :=
  match s with
  | EmptyString => false
  | String x rest => negb (is_space x) || strip_nonempty rest
  end.

(** [str(n)] for a non-negative integer such as a [len(...)]. *)
Definition of_nat (n : nat) : string := NilEmpty.string_of_uint (Nat.to_uint n).

(** [str(z)] for an integer. *)
Definition of_Z (z : Z) : string := NilEmpty.string_of_int (Z.to_int z).

End PyStr.

Module OsPath.
Import PyStr.

(** [posixpath.dirname]: the part up to the last separator, with the
    trailing separators removed unless it consists of separators only. *)
Definition dirname (p : string) : string :=
  let head := fst (rsplit_after sep p) in
  if negb (head =? "") && negb (all_char sep head) then rstrip sep head else head.

(** [posixpath.basename]: the part after the last separator. *)
Definition basename (p : string) : string := snd (rsplit_after sep p).

(** [posixpath.splitext]: the extension starts at the last dot of the last
    component, unless only dots precede it there. *)
Definition splitext (p : string) : string * string :=
  let (head, tail) := rsplit_after sep p in
  match rsplit_at dot tail with
  | Some (root, ext) =>
      if all_char dot root then (p, EmptyString) else (head +:+ root, ext)
  | None => (p, EmptyString)
  end.

End OsPath.

(* ================================================================== *)
(** ** Outcomes of Python computations *)

Inductive result (A : Type) : Type :=
| Ok (a : A)
| Raise (e : string).   (* an [Exception] whose [str(e)] is [e] *)

Arguments Ok {A} a.
Arguments Raise {A} e.

Definition bind {A B : Type} (c : result A) (k : A -> result B) : result B :=
  match c with
  | Ok a => k a
  | Raise e => Raise e
  end.

Notation "x <- c ;; k" := (bind c (fun x => k))
  (at level 61, c at next level, right associativity).

(** [try: body except Exception as e: handler(e)]. *)
Definition try_except {A : Type} (body : result A) (handler : string -> result A)
  : result A :=
  match body with
  | Ok a => Ok a
  | Raise e => handler e
  end.

(* ================================================================== *)
(** ** The document store

    The part of MongoDB the tools use: documents with string, integer and
    null fields, the query operators [$exists], [$ne], [$regex] and equality,
    and the operations [distinct], [count_documents], [find_one], [find] and
    [aggregate].  The fields [_id] and [embedding], which no tool reads, are
    not represented. *)

Module Mongo.

Inductive value : Type :=
| VNull
| VInt (z : Z)
| VStr (s : string).

Definition value_eq_dec (v w : value) : {v = w} + {v <> w}.
Proof. decide equality; [apply Z.eq_dec | apply string_dec]. Defined.

Definition value_eqb (v w : value) : bool :=
  if value_eq_dec v w then true else false.

(** A document: its fields in order, the first binding of a name counts. *)
Definition document : Type := list (string * value).

Fixpoint get (k : string) (d : document) : option value :=
  match d with
  | [] => None
  | (k', v) :: rest => if k' =? k then Some v else get k rest
  end.

(** *** Regular expressions

    The fragment of the PCRE syntax that is given a meaning: an optional
    leading [^], then a sequence of atoms (a literal character, a
    backslash-escaped punctuation character, or [.]), each with an optional
    greedy quantifier [*], [+] or [?].  A pattern with any other use of a
    special character (groups, alternatives, classes, counted or possessive
    repetition, ...) is outside the fragment: [compile] gives [None], and
    what the server makes of the pattern is left open (see [server]
    below). *)

Inductive atom : Type :=
| Lit (c : ascii)
| AnyChar.

Inductive quantifier : Type := Once | ZeroOrOne | ZeroOrMore | OneOrMore.

Record regex : Type := { anchored : bool; items : list (atom * quantifier) }.

Inductive token : Type :=
| TAtom (a : atom)
| TQuant (q : quantifier).

(** The characters that are special outside a character class. *)
Definition special (c : ascii) : bool :=
  existsb (Ascii.eqb c)
    ["\"; "^"; "$"; "."; "|"; "?"; "*"; "+"; "("; ")"; "["; "]"; "{"; "}"]%char.

Definition alphanumeric (c : ascii) : bool :=
  let n := nat_of_ascii c in
  (((48 <=? n) && (n <=? 57)) || ((65 <=? n) && (n <=? 90))
   || ((97 <=? n) && (n <=? 122)))%nat.

Fixpoint tokenize (s : string) : option (list token) :=
  match s with
  | EmptyString => Some []
  | String c rest =>
      let next (t : token) := option_map (cons t) (tokenize rest) in
      if Ascii.eqb c "\" then
        match rest with
        | EmptyString => None
        | String escaped rest' =>
            if alphanumeric escaped then None
            else option_map (cons (TAtom (Lit escaped))) (tokenize rest')
        end
      else if Ascii.eqb c "." then next (TAtom AnyChar)
      else if Ascii.eqb c "*" then next (TQuant ZeroOrMore)
      else if Ascii.eqb c "+" then next (TQuant OneOrMore)
      else if Ascii.eqb c "?" then next (TQuant ZeroOrOne)
      else if special c then None
      else next (TAtom (Lit c))
  end.

Fixpoint group_tokens (ts : list token) : option (list (atom * quantifier)) :=
  match ts with
  | [] => Some []
  | TQuant _ :: _ => None
  | TAtom a :: rest =>
      match rest with
      | TQuant q :: rest' =>
          match rest' with
          | TQuant _ :: _ => None
          | _ => option_map (cons (a, q)) (group_tokens rest')
          end
      | _ => option_map (cons (a, Once)) (group_tokens rest)
      end
  end.

Definition parse_items (s : string) : option (list (atom * quantifier)) :=
  match tokenize s with
  | Some ts => group_tokens ts
  | None => None
  end.

Definition compile (pattern : string) : option regex :=
  match pattern with
  | String "^" rest =>
      option_map (fun its => {| anchored := true; items := its |}) (parse_items rest)
  | _ =>
      option_map (fun its => {| anchored := false; items := its |}) (parse_items pattern)
  end.

(** [.] matches any character but the line feed. *)
Definition atom_matches (a : atom) (c : ascii) : bool :=
  match a with
  | Lit x => Ascii.eqb x c
  | AnyChar => negb (Ascii.eqb c "010")
  end.

(** Zero or more characters matching [a], then [k] on what is left. *)
Fixpoint match_star (a : atom) (k : string -> bool) (s : string) : bool :=
  k s ||
  match s with
  | EmptyString => false
  | String c rest => atom_matches a c && match_star a k rest
  end.

(** Does the item sequence match at the start of [s]? *)
Fixpoint match_here (its : list (atom * quantifier)) (s : string) : bool :=
  match its with
  | [] => true
  | (a, q) :: more =>
      let one (k : string -> bool) :=
        match s with
        | EmptyString => false
        | String c rest => atom_matches a c && k rest
        end in
      match q with
      | Once => one (match_here more)
      | ZeroOrOne => one (match_here more) || match_here more s
      | ZeroOrMore => match_star a (match_here more) s
      | OneOrMore => one (match_star a (match_here more))
      end
  end.

(** Does the item sequence match at some position of [s]? *)
Fixpoint match_anywhere (its : list (atom * quantifier)) (s : string) : bool :=
  match_here its s ||
  match s with
  | EmptyString => false
  | String _ rest => match_anywhere its rest
  end.

(** [$regex] without options: a search, [^] ties it to the start. *)
Definition search (r : regex) (s : string) : bool :=
  if anchored r then match_here (items r) s else match_anywhere (items r) s.

(** *** Queries *)

Inductive cond : Type :=
| Eq (v : value)              (* {field: v} *)
| Ne (v : value)              (* {field: {'$ne': v}} *)
| Exists (b : bool)           (* {field: {'$exists': b}} *)
| Regex (pattern : string).   (* {field: {'$regex': pattern}} *)

(** A query document: every condition has to hold. *)
Definition query : Type := list (string * cond).

(** What a condition says of a field; a pattern is read in the fragment. *)
Definition cond_holds (c : cond) (field : option value) : bool :=
  match c, field with
  | Eq v, Some w => value_eqb v w
  | Eq v, None => value_eqb v VNull
  | Ne v, Some w => negb (value_eqb v w)
  | Ne v, None => negb (value_eqb v VNull)
  | Exists b, Some _ => b
  | Exists b, None => negb b
  | Regex pattern, Some (VStr s) =>
      match compile pattern with
      | Some r => search r s
      | None => false
      end
  | Regex _, _ => false
  end.

(** Every pattern of the query is of the fragment. *)
Definition well_formed (q : query) : bool :=
  forallb (fun fc =>
             match snd fc with
             | Regex pattern =>
                 match compile pattern with Some _ => true | None => false end
             | _ => true
             end) q.

(** *** The server

    A pattern outside the fragment is the server's business: it rejects
    the pattern with an error, or it accepts it and finds it in some
    strings.  Nothing is assumed about which; the statements below hold for
    every server. *)
Class server : Type := {
  outside_fragment : string -> result (string -> bool)
}.

(** A server that rejects every pattern outside the fragment. *)
Definition strict_server : server :=
  {| outside_fragment := fun _ => Raise "Regular expression is invalid" |}.

Section Server.

Context {the_server : server}.

(** A condition as the server evaluates it: [cond_holds], but for a
    pattern outside the fragment. *)
Definition holds (c : cond) (field : option value) : bool :=
  match c with
  | Regex pattern =>
      match compile pattern with
      | Some _ => cond_holds c field
      | None =>
          match outside_fragment pattern, field with
          | Ok found_in, Some (VStr s) => found_in s
          | _, _ => false
          end
      end
  | _ => cond_holds c field
  end.

Definition matches (q : query) (d : document) : bool :=
  forallb (fun fc => holds (snd fc) (get (fst fc) d)) q.

(** The server rejects a query with a pattern it cannot compile before it
    looks at any document. *)
Fixpoint accepted (q : query) : result unit :=
  match q with
  | [] => Ok tt
  | (_, Regex pattern) :: rest =>
      match compile pattern with
      | Some _ => accepted rest
      | None => bind (outside_fragment pattern) (fun _ => accepted rest)
      end
  | _ :: rest => accepted rest
  end.

Definition select (q : query) (docs : list document) : result (list document) :=
  bind (accepted q) (fun _ => Ok (filter (matches q) docs)).

End Server.

(** A projection [{f1: 1, ..., fn: 1}] keeps the named fields. *)
Definition project (fields : list string) (d : document) : document :=
  filter (fun kv => existsb (String.eqb (fst kv)) fields) d.

(** The values of [field] in the documents that have it. *)
Fixpoint field_values (field : string) (docs : list document) : list value :=
  match docs with
  | [] => []
  | d :: rest =>
      match get field d with
      | Some v => v :: field_values field rest
      | None => field_values field rest
      end
  end.

(** *** Aggregation: the two stages [count_files_by_extension] uses *)

Inductive stage : Type :=
| GroupCount (field : string)       (* {'$group': {'_id': '$field', 'count': {'$sum': 1}}} *)
| SortDescending (field : string).  (* {'$sort': {field: -1}} *)

(** A missing field is read as null. *)
Definition field_or_null (field : string) (d : document) : value :=
  match get field d with
  | Some v => v
  | None => VNull
  end.

(** One more document for the group of key [k]. *)
Fixpoint bump (k : value) (groups : list (value * nat)) : list (value * nat) :=
  match groups with
  | [] => [(k, 1)]
  | (k', n) :: rest =>
      if value_eqb k k' then (k', S n) :: rest else (k', n) :: bump k rest
  end.

Definition group_count (field : string) (docs : list document) : list (value * nat) :=
  fold_left (fun groups d => bump (field_or_null field d) groups) docs [].

Definition group_document (g : value * nat) : document :=
  [("_id", fst g); ("count", VInt (Z.of_nat (snd g)))].

(** The order of values of different types: null, then numbers, then strings. *)
Definition value_ltb (v w : value) : bool :=
  match v, w with
  | VNull, VNull => false
  | VNull, _ => true
  | VInt _, VNull => false
  | VInt a, VInt b => (a <? b)%Z
  | VInt _, VStr _ => true
  | VStr a, VStr b => String.ltb a b
  | VStr _, _ => false
  end.

Fixpoint insert_descending (field : string) (d : document) (sorted : list document)
  : list document :=
  match sorted with
  | [] => [d]
  | x :: rest =>
      if value_ltb (field_or_null field d) (field_or_null field x)
      then x :: insert_descending field d rest
      else d :: sorted
  end.

Definition sort_descending (field : string) (docs : list document) : list document :=
  fold_right (insert_descending field) [] docs.

Definition run_stage (s : stage) (docs : list document) : list document :=
  match s with
  | GroupCount field => map group_document (group_count field docs)
  | SortDescending field => sort_descending field docs
  end.

(** *** The collection handle

    What a PyMongo collection offers to the tools.  Every operation is a
    round trip to the server and may raise. *)

Record collection : Type := {
  distinct : string -> query -> result (list value);
  count_documents : query -> result nat;
  find_one : query -> list string -> result (option document);
  find : query -> list string -> result (list document);
  aggregate : list stage -> result (list document)
}.

Section Stored.

Context {the_server : server}.

(** A reachable server holding [docs]. *)
Definition stored (docs : list document) : collection := {|
  distinct field q :=
    found <- select q docs ;;
    Ok (nodup value_eq_dec (field_values field found));
  count_documents q :=
    found <- select q docs ;;
    Ok (List.length found);
  find_one q fields :=
    found <- select q docs ;;
    Ok (option_map (project fields) (hd_error found));
  find q fields :=
    found <- select q docs ;;
    Ok (map (project fields) found);
  aggregate pipeline :=
    Ok (fold_left (fun ds s => run_stage s ds) pipeline docs)
|}.

End Stored.

End Mongo.

(* ================================================================== *)
(** ** Python operations on the values a query returns

    The texts of the exceptions raised by the Python runtime itself are
    representative; nothing below depends on them. *)

Module Py.
Import Mongo.

Definition nl : string := String "010" EmptyString.

(** [str(v)], as an f-string formats it. *)
Definition str (v : value) : string :=
  match v with
  | VNull => "None"
  | VInt z => PyStr.of_Z z
  | VStr s => s
  end.

(** The truth value of [v]. *)
Definition truthy (v : value) : bool :=
  match v with
  | VNull => false
  | VInt z => negb (z =? 0)%Z
  | VStr s => negb (s =? "")
  end.

(** [v + 1]. *)
Definition add_one (v : value) : result value :=
  match v with
  | VInt z => Ok (VInt (z + 1))
  | VStr _ => Raise "can only concatenate str (not 'int') to str"
  | VNull => Raise "unsupported operand type(s) for +: 'NoneType' and 'int'"
  end.

(** [d[k]]. *)
Definition getitem (d : document) (k : string) : result value :=
  match get k d with
  | Some v => Ok v
  | None => Raise ("'" +:+ k +:+ "'")
  end.

(** [x in l]. *)
Definition contains (x : value) (l : list value) : bool :=
  existsb (value_eqb x) l.

(** [l.remove(x)] for an [x] that is in [l]: the first occurrence goes. *)
Fixpoint remove_first (x : value) (l : list value) : list value :=
  match l with
  | [] => []
  | y :: rest => if value_eqb x y then rest else y :: remove_first x rest
  end.

Fixpoint strings_of (l : list value) : option (list string) :=
  match l with
  | [] => Some []
  | VStr s :: rest => option_map (cons s) (strings_of rest)
  | _ :: _ => None
  end.

Fixpoint integers_of (l : list value) : option (list Z) :=
  match l with
  | [] => Some []
  | VInt z :: rest => option_map (cons z) (integers_of rest)
  | _ :: _ => None
  end.

Section Sort.
Variable A : Type.
Variable leb : A -> A -> bool.

Fixpoint insert (x : A) (sorted : list A) : list A :=
  match sorted with
  | [] => [x]
  | y :: rest => if leb x y then x :: sorted else y :: insert x rest
  end.

Definition sort (l : list A) : list A := fold_right insert [] l.
End Sort.

Arguments insert {A} leb x sorted.
Arguments sort {A} leb l.

(** [sorted(l)]: strings are ordered among themselves and so are integers;
    any other comparison raises a [TypeError]. *)
Definition sorted (l : list value) : result (list value) :=
  match strings_of l, integers_of l, l with
  | Some ss, _, _ => Ok (map VStr (sort String.leb ss))
  | None, Some zs, _ => Ok (map VInt (sort Z.leb zs))
  | None, None, [x] => Ok [x]
  | None, None, _ => Raise "'<' not supported between instances"
  end.

(** [sep.join(l)]: every item has to be a string. *)
Definition join (sep : string) (l : list value) : result string :=
  match strings_of l with
  | Some ss => Ok (String.concat sep ss)
  | None => Raise "sequence item: expected str instance"
  end.

(** A list comprehension whose element expression may raise. *)
Fixpoint for_each {A B : Type} (f : A -> result B) (l : list A) : result (list B) :=
  match l with
  | [] => Ok []
  | x :: rest =>
      y <- f x ;;
      ys <- for_each f rest ;;
      Ok (y :: ys)
  end.

End Py.

(* ================================================================== *)
(** ** LangChain documents and the vector store handle *)

Module LangChain.
Import Mongo.

Record Document : Type := {
  page_content : string;
  metadata : document
}.

(** [vector_store.similarity_search(query, k=...)]: a round trip to the
    embedding model and to the server, which may raise. *)
Record vector_store : Type := {
  similarity_search : string -> nat -> result (list Document)
}.

End LangChain.

(* ================================================================== *)
(** ** The indexer ([load_data.py]) *)

Module Indexer.
Import Mongo LangChain.

(** What [get_all_files] maps a path to: decoded text, raw bytes of a file
    that is not UTF-8, or [None] after a failed fetch. *)
Inductive content : Type :=
| Text (s : string)
| Binary
| Missing.

(** [isinstance(content, str) and content.strip()]. *)
Definition indexable (c : content) : option string :=
  match c with
  | Text s => if PyStr.strip_nonempty s then Some s else None
  | _ => None
  end.

(** The [directory] and [depth] of a file, lines 40 and 45-50. *)
Definition directory_and_depth (file_path : string) : string * Z :=
  let directory_path := OsPath.dirname file_path in
  if negb (directory_path =? "")
  then (directory_path, Z.of_nat (PyStr.count PyStr.sep directory_path) + 1)%Z
  else (".", 0%Z).

(** The metadata dictionary of lines 56-63. *)
Definition file_metadata (file_path : string) : document :=
  let file_name_with_ext := OsPath.basename file_path in
  let file_extension := snd (OsPath.splitext file_name_with_ext) in
  let directory_path := fst (directory_and_depth file_path) in
  let depth := snd (directory_and_depth file_path) in
  [("source", VStr file_path);
   ("file_name", VStr file_name_with_ext);
   ("file_extension", VStr file_extension);
   ("directory", VStr directory_path);
   ("depth", VInt depth)].

(** The loop of lines 37-70 over [all_files.items()]. *)
Fixpoint documents_for_vectorstore (all_files : list (string * content))
  : list Document :=
  match all_files with
  | [] => []
  | (file_path, c) :: rest =>
      match indexable c with
      | Some text =>
          {| page_content := text; metadata := file_metadata file_path |}
            :: documents_for_vectorstore rest
      | None => documents_for_vectorstore rest
      end
  end.

Section Splitter.
(** [RecursiveCharacterTextSplitter(chunk_size=1000, chunk_overlap=100)
    .split_text]: the chunks of a text, in order. *)
Variable split_text : string -> list string.

(** [text_splitter.split_documents]: every chunk carries a copy of the
    metadata of the document it was cut from. *)
Definition split_documents (docs : list Document) : list Document :=
  flat_map (fun d =>
              map (fun chunk => {| page_content := chunk; metadata := metadata d |})
                  (split_text (page_content d)))
           docs.

(** The record [MongoDBAtlasVectorSearch.from_documents] inserts for a
    chunk: its text and the metadata fields at top level. *)
Definition record (d : Document) : document :=
  ("text", VStr (page_content d)) :: metadata d.

(** The records one run of the script inserts. *)
Definition persisted (all_files : list (string * content)) : list document :=
  map record (split_documents (documents_for_vectorstore all_files)).

End Splitter.

End Indexer.

(* ================================================================== *)
(** ** The structural query tools ([structure_agent.py]) *)

Module StructureAgent.
Import Mongo.

Section Tools.
(** The PyMongo collection [setup_structure_agent] closes its tools over. *)
Variable collection : Mongo.collection.

Definition count_total_files : result string :=
  try_except
    (unique_file_names <- distinct collection "file_name" [("file_name", Exists true)] ;;
     let file_count := List.length unique_file_names in
     Ok ("Total number of unique original files indexed: " +:+ PyStr.of_nat file_count))
    (fun e => Ok ("Error counting total unique files: " +:+ e)).

Definition count_total_directories : result string :=
  try_except
    (unique_directories <- distinct collection "directory" [("directory", Ne (VStr "."))] ;;
     let unique_directories_count := List.length unique_directories in
     Ok ("Total number of unique directories indexed (excluding root): "
         +:+ PyStr.of_nat unique_directories_count))
    (fun e => Ok ("Error counting total directories: " +:+ e)).

Definition count_top_level_directories : result string :=
  try_except
    (top_level_dirs <- distinct collection "directory" [("depth", Eq (VInt 1))] ;;
     let top_level_dirs_count := List.length top_level_dirs in
     Ok ("Total number of top-level directories indexed: "
         +:+ PyStr.of_nat top_level_dirs_count))
    (fun e => Ok ("Error counting top-level directories: " +:+ e)).

Definition count_files_in_directory (directory_path : string) : result string :=
  try_except
    (file_count_in_dir <- count_documents collection [("directory", Eq (VStr directory_path))] ;;
     Ok ("Total number of files directly in directory '" +:+ directory_path +:+ "': "
         +:+ PyStr.of_nat file_count_in_dir))
    (fun e => Ok ("Error counting files in directory '" +:+ directory_path +:+ "': " +:+ e)).

(** Lines 103-110 and 212-219: the depth of the directory asked about.
    [None] stands for the early return taken when [parent_doc] is falsy
    or has no [depth]. *)
Definition parent_depth (directory_path : string) : result (option value) :=
  if directory_path =? "." then Ok (Some (VInt 0))
  else
    parent_doc <- find_one collection [("directory", Eq (VStr directory_path))] ["depth"] ;;
    match parent_doc with
    | None | Some [] => Ok None
    | Some doc => Ok (get "depth" doc)
    end.

Definition not_found (directory_path : string) : string :=
  "Directory '" +:+ directory_path +:+ "' not found or has no subdirectories indexed.".

(** Lines 114-124 and 223-232: the filter selecting the subdirectories. *)
Definition query_filter (directory_path : string) (target_depth : value) : query :=
  if directory_path =? "." then [("depth", Eq (VInt 1))]
  else
    let escaped_directory_path := PyStr.escape_dots directory_path in
    let regex_pattern := "^" +:+ escaped_directory_path +:+ "/" in
    [("directory", Regex regex_pattern); ("depth", Eq target_depth)].

(** Lines 128-129 and 237-238. *)
Definition without_itself (directory_path : string) (immediate_subdirs : list value)
  : list value :=
  if negb (directory_path =? ".") && Py.contains (VStr directory_path) immediate_subdirs
  then Py.remove_first (VStr directory_path) immediate_subdirs
  else immediate_subdirs.

Definition count_subdirectories_in_directory (directory_path : string) : result string :=
  try_except
    (found <- parent_depth directory_path ;;
     match found with
     | None => Ok (not_found directory_path)
     | Some parent_depth =>
         target_depth <- Py.add_one parent_depth ;;
         immediate_subdirs <-
           distinct collection "directory" (query_filter directory_path target_depth) ;;
         let immediate_subdirs := without_itself directory_path immediate_subdirs in
         let subdirectory_count := List.length immediate_subdirs in
         Ok ("Total number of subdirectories directly in directory '"
             +:+ directory_path +:+ "': " +:+ PyStr.of_nat subdirectory_count)
     end)
    (fun e => Ok ("Error counting subdirectories in directory '"
                  +:+ directory_path +:+ "': " +:+ e)).

(** [', '.join(l) if l else 'None']. *)
Definition join_or_none (l : list value) : result string :=
  match l with
  | [] => Ok "None"
  | _ => Py.join ", " l
  end.

Definition list_all_directories : result string :=
  try_except
    (found <- distinct collection "directory" [("directory", Ne (VStr "."))] ;;
     all_unique_dirs <- Py.sorted found ;;
     listing <- join_or_none all_unique_dirs ;;
     Ok ("All unique directories: " +:+ listing))
    (fun e => Ok ("Error listing all directories: " +:+ e)).

(** Line 170: the sorted top-level directories. *)
Definition top_level_dirs : result (list value) :=
  found <- distinct collection "directory" [("depth", Eq (VInt 1))] ;;
  Py.sorted found.

Definition list_top_level_directories : result string :=
  try_except
    (top_level_dirs <- top_level_dirs ;;
     listing <- join_or_none top_level_dirs ;;
     Ok ("Top-level directories: " +:+ listing))
    (fun e => Ok ("Error listing top-level directories: " +:+ e)).

(** Lines 191-192: the file names of the records of a directory. *)
Definition file_names (directory_path : string) : result (list value) :=
  files_in_dir <- find collection [("directory", Eq (VStr directory_path))] ["file_name"] ;;
  Ok (field_values "file_name" files_in_dir).

Definition list_files_in_directory (directory_path : string) : result string :=
  try_except
    (file_names <- file_names directory_path ;;
     listing <- join_or_none file_names ;;
     Ok ("Files found directly in directory '" +:+ directory_path +:+ "': " +:+ listing))
    (fun e => Ok ("Error listing files in directory '" +:+ directory_path +:+ "': " +:+ e)).

Definition list_subdirectories_in_directory (directory_path : string) : result string :=
  try_except
    (found <- parent_depth directory_path ;;
     match found with
     | None => Ok (not_found directory_path)
     | Some parent_depth =>
         target_depth <- Py.add_one parent_depth ;;
         unsorted <-
           distinct collection "directory" (query_filter directory_path target_depth) ;;
         immediate_subdirs <- Py.sorted unsorted ;;
         let immediate_subdirs := without_itself directory_path immediate_subdirs in
         listing <- join_or_none immediate_subdirs ;;
         Ok ("Subdirectories directly in directory '" +:+ directory_path +:+ "': "
             +:+ listing)
     end)
    (fun e => Ok ("Error listing subdirectories in directory '"
                  +:+ directory_path +:+ "': " +:+ e)).

(** Lines 259-262: one document per extension with its count. *)
Definition extension_counts : result (list document) :=
  aggregate collection [GroupCount "file_extension"; SortDescending "count"].

(** Line 266: the line of the answer for one extension. *)
Definition extension_line (item : document) : result string :=
  id <- Py.getitem item "_id" ;;
  count <- Py.getitem item "count" ;;
  Ok ("- " +:+ (if Py.truthy id then Py.str id else "None") +:+ ": " +:+ Py.str count).

Definition count_files_by_extension : result string :=
  try_except
    (extension_counts <- extension_counts ;;
     match extension_counts with
     | [] => Ok "No file extension data found."
     | _ =>
         lines <- Py.for_each extension_line extension_counts ;;
         Ok ("File extension counts:" +:+ Py.nl +:+ String.concat Py.nl lines)
     end)
    (fun e => Ok ("Error counting files by extension: " +:+ e)).

End Tools.

End StructureAgent.

(* ================================================================== *)
(** ** The content retrieval tools ([content_agent.py]) *)

Module ContentAgent.
Import Mongo LangChain.

Section Tools.
Variable vector_store : LangChain.vector_store.

(** Lines 34 and 63: how one retrieved chunk is shown. *)
Definition formatted (d : Document) : string :=
  let source :=
    match get "source" (metadata d) with
    | Some v => Py.str v
    | None => "N/A"
    end in
  "Source: " +:+ source +:+ Py.nl +:+ "Content:" +:+ Py.nl +:+ page_content d.

Definition separator : string := Py.nl +:+ "---" +:+ Py.nl.

Definition content_search (query : string) : result string :=
  try_except
    (docs <- similarity_search vector_store query 5 ;;
     match docs with
     | [] => Ok "No relevant document chunks found."
     | _ => Ok (String.concat separator (map formatted docs))
     end)
    (fun e => Ok ("Error during content search: " +:+ e)).

Definition summarize_repo_content : result string :=
  try_except
    (let broad_query := "overview of the repository content and structure" in
     docs <- similarity_search vector_store broad_query 20 ;;
     match docs with
     | [] => Ok "Could not retrieve content for a general summary."
     | _ => Ok (String.concat separator (map formatted docs))
     end)
    (fun e => Ok ("Error retrieving content for summary: " +:+ e)).

End Tools.

End ContentAgent.

(* ================================================================== *)
(** ** A run of the indexing script on a collection ([load_data.py]) *)

Module LoadData.
Import Mongo.

Section Splitter.
Variable split_text : string -> list string.

(** The collection after a run that started with the records [before].
    Lines 116-121: [from_documents] inserts the chunk records; no line of
    the script deletes or replaces a record.  When no document or no chunk
    is left (lines 73-75 and 92-94) the script exits before the insertion,
    which is the case of an empty list of records here. *)
Definition run (before : list document) (all_files : list (string * Indexer.content))
  : list document :=
  before ++ Indexer.persisted split_text all_files.

End Splitter.

End LoadData.

(* ================================================================== *)
(** ** More operations on Python strings *)

Module PyText.

(** [s.lstrip()]: [s] without its leading white space. *)
Fixpoint lstrip (s : string) : string :=
  match s with
  | EmptyString => EmptyString
  | String c rest => if PyStr.is_space c then lstrip rest else s
  end.

(** [s.rstrip()]: [s] without its trailing white space. *)
Fixpoint rstrip (s : string) : string :=
  match s with
  | EmptyString => EmptyString
  | String c rest =>
      match rstrip rest with
      | EmptyString => if PyStr.is_space c then EmptyString else String c EmptyString
      | r => String c r
      end
  end.

(** [s.strip()]. *)
Definition strip (s : string) : string := rstrip (lstrip s).

(** [s.startswith(start)]. *)
Definition startswith (start s : string) : bool := String.prefix start s.

(** [s.endswith(suffix)]: some tail of [s] is [suffix]. *)
Fixpoint endswith (suffix s : string) : bool :=
  (s =? suffix) ||
  match s with
  | EmptyString => false
  | String _ rest => endswith suffix rest
  end.

(** [s[n:]]. *)
Fixpoint drop (n : nat) (s : string) : string :=
  match n, s with
  | O, _ => s
  | S _, EmptyString => EmptyString
  | S n', String _ rest => drop n' rest
  end.

(** [s[:-n]] for a positive [n]. *)
Definition drop_last (n : nat) (s : string) : string :=
  String.substring 0 (String.length s - n) s.

End PyText.

(* ================================================================== *)
(** ** The router and the query function ([extract_information.py]) *)

Module Router.
Import Mongo.

(** What [json.loads] builds. *)
#[warnings="-register-all"] Inductive json : Type :=
| JNull
| JBool (b : bool)
| JNumber (literal : string)
| JString (s : string)
| JArray (items : list json)
| JObject (fields : list (string * json)).

(** How a call of [json.loads] ends: with a value, with a
    [json.JSONDecodeError], or with another exception. *)
Inductive loaded : Type :=
| Loaded (j : json)
| DecodeError (e : string)
| OtherError (e : string).

(** [d[k]] for a key of the object [d], [None] without such a key. *)
Fixpoint field (k : string) (fields : list (string * json)) : option json :=
  match fields with
  | [] => None
  | (k', j) :: rest => if k' =? k then Some j else field k rest
  end.

(** An [AgentExecutor]: [invoke({"input": query})] gives a dictionary, or
    raises. *)
Record executor : Type := {
  invoke : string -> result document
}.

(** [response.get(key, default)]. *)
Definition get_or (response : document) (key : string) (default : string) : value :=
  match get key response with
  | Some v => v
  | None => VStr default
  end.

(** What [query_data] returns: a string, or the value found under
    ["output"] in a JSON object. *)
Inductive answer : Type :=
| Text (s : string)
| Parsed (j : json).

Section Application.

Variable structure_agent_executor : executor.
Variable content_agent_executor : executor.
Variable router_agent_executor : executor.

(** [json.loads]. *)
Variable json_loads : string -> loaded.

Definition structure_agent_tool (query : string) : result value :=
  try_except
    (response <- invoke structure_agent_executor query ;;
     Ok (get_or response "output" "Structure Agent failed to produce output."))
    (fun e => Ok (VStr ("Error routing query to Structure Agent: " +:+ e))).

Definition content_agent_tool (query : string) : result value :=
  try_except
    (response <- invoke content_agent_executor query ;;
     Ok (get_or response "output" "Content Agent failed to produce output."))
    (fun e => Ok (VStr ("Error routing query to Content Agent: " +:+ e))).

(** [raw_output.strip()] is the first use of [raw_output] as a string: a
    value of another type raises an [AttributeError] there. *)
Definition as_string (v : value) : result string :=
  match v with
  | VStr s => Ok s
  | VInt _ => Raise "'int' object has no attribute 'strip'"
  | VNull => Raise "'NoneType' object has no attribute 'strip'"
  end.

(** Lines 194-196: the text between the fence marks. *)
Definition cleaned_output (raw_output : string) : string :=
  let cleaned_output := PyText.drop 8 (PyText.strip raw_output) in
  if PyText.endswith "```" cleaned_output
  then PyText.strip (PyText.drop_last 3 cleaned_output)
  else cleaned_output.

(** Lines 199-212: the answer for a fenced output. *)
Definition parsed_output (cleaned_output : string) : result answer :=
  match json_loads cleaned_output with
  | Loaded json_output =>
      match json_output with
      | JObject fields =>
          match field "output" fields with
          | Some output => Ok (Parsed output)
          | None => Ok (Text cleaned_output)
          end
      | _ => Ok (Text cleaned_output)
      end
  | DecodeError _ => Ok (Text cleaned_output)
  | OtherError e => Raise e
  end.

Definition query_data (query : string) : result answer :=
  if query =? "" then
    Ok (Text "Please enter a question about the repository content or structure.")
  else
    try_except
      (agent_response <- invoke router_agent_executor query ;;
       raw_output <-
         as_string (get_or agent_response "output"
                           "Router Agent failed to produce an output.") ;;
       if PyText.startswith "```text" (PyText.strip raw_output)
       then parsed_output (cleaned_output raw_output)
       else Ok (Text raw_output))
      (fun e => Ok (Text ("An error occurred during router agent processing: " +:+ e))).

End Application.

End Router.


(* ================================================================== *)
(** ** Fetching the repository ([github_data_extractor.py]) *)

Module Fetcher.
Import Indexer.

(** An entry of a directory listing of the contents API: [item['type']]
    and [item['path']]. *)
Record item : Type := {
  type : string;
  path : string
}.

(** What [response.json()] gives for a path of the contents API: the array
    of the entries of a directory, or the object of a file with its
    [content] and, when present, its [encoding]. *)
Inductive body : Type :=
| Listing (items : list item)
| FileData (content_base64 : string) (encoding : option string).

Record response : Type := {
  status_code : Z;
  json : body
}.

(** A [dict] with [str] keys, in insertion order. *)
Definition dict (V : Type) : Type := list (string * V).

(** [d[k] = v]: a key already present keeps its place. *)
Fixpoint dict_set {V : Type} (k : string) (v : V) (d : dict V) : dict V :=
  match d with
  | [] => [(k, v)]
  | (k', v') :: rest =>
      if k' =? k then (k, v) :: rest else (k', v') :: dict_set k v rest
  end.

(** [d.update(sub)]. *)
Definition dict_update {V : Type} (d sub : dict V) : dict V :=
  fold_left (fun all kv => dict_set (fst kv) (snd kv) all) sub d.

Section Service.

(** [bytes] values, [base64.b64decode] and [bytes.decode('utf-8')], which
    gives no text on a [UnicodeDecodeError]. *)
Variable bytes : Type.
Variable b64decode : string -> result bytes.
Variable decode_utf8 : bytes -> option string.

(** [requests.get(url, headers=HEADERS)]. *)
Variable requests_get : string -> result response.

Variable owner : string.
Variable repo : string.

Definition url (path : string) : string :=
  "https://api.github.com/repos/" +:+ owner +:+ "/" +:+ repo +:+ "/contents/" +:+ path.

(** [data.get('encoding', '')]. *)
Definition encoding_or_empty (encoding : option string) : string :=
  match encoding with
  | Some e => e
  | None => ""
  end.

(** Indexing the array of a listing with ['content'] raises a [TypeError]. *)
Definition get_file_content (file_path : string) : result content :=
  response <- requests_get (url file_path) ;;
  if (status_code response =? 200)%Z then
    match json response with
    | FileData content_base64 encoding =>
        if encoding_or_empty encoding =? "base64" then
          try_except
            (decoded_content <- b64decode content_base64 ;;
             match decode_utf8 decoded_content with
             | Some text => Ok (Text text)
             | None => Ok Binary
             end)
            (fun _ => Ok Missing)
        else Ok Missing
    | Listing _ => Raise "list indices must be integers or slices, not str"
    end
  else Ok Missing.

(** The loop of lines 14-20 from the entries [items] on, with the
    dictionary built so far; [get_sub] is the recursive call. *)
Fixpoint collect (get_sub : string -> result (dict content)) (items : list item)
  (all_contents : dict content) : result (dict content) :=
  match items with
  | [] => Ok all_contents
  | item :: rest =>
      if type item =? "file" then
        file_content <- get_file_content (path item) ;;
        collect get_sub rest (dict_set (path item) file_content all_contents)
      else if type item =? "dir" then
        sub_contents <- get_sub (path item) ;;
        collect get_sub rest (dict_update all_contents sub_contents)
      else collect get_sub rest all_contents
  end.

(** [get_all_files(owner, repo, path)], where at most [limit] calls may be
    nested before the interpreter raises its [RecursionError].  Iterating
    over the object of a file gives its keys, and indexing a key with
    ['type'] raises a [TypeError]. *)
Fixpoint get_all_files (limit : nat) (path : string) : result (dict content) :=
  match limit with
  | O => Raise "maximum recursion depth exceeded"
  | S limit' =>
      response <- requests_get (url path) ;;
      if (status_code response =? 200)%Z then
        match json response with
        | Listing items => collect (get_all_files limit') items []
        | FileData _ _ => Raise "string indices must be integers, not 'str'"
        end
      else Ok []
  end.

End Service.

End Fetcher.
(* ================================================================== *)
(** * Properties *)

Import Mongo PyStr OsPath Indexer.

(** ** Vocabulary *)

(** *** Answers and failing services *)

(** The computation ends with a string handed to the caller. *)
Definition answers (tool : result string) : Prop := exists s, tool = Ok s.

(** A server that cannot be reached: every call raises [e]. *)
Definition unreachable (e : string) : collection := {|
  distinct _ _ := Raise e;
  count_documents _ := Raise e;
  find_one _ _ := Raise e;
  find _ _ := Raise e;
  aggregate _ := Raise e
|}.

(** A vector store whose search raises [e]. *)
Definition failing_search (e : string) : LangChain.vector_store :=
  {| LangChain.similarity_search _ _ := Raise e |}.

(** How a tool shows a list of names: joined by [", "], or [None] when
    there is none. *)
Definition listing (names : list string) : string :=
  match names with
  | [] => "None"
  | _ => String.concat ", " names
  end.

(** *** Repository paths and indexed records *)

(** The names a path is made of, split at the separators. *)
Fixpoint components (p : string) : list string :=
  match p with
  | EmptyString => [EmptyString]
  | String c rest =>
      if Ascii.eqb c sep then EmptyString :: components rest
      else match components rest with
           | [] => [String c EmptyString]
           | name :: names => String c name :: names
           end
  end.

(** The name of a tree entry is not empty and is not ["."]. *)
Definition entry_name (name : string) : bool :=
  negb (name =? "") && negb (name =? ".").

(** A path as the contents API of the hosting service gives it: the names
    of the tree entries from the root down, joined by ["/"]. *)
Definition repository_path (p : string) : bool :=
  forallb entry_name (components p).

(** A record of the collection that some run of the indexer inserted for a
    chunk of a file at a repository path. *)
Definition indexed (r : document) : Prop :=
  exists file_path chunk,
    repository_path file_path = true /\
    r = record {| LangChain.page_content := chunk;
                  LangChain.metadata := file_metadata file_path |}.

(** The records of one file: one per chunk of its text. *)
Definition chunk_records (split_text : string -> list string) (file_path text : string)
  : list document :=
  map (fun chunk => record {| LangChain.page_content := chunk;
                              LangChain.metadata := file_metadata file_path |})
      (split_text text).

(** The depth a directory string stands for: 0 for the root sentinel, the
    number of separators plus one otherwise. *)
Definition depth_of_directory (directory : string) : Z :=
  if directory =? "." then 0%Z
  else (Z.of_nat (count sep directory) + 1)%Z.

(** The directory a directory lies in, with the root written ["."]. *)
Definition parent_directory (directory : string) : string :=
  let parent := dirname directory in
  if parent =? "" then "." else parent.

(** A name without separator. *)
Definition sepfree (s : string) : Prop := count sep s = 0.

(** [p[:i]] for [i = p.rfind("/") + 1], from the names before the last. *)
Definition head_of (init : list string) : string :=
  match init with
  | [] => ""
  | _ => String.concat "/" init +:+ "/"
  end.

(** A directory string with the depth its names give it: the root sentinel
    at depth 0, or the names of the directories on the way, joined. *)
Definition directory_shape (d : string) (z : Z) : Prop :=
  (d = "." /\ z = 0%Z)
  \/ exists names,
       names <> []
       /\ Forall sepfree names
       /\ forallb entry_name names = true
       /\ d = String.concat "/" names
       /\ z = Z.of_nat (List.length names).

(** *** Patterns and subdirectories *)

Fixpoint all_chars (f : ascii -> bool) (s : string) : bool :=
  match s with
  | EmptyString => true
  | String c rest => f c && all_chars f rest
  end.

(** A character that the pattern built from a path reads as itself: one
    that is not special, or the dot, which the tools escape. *)
Definition read_literally (c : ascii) : bool :=
  negb (special c) || Ascii.eqb c dot.

Definition literal_path (p : string) : bool := all_chars read_literally p.

(** The items that match the string [s] and nothing else. *)
Definition literal_items (s : string) : list (atom * quantifier) :=
  map (fun c => (Lit c, Once)) (list_ascii_of_string s).

(** Does the field hold a string that begins with [start]? *)
Definition begins_with (start : string) (field : option value) : bool :=
  match field with
  | Some (VStr s) => String.prefix start s
  | _ => false
  end.

(** A record whose directory begins with [p ++ "/"] and whose depth is [target]. *)
Definition below (p : string) (target : value) (d : document) : bool :=
  begins_with (p +:+ "/") (get "directory" d) && cond_holds (Eq target) (get "depth" d).

(** The distinct directory values of those records. *)
Definition directories_below (docs : list document) (p : string) (target : value)
  : list value :=
  nodup value_eq_dec (field_values "directory" (filter (below p target) docs)).

(** The record [find_one] picks for a directory: the first that has it. *)
Definition first_record (docs : list document) (p : string) : option document :=
  List.find (fun d => cond_holds (Eq (VStr p)) (get "directory" d)) docs.

(** *** Counts per extension *)

(** The sum of the [count] fields of the documents an aggregation returns. *)
Definition total_of_counts (items : list document) : Z :=
  fold_right (fun item total =>
                match get "count" item with
                | Some (VInt z) => (z + total)%Z
                | _ => total
                end) 0%Z items.

(** The number of documents the groups of a [$group] stage stand for. *)
Definition group_total (groups : list (value * nat)) : nat :=
  list_sum (map snd groups).

(** File names are unique: records with the same [file_name] are chunks of
    the same original file, that is, they have the same [source]. *)
Definition unique_file_names (docs : list document) : Prop :=
  forall r1 r2, In r1 docs -> In r2 docs ->
                get "file_name" r1 = get "file_name" r2 ->
                get "source" r1 = get "source" r2.

(** *** Example collections *)

(** The records of a repository with the single file [big.py], whose text
    the splitter cut into two chunks. *)
Definition two_chunks : list document :=
  [record {| LangChain.page_content := "first chunk";
             LangChain.metadata := file_metadata "big.py" |};
   record {| LangChain.page_content := "second chunk";
             LangChain.metadata := file_metadata "big.py" |}].

(** Two files of a repository, one in the directory ["a+b"] and one in its
    subdirectory ["a+b/c"], each indexed as a single chunk. *)
Definition plus_repository : list document :=
  persisted (fun s => [s]) [("a+b/x.txt", Text "x"); ("a+b/c/y.txt", Text "y")].

(** The same with a file in the unrelated directory ["aab/c"]. *)
Definition plus_and_aab_repository : list document :=
  persisted (fun s => [s])
    [("a+b/x.txt", Text "x"); ("a+b/c/y.txt", Text "y"); ("aab/c/z.txt", Text "z")].

(* ================================================================== *)
(** ** Further vocabulary *)

(** Ascending order of names, as [sorted] leaves them. *)
Definition ascending (names : list string) : Prop :=
  Sorted (fun a b => String.leb a b = true) names.

(** *** Extension buckets *)

(** The line [count_files_by_extension] writes for an extension and its
    count; the empty extension is labelled [None]. *)
Definition extension_row (bucket : string * nat) : string :=
  "- " +:+ (if fst bucket =? "" then "None" else fst bucket) +:+ ": "
  +:+ PyStr.of_Z (Z.of_nat (snd bucket)).

(** The number of records whose [file_extension] is [e]. *)
Definition records_with_extension (e : string) (docs : list document) : nat :=
  List.length (filter (fun d => cond_holds (Eq (VStr e)) (get "file_extension" d)) docs).

(** Counts from the largest to the smallest. *)
Definition descending (counts : list nat) : Prop :=
  Sorted (fun a b => b <= a) counts.

(** The count of the group of key [k], 0 when there is no such group. *)
Fixpoint group_of (k : value) (groups : list (value * nat)) : nat :=
  match groups with
  | [] => 0
  | (k', n) :: rest => if value_eqb k k' then n else group_of k rest
  end.

(** The number of documents whose [field], read as null when missing, is [k]. *)
Definition documents_with (field : string) (k : value) (docs : list document) : nat :=
  List.length (filter (fun d => value_eqb k (field_or_null field d)) docs).

(** The order [$sort: {count: -1}] gives the groups, on the groups themselves. *)
Fixpoint insert_group (g : value * nat) (sorted : list (value * nat))
  : list (value * nat) :=
  match sorted with
  | [] => [g]
  | h :: rest =>
      if (snd g <? snd h)%nat then h :: insert_group g rest else g :: sorted
  end.

Definition sort_groups (groups : list (value * nat)) : list (value * nat) :=
  fold_right insert_group [] groups.

(** *** Files and chunks *)

(** The number of records a file leaves: its chunks, none when it is skipped. *)
Definition chunks_of (split_text : string -> list string) (file : string * content) : nat :=
  match indexable (snd file) with
  | Some text => List.length (split_text text)
  | None => 0
  end.


(** *** Files the contents API lists *)

(** The keys of a dictionary. *)
Definition keys {V : Type} (d : Fetcher.dict V) : list string := map fst d.

Section Listed.

Variable bytes : Type.
Variable b64decode : string -> result bytes.
Variable decode_utf8 : bytes -> option string.
Variable requests_get : string -> result Fetcher.response.
Variable owner : string.
Variable repo : string.

(** The request for [path] is answered with status 200 and the entries
    [items]. *)
Definition lists (path : string) (items : list Fetcher.item) : Prop :=
  exists response,
    requests_get (Fetcher.url owner repo path) = Ok response
    /\ Fetcher.status_code response = 200%Z
    /\ Fetcher.json response = Fetcher.Listing items.

(** [file_listed path p]: the listing of [path], or of a directory entry
    found from [path] through listings, has a file entry of path [p]. *)
Inductive file_listed : string -> string -> Prop :=
| listed_here (path : string) (items : list Fetcher.item) (i : Fetcher.item) :
    lists path items -> In i items -> Fetcher.type i = "file" ->
    file_listed path (Fetcher.path i)
| listed_below (path : string) (items : list Fetcher.item) (i : Fetcher.item) (p : string) :
    lists path items -> In i items -> Fetcher.type i = "dir" ->
    file_listed (Fetcher.path i) p ->
    file_listed path p.

(** [answers_within limit path]: every request a walk from [path] makes is
    answered, no file entry answers with a listing and no directory entry
    with the object of a file, and directories are nested less than [limit]
    deep.  A status other than 200 is an answer. *)
Inductive answers_within : nat -> string -> Prop :=
| answers_without_listing (n : nat) (path : string) (response : Fetcher.response) :
    requests_get (Fetcher.url owner repo path) = Ok response ->
    Fetcher.status_code response <> 200%Z ->
    answers_within (S n) path
| answers_with_listing (n : nat) (path : string) (items : list Fetcher.item) :
    lists path items ->
    (forall i, In i items -> Fetcher.type i = "file" ->
       exists c, Fetcher.get_file_content bytes b64decode decode_utf8 requests_get
                   owner repo (Fetcher.path i) = Ok c) ->
    (forall i, In i items -> Fetcher.type i = "dir" ->
       answers_within n (Fetcher.path i)) ->
    answers_within (S n) path.

End Listed.

(** A small repository behind the contents API: a file and a directory
    with one file, an entry that is neither, and a directory whose listing
    is refused. *)
Definition small_repository (url : string) : result Fetcher.response :=
  let contents := "https://api.github.com/repos/o/r/contents/" in
  let file := fun p => {| Fetcher.type := "file"; Fetcher.path := p |} in
  let dir := fun p => {| Fetcher.type := "dir"; Fetcher.path := p |} in
  if url =? contents then
    Ok {| Fetcher.status_code := 200;
          Fetcher.json := Fetcher.Listing
            [file "README.md"; dir "src";
             {| Fetcher.type := "symlink"; Fetcher.path := "latest" |}; dir "private"] |}
  else if url =? contents +:+ "src" then
    Ok {| Fetcher.status_code := 200; Fetcher.json := Fetcher.Listing [file "src/a.py"] |}
  else if url =? contents +:+ "README.md" then
    Ok {| Fetcher.status_code := 200;
          Fetcher.json := Fetcher.FileData "aGVsbG8=" (Some "base64") |}
  else if url =? contents +:+ "src/a.py" then
    Ok {| Fetcher.status_code := 200;
          Fetcher.json := Fetcher.FileData "cHJpbnQoMSk=" (Some "base64") |}
  else Ok {| Fetcher.status_code := 403; Fetcher.json := Fetcher.Listing [] |}.

(** [base64.b64decode] on the two contents of the small repository. *)
Definition small_b64decode (s : string) : result string :=
  if s =? "aGVsbG8=" then Ok "hello"
  else if s =? "cHJpbnQoMSk=" then Ok "print(1)"
  else Raise "Incorrect padding".
(** Shows that concrete records are [indexed]: the file and the chunk of a
    record are read off its [source] and [text] fields. *)
Ltac indexed_record :=
  lazymatch goal with
  | |- indexed (("text", VStr ?chunk) :: ("source", VStr ?file_path) :: _) =>
      exists file_path, chunk; split; reflexivity
  end.

Ltac indexed_records :=
  lazymatch goal with
  | |- Forall indexed ?l =>
      let l' := eval vm_compute in l in change (Forall indexed l')
  end;
  repeat (apply Forall_cons; [indexed_record |]);
  apply Forall_nil.


(* ================================================================== *)
(** * Statements

    From here on [the_server] is any server: the statements hold whatever
    it makes of a pattern outside the fragment. *)

Section AnyServer.

Context {the_server : server}.

(* ================================================================== *)
(** ** The model on small inputs *)

Example dirname_nested : dirname "src/utils/c.py" = "src/utils".
Proof. reflexivity. Qed.

Example dirname_root_file : dirname "a.py" = "".
Proof. reflexivity. Qed.

Example dirname_keeps_leading_separators : dirname "//a" = "//".
Proof. reflexivity. Qed.

Example basename_nested : basename "src/utils/c.py" = "c.py".
Proof. reflexivity. Qed.

Example splitext_last_dot : splitext "e.tar.gz" = ("e.tar", ".gz").
Proof. reflexivity. Qed.

Example splitext_hidden_file : splitext ".bashrc" = (".bashrc", "").
Proof. reflexivity. Qed.

Example escape_dots_in_path : escape_dots "v1.2/docs" = "v1\.2/docs".
Proof. reflexivity. Qed.

Example pattern_of_fragment :
  compile "^a\.b+c?/"
  = Some {| anchored := true;
            items := [(Lit "a", Once); (Lit ".", Once); (Lit "b", OneOrMore);
                      (Lit "c", ZeroOrOne); (Lit "/", Once)] |}.
Proof. reflexivity. Qed.

Example pattern_outside_fragment : compile "^(auth)/" = None.
Proof. reflexivity. Qed.

(** The repository of the first end-to-end scenario of the specification:
    [a.py] at the root, [src/b.py] and [src/utils/c.py]. *)
Example scenario_a :
  let docs := persisted (fun s => [s])
                [("a.py", Text "x"); ("src/b.py", Text "y"); ("src/utils/c.py", Text "z")] in
  StructureAgent.count_top_level_directories (stored docs)
  = Ok "Total number of top-level directories indexed: 1"
  /\ StructureAgent.list_subdirectories_in_directory (stored docs) "src"
     = Ok "Subdirectories directly in directory 'src': src/utils"
  /\ StructureAgent.count_files_in_directory (stored docs) "."
     = Ok "Total number of files directly in directory '.': 1"
  /\ StructureAgent.list_files_in_directory (stored docs) "src"
     = Ok "Files found directly in directory 'src': b.py"
  /\ StructureAgent.list_all_directories (stored docs)
     = Ok "All unique directories: src, src/utils"
  /\ StructureAgent.count_subdirectories_in_directory (stored docs) "docs"
     = Ok "Directory 'docs' not found or has no subdirectories indexed.".
Proof. repeat split. Qed.

(** Binary files, failed fetches and blank files leave no record. *)
Example skipped_files :
  persisted (fun s => [s]) [("logo.png", Binary); ("gone.txt", Missing); ("blank.txt", Text "  ")]
  = [].
Proof. reflexivity. Qed.

(* ================================================================== *)
(** ** Exceptions never leave a tool *)

Lemma try_except_answers (body : result string) (message : string -> string) :
  answers (try_except body (fun e => Ok (message e))).
Proof.
  unfold answers; destruct body as [s | e]; simpl; eauto.
Qed.

(** C8. Whatever the collection or the vector store does, every structural
    query tool and every content retrieval tool ends with a string and
    raises nothing; when the underlying call fails with [e], that string is
    the tool's error sentence followed by [e]. *)
Theorem tools_answer_with_a_string :
  forall (c : collection) (vs : LangChain.vector_store) (p q e : string),
    (answers (StructureAgent.count_total_files c)
     /\ answers (StructureAgent.count_total_directories c)
     /\ answers (StructureAgent.count_top_level_directories c)
     /\ answers (StructureAgent.count_files_in_directory c p)
     /\ answers (StructureAgent.count_subdirectories_in_directory c p)
     /\ answers (StructureAgent.list_all_directories c)
     /\ answers (StructureAgent.list_top_level_directories c)
     /\ answers (StructureAgent.list_files_in_directory c p)
     /\ answers (StructureAgent.list_subdirectories_in_directory c p)
     /\ answers (StructureAgent.count_files_by_extension c)
     /\ answers (ContentAgent.content_search vs q)
     /\ answers (ContentAgent.summarize_repo_content vs))
    /\
    (StructureAgent.count_total_files (unreachable e)
       = Ok ("Error counting total unique files: " +:+ e)
     /\ StructureAgent.count_total_directories (unreachable e)
       = Ok ("Error counting total directories: " +:+ e)
     /\ StructureAgent.count_top_level_directories (unreachable e)
       = Ok ("Error counting top-level directories: " +:+ e)
     /\ StructureAgent.count_files_in_directory (unreachable e) p
       = Ok ("Error counting files in directory '" +:+ p +:+ "': " +:+ e)
     /\ StructureAgent.count_subdirectories_in_directory (unreachable e) p
       = Ok ("Error counting subdirectories in directory '" +:+ p +:+ "': " +:+ e)
     /\ StructureAgent.list_all_directories (unreachable e)
       = Ok ("Error listing all directories: " +:+ e)
     /\ StructureAgent.list_top_level_directories (unreachable e)
       = Ok ("Error listing top-level directories: " +:+ e)
     /\ StructureAgent.list_files_in_directory (unreachable e) p
       = Ok ("Error listing files in directory '" +:+ p +:+ "': " +:+ e)
     /\ StructureAgent.list_subdirectories_in_directory (unreachable e) p
       = Ok ("Error listing subdirectories in directory '" +:+ p +:+ "': " +:+ e)
     /\ StructureAgent.count_files_by_extension (unreachable e)
       = Ok ("Error counting files by extension: " +:+ e)
     /\ ContentAgent.content_search (failing_search e) q
       = Ok ("Error during content search: " +:+ e)
     /\ ContentAgent.summarize_repo_content (failing_search e)
       = Ok ("Error retrieving content for summary: " +:+ e)).
Proof.
  intros c vs p q e; split.
  - repeat split; apply try_except_answers.
  - repeat split; try reflexivity.
    + unfold StructureAgent.count_subdirectories_in_directory,
        StructureAgent.parent_depth, StructureAgent.query_filter.
      destruct (p =? ".") eqn:E'; reflexivity.
    + unfold StructureAgent.list_subdirectories_in_directory,
        StructureAgent.parent_depth, StructureAgent.query_filter.
      destruct (p =? ".") eqn:E'; reflexivity.
Qed.

(** ** The pattern built from a directory path *)

Lemma tokenize_plain (c : ascii) (rest : string) :
  special c = false ->
  tokenize (String c rest) = option_map (cons (TAtom (Lit c))) (tokenize rest).
Proof.
  intros H. unfold special in H. simpl in H.
  repeat (apply orb_false_elim in H; destruct H as [? H]).
  simpl.
  repeat match goal with
         | E : Ascii.eqb c ?x = false |- context [Ascii.eqb c ?x] => rewrite E
         end.
  unfold special; simpl.
  repeat match goal with
         | E : Ascii.eqb c ?x = false |- context [Ascii.eqb c ?x] => rewrite E
         end.
  reflexivity.
Qed.

Lemma tokenize_backslash_dot (rest : string) :
  tokenize (String "\" (String PyStr.dot rest))
  = option_map (cons (TAtom (Lit PyStr.dot))) (tokenize rest).
Proof. reflexivity. Qed.

Lemma tokenize_escaped (p tail : string) :
  literal_path p = true ->
  tokenize (PyStr.escape_dots p +:+ tail)
  = option_map (app (map (fun c => TAtom (Lit c)) (list_ascii_of_string p)))
               (tokenize tail).
Proof.
  induction p as [| c p IH]; intros H.
  - simpl. destruct (tokenize tail); reflexivity.
  - unfold literal_path in H. cbn [all_chars] in H.
    apply andb_prop in H. destruct H as [Hc Hp].
    specialize (IH Hp).
    cbn [PyStr.escape_dots list_ascii_of_string map].
    destruct (Ascii.eqb c PyStr.dot) eqn:Edot.
    + apply Ascii.eqb_eq in Edot. subst c.
      cbn [String.append].
      rewrite tokenize_backslash_dot, IH.
      destruct (tokenize tail); reflexivity.
    + unfold read_literally in Hc. rewrite Edot, orb_false_r in Hc.
      apply negb_true_iff in Hc.
      cbn [String.append].
      rewrite (tokenize_plain _ _ Hc), IH.
      destruct (tokenize tail); reflexivity.
Qed.

Lemma group_literals (l : list ascii) :
  group_tokens (map (fun c => TAtom (Lit c)) l) = Some (map (fun c => (Lit c, Once)) l).
Proof.
  induction l as [| c l IH]; [reflexivity |].
  cbn [map group_tokens]. destruct l as [| c' l'].
  - reflexivity.
  - cbn [map] in *. rewrite IH. reflexivity.
Qed.

Lemma match_literals (s t : string) :
  match_here (literal_items s) t = String.prefix s t.
Proof.
  revert t; induction s as [| c s IH]; intros t.
  - destruct t; reflexivity.
  - destruct t as [| x t]; [reflexivity |].
    unfold literal_items in *. cbn [list_ascii_of_string map match_here atom_matches].
    rewrite IH. simpl.
    destruct (Ascii.eqb_spec c x) as [-> | N].
    + destruct (ascii_dec x x); [reflexivity | contradiction].
    + destruct (ascii_dec c x); [contradiction | reflexivity].
Qed.

Lemma list_ascii_app (s t : string) :
  list_ascii_of_string (s +:+ t) = list_ascii_of_string s ++ list_ascii_of_string t.
Proof. induction s; simpl; congruence. Qed.

Lemma compile_escaped (p : string) :
  literal_path p = true ->
  compile ("^" +:+ PyStr.escape_dots p +:+ "/")
  = Some {| anchored := true; items := literal_items (p +:+ "/") |}.
Proof.
  intros H. cbn [String.append compile].
  unfold parse_items. rewrite (tokenize_escaped _ _ H).
  change (tokenize "/") with (Some [TAtom (Lit "/")]).
  cbn [option_map].
  change [TAtom (Lit "/")] with (map (fun c => TAtom (Lit c)) (list_ascii_of_string "/")).
  rewrite <- map_app, <- list_ascii_app, group_literals. reflexivity.
Qed.

Lemma regex_condition_literal (p : string) (field : option value) :
  literal_path p = true ->
  cond_holds (Regex ("^" +:+ PyStr.escape_dots p +:+ "/")) field
  = begins_with (p +:+ "/") field.
Proof.
  intros H. unfold cond_holds, begins_with.
  destruct field as [[| z | s] |]; try reflexivity.
  rewrite (compile_escaped _ H). unfold search. cbn [anchored items].
  apply match_literals.
Qed.

(** ** Queries whose patterns are of the fragment *)

Lemma holds_well_formed (k : string) (c : cond) (field : option value) :
  well_formed [(k, c)] = true -> holds c field = cond_holds c field.
Proof.
  unfold well_formed, holds. cbn [forallb snd]. destruct c; try reflexivity.
  destruct (compile pattern); [reflexivity | discriminate].
Qed.

Lemma well_formed_cons (k : string) (c : cond) (q : query) :
  well_formed ((k, c) :: q) = true ->
  well_formed [(k, c)] = true /\ well_formed q = true.
Proof.
  unfold well_formed. cbn [forallb]. intros H. apply andb_prop in H.
  destruct H as [Hc Hq]. rewrite Hc. split; [reflexivity | exact Hq].
Qed.

Lemma matches_well_formed (q : query) (d : document) :
  well_formed q = true ->
  matches q d = forallb (fun fc => cond_holds (snd fc) (get (fst fc) d)) q.
Proof.
  induction q as [| [k c] q IH]; [reflexivity |]. intros H.
  apply well_formed_cons in H. destruct H as [Hc Hq].
  unfold matches in *. cbn [forallb fst snd].
  rewrite (holds_well_formed k c _ Hc), (IH Hq). reflexivity.
Qed.

Lemma accepted_well_formed (q : query) : well_formed q = true -> accepted q = Ok tt.
Proof.
  induction q as [| [k c] q IH]; [reflexivity |]. intros H.
  apply well_formed_cons in H. destruct H as [Hc Hq].
  cbn [accepted]. destruct c; try exact (IH Hq).
  unfold well_formed in Hc. cbn [forallb snd] in Hc.
  destruct (compile pattern); [exact (IH Hq) | discriminate].
Qed.

Lemma select_well_formed (q : query) (docs : list document) :
  well_formed q = true ->
  select q docs
  = Ok (filter (fun d => forallb (fun fc => cond_holds (snd fc) (get (fst fc) d)) q) docs).
Proof.
  intros H. unfold select. rewrite (accepted_well_formed _ H). cbn [bind].
  f_equal. apply filter_ext. intros d. apply matches_well_formed, H.
Qed.

Lemma select_one (field : string) (c : cond) (docs : list document) :
  (forall pattern, c <> Regex pattern) ->
  select [(field, c)] docs = Ok (filter (fun d => cond_holds c (get field d)) docs).
Proof.
  intros H.
  assert (W : well_formed [(field, c)] = true).
  { unfold well_formed. cbn [forallb snd]. destruct c; try reflexivity.
    elim (H pattern). reflexivity. }
  rewrite (select_well_formed _ _ W). f_equal. apply filter_ext. intros d.
  cbn [forallb fst snd]. apply andb_true_r.
Qed.

Lemma query_filter_literal (p : string) (target : value) :
  p <> "." -> literal_path p = true ->
  well_formed (StructureAgent.query_filter p target) = true
  /\ forall d, matches (StructureAgent.query_filter p target) d = below p target d.
Proof.
  intros Hp H.
  assert (W : well_formed (StructureAgent.query_filter p target) = true).
  { unfold StructureAgent.query_filter. apply String.eqb_neq in Hp. rewrite Hp.
    unfold well_formed. cbn [forallb snd]. rewrite (compile_escaped _ H). reflexivity. }
  split; [exact W |].
  intros d. rewrite (matches_well_formed _ _ W).
  unfold StructureAgent.query_filter. apply String.eqb_neq in Hp. rewrite Hp.
  unfold below. cbn [forallb fst snd].
  rewrite (regex_condition_literal _ _ H), andb_true_r. reflexivity.
Qed.

Lemma distinct_query_filter (docs : list document) (p : string) (target : value) :
  p <> "." -> literal_path p = true ->
  distinct (stored docs) "directory" (StructureAgent.query_filter p target)
  = Ok (directories_below docs p target).
Proof.
  intros Hp H. destruct (query_filter_literal p target Hp H) as [W M].
  cbn [distinct stored]. unfold select. rewrite (accepted_well_formed _ W). cbn [bind].
  unfold directories_below. rewrite (filter_ext _ _ M). reflexivity.
Qed.

Lemma prefix_longer (p tail : string) : String.prefix (p +:+ String "/" tail) p = false.
Proof.
  induction p as [| c p IH]; [reflexivity |].
  simpl. destruct (ascii_dec c c); [exact IH | reflexivity].
Qed.

Lemma field_values_In (field : string) (docs : list document) (v : value) :
  In v (field_values field docs) <-> exists d, In d docs /\ get field d = Some v.
Proof.
  induction docs as [| d docs IH]; simpl.
  - split; [contradiction | intros (d & [] & _)].
  - destruct (get field d) as [w |] eqn:E; simpl; rewrite IH; split.
    + intros [<- | (d' & Hin & Hd)]; eauto.
    + intros (d' & [<- | Hin] & Hd); [left; congruence | eauto].
    + intros (d' & Hin & Hd); eauto.
    + intros (d' & [<- | Hin] & Hd); [congruence | eauto].
Qed.

Lemma directories_below_spec (docs : list document) (p : string) (target v : value) :
  In v (directories_below docs p target)
  <-> exists d, In d docs /\ below p target d = true /\ get "directory" d = Some v.
Proof.
  unfold directories_below. rewrite nodup_In, field_values_In. split.
  - intros (d & Hin & Hd). apply filter_In in Hin. destruct Hin. eauto.
  - intros (d & Hin & Hb & Hd). exists d. split; [apply filter_In; auto | exact Hd].
Qed.

Lemma directories_below_begin (docs : list document) (p : string) (target v : value) :
  In v (directories_below docs p target) -> begins_with (p +:+ "/") (Some v) = true.
Proof.
  intros H. apply directories_below_spec in H. destruct H as (d & _ & Hb & Hd).
  unfold below in Hb. apply andb_prop in Hb. rewrite Hd in Hb. tauto.
Qed.

Lemma contains_In (x : value) (l : list value) : Py.contains x l = true <-> In x l.
Proof.
  unfold Py.contains. rewrite existsb_exists. unfold value_eqb. split.
  - intros (y & Hin & Hy). destruct (value_eq_dec x y); [subst; auto | discriminate].
  - intros Hin. exists x. split; [auto |]. destruct (value_eq_dec x x); congruence.
Qed.

Lemma without_itself_below (docs : list document) (p : string) (target : value) :
  StructureAgent.without_itself p (directories_below docs p target)
  = directories_below docs p target.
Proof.
  unfold StructureAgent.without_itself.
  destruct (Py.contains (VStr p) (directories_below docs p target)) eqn:E.
  - apply contains_In, directories_below_begin in E. simpl in E.
    rewrite prefix_longer in E. discriminate.
  - rewrite andb_false_r. reflexivity.
Qed.

(** ** Paths, their components and [dirname] *)

Lemma components_cons (p : string) : exists name names, components p = name :: names.
Proof.
  destruct p as [| c rest]; simpl; eauto.
  destruct (Ascii.eqb c sep); eauto.
  destruct (components rest); eauto.
Qed.

Lemma count_components (p : string) : List.length (components p) = S (count sep p).
Proof.
  induction p as [| c rest IH]; [reflexivity |].
  simpl. destruct (Ascii.eqb c sep); simpl.
  - rewrite IH. reflexivity.
  - destruct (components rest); simpl in *; lia.
Qed.

Lemma components_sepfree (p : string) : Forall sepfree (components p).
Proof.
  induction p as [| c rest IH]; simpl.
  - repeat constructor.
  - destruct (Ascii.eqb c sep) eqn:E.
    + constructor; [reflexivity | exact IH].
    + destruct (components rest) as [| name names].
      * repeat constructor. unfold sepfree. simpl. rewrite E. reflexivity.
      * inversion IH; subst. constructor; [| assumption].
        unfold sepfree in *. simpl. rewrite E. assumption.
Qed.

Lemma append_not_empty (s t : string) (c : ascii) : s +:+ String c t <> "".
Proof. destruct s; discriminate. Qed.

Lemma concat_cons (x y : string) (l : list string) :
  String.concat "/" (x :: y :: l) = x +:+ String "/" (String.concat "/" (y :: l)).
Proof. reflexivity. Qed.

Lemma concat_cons_char (c : ascii) (x : string) (l : list string) :
  String.concat "/" (String c x :: l) = String c (String.concat "/" (x :: l)).
Proof. destruct l; reflexivity. Qed.

Lemma rsplit_components (p : string) :
  rsplit_after sep p = (head_of (removelast (components p)), last (components p) "").
Proof.
  induction p as [| c rest IH]; [reflexivity |].
  cbn [rsplit_after components]. rewrite IH.
  destruct (components rest) as [| name [| name' names]] eqn:E.
  - destruct (components_cons rest) as (n & ns & E'). congruence.
  - cbn [removelast head_of last].
    destruct (Ascii.eqb c sep) eqn:Ec; [| reflexivity].
    apply Ascii.eqb_eq in Ec. subst c. reflexivity.
  - remember (name' :: names) as more eqn:Em.
    assert (Hinit : removelast (name :: more) = name :: removelast more)
      by (subst more; reflexivity).
    rewrite Hinit. cbn [head_of].
    destruct (String.concat "/" (name :: removelast more) +:+ "/") as [| x h] eqn:Eh.
    + exfalso. exact (append_not_empty _ _ _ Eh).
    + destruct (Ascii.eqb c sep) eqn:Ec.
      * apply Ascii.eqb_eq in Ec. subst c.
        assert (Hi : removelast ("" :: name :: more) = "" :: name :: removelast more)
          by (subst more; reflexivity).
        rewrite Hi. cbn [head_of]. rewrite concat_cons.
        cbn [String.append]. rewrite Eh. subst more. reflexivity.
      * assert (Hi : removelast (String c name :: more)
                     = String c name :: removelast more)
          by (subst more; reflexivity).
        rewrite Hi. cbn [head_of]. rewrite concat_cons_char.
        cbn [String.append]. rewrite Eh. subst more. reflexivity.
Qed.

Lemma rstrip_sepfree (t : string) : sepfree t -> rstrip sep t = t.
Proof.
  unfold sepfree. induction t as [| x t IH]; [reflexivity |].
  simpl. destruct (Ascii.eqb x sep) eqn:E; [discriminate |].
  intros H. rewrite (IH H). destruct t; reflexivity.
Qed.

Lemma rstrip_app_keep (s t : string) :
  t <> "" -> rstrip sep t = t -> rstrip sep (s +:+ t) = s +:+ t.
Proof.
  intros Ht H. induction s as [| x s IH]; [exact H |].
  cbn [String.append rstrip]. rewrite IH.
  destruct (s +:+ t) eqn:E; [| reflexivity].
  destruct s; simpl in E; [congruence | discriminate].
Qed.

Lemma rstrip_app_sep (s : string) : rstrip sep (s +:+ "/") = rstrip sep s.
Proof.
  induction s as [| x s IH]; [reflexivity |].
  cbn [String.append rstrip]. rewrite IH. reflexivity.
Qed.

Lemma append_assoc (s t u : string) : (s +:+ t) +:+ u = s +:+ (t +:+ u).
Proof. induction s as [| c s IH]; simpl; [reflexivity | now rewrite IH]. Qed.

Lemma concat_last (l : list string) :
  l <> [] -> exists s, String.concat "/" l = s +:+ last l "".
Proof.
  induction l as [| x l IH]; [congruence | intros _].
  destruct l as [| y l].
  - exists "". reflexivity.
  - destruct IH as (s & Hs); [discriminate |].
    exists (x +:+ String "/" s). rewrite concat_cons, Hs.
    change (last (x :: y :: l) "") with (last (y :: l) "").
    symmetry. apply append_assoc.
Qed.

Lemma components_single (x : string) : sepfree x -> components x = [x].
Proof.
  unfold sepfree. induction x as [| c x IH]; [reflexivity |].
  simpl. destruct (Ascii.eqb c sep); [discriminate |].
  intros H. rewrite (IH H). reflexivity.
Qed.

Lemma components_app (x rest : string) :
  sepfree x -> components (x +:+ String "/" rest) = x :: components rest.
Proof.
  unfold sepfree. induction x as [| c x IH]; [reflexivity |].
  simpl. destruct (Ascii.eqb c sep); [discriminate |].
  intros H. rewrite (IH H). reflexivity.
Qed.

Lemma components_concat (names : list string) :
  names <> [] -> Forall sepfree names -> components (String.concat "/" names) = names.
Proof.
  induction names as [| x names IH]; [congruence | intros _ H].
  inversion H as [| ? ? Hx Hnames]; subst.
  destruct names as [| y names].
  - apply components_single, Hx.
  - rewrite concat_cons, (components_app _ _ Hx), IH; [reflexivity | discriminate | assumption].
Qed.

Lemma Forall_removelast (A : Type) (P : A -> Prop) (l : list A) :
  Forall P l -> Forall P (removelast l).
Proof.
  induction l as [| x [| y l] IH]; intros H; simpl; auto.
  inversion H; subst. constructor; auto.
Qed.

Lemma entry_names_Forall (names : list string) :
  forallb entry_name names = true <-> Forall (fun n => n <> "" /\ n <> ".") names.
Proof.
  rewrite forallb_forall, Forall_forall. unfold entry_name.
  split; intros H n Hn; specialize (H n Hn).
  - apply andb_prop in H. destruct H as [H1 H2].
    apply negb_true_iff in H1, H2. apply String.eqb_neq in H1, H2. auto.
  - destruct H as [H1 H2]. apply String.eqb_neq in H1, H2. rewrite H1, H2. reflexivity.
Qed.

Lemma dirname_components (p : string) :
  Forall (fun n => n <> "") (removelast (components p)) ->
  dirname p = match removelast (components p) with
              | [] => ""
              | init => String.concat "/" init
              end.
Proof.
  intros Hne. unfold dirname. rewrite rsplit_components. cbn [fst].
  assert (Hsf : Forall sepfree (removelast (components p)))
    by apply Forall_removelast, components_sepfree.
  destruct (removelast (components p)) as [| x l] eqn:E; [reflexivity |].
  set (init := x :: l) in *. unfold head_of. fold init.
  assert (Hinit : init <> []) by discriminate.
  change (match init with [] => "" | _ :: _ => String.concat "/" init +:+ "/" end)
    with (String.concat "/" init +:+ "/").
  assert (Hhead : (String.concat "/" init +:+ "/" =? "") = false)
    by apply String.eqb_neq, append_not_empty.
  rewrite Hhead. cbn [negb andb].
  assert (Hall : all_char sep (String.concat "/" init +:+ "/") = false).
  { subst init. inversion Hne as [| ? ? Hx _]; inversion Hsf as [| ? ? Sx _]; subst.
    destruct x as [| a x]; [congruence |].
    rewrite concat_cons_char. cbn [String.append all_char].
    unfold sepfree in Sx. simpl in Sx.
    destruct (Ascii.eqb a sep); [discriminate | reflexivity]. }
  rewrite Hall. cbn [negb].
  rewrite rstrip_app_sep.
  destruct (concat_last init Hinit) as (s & Hs). rewrite Hs.
  destruct (exists_last Hinit) as (l' & a & El). rewrite El in *.
  rewrite last_last.
  apply Forall_app in Hne, Hsf. destruct Hne as [_ Ha], Hsf as [_ Sa].
  inversion Ha; inversion Sa; subst.
  apply rstrip_app_keep; [assumption | apply rstrip_sepfree; assumption].
Qed.

(** What the names of a directory say about its path string. *)
Lemma directory_of_names (names : list string) :
  names <> [] -> Forall sepfree names -> forallb entry_name names = true ->
  let d := String.concat "/" names in
  d <> "" /\ d <> "." /\ components d = names
  /\ S (count sep d) = List.length names
  /\ dirname d = match removelast names with
                 | [] => ""
                 | init => String.concat "/" init
                 end.
Proof.
  intros Hne Hsf Hok d.
  assert (Hc : components d = names) by (apply components_concat; assumption).
  apply entry_names_Forall in Hok.
  assert (Hd : d <> "" /\ d <> ".").
  { split; intros E; rewrite E in Hc; simpl in Hc; subst names;
      inversion Hok as [| ? ? [H1 H2] _]; congruence. }
  destruct Hd as [Hd1 Hd2].
  repeat split; try assumption.
  - rewrite <- count_components, Hc. reflexivity.
  - pose proof (dirname_components d) as Hdir. rewrite Hc in Hdir. apply Hdir.
    apply Forall_removelast. revert Hok. apply Forall_impl. tauto.
Qed.

Lemma removelast_names (p : string) :
  repository_path p = true ->
  Forall sepfree (removelast (components p))
  /\ forallb entry_name (removelast (components p)) = true.
Proof.
  intros H. split.
  - apply Forall_removelast, components_sepfree.
  - apply entry_names_Forall, Forall_removelast, entry_names_Forall, H.
Qed.

(** The directory and the depth the indexer gives a file at a repository
    path, from the names of the directories on the way to it. *)
Lemma directory_and_depth_names (file_path : string) :
  repository_path file_path = true ->
  directory_and_depth file_path
  = match removelast (components file_path) with
    | [] => (".", 0%Z)
    | init => (String.concat "/" init, Z.of_nat (List.length init))
    end.
Proof.
  intros H. destruct (removelast_names _ H) as [Hsf Hok].
  unfold directory_and_depth. rewrite dirname_components.
  2:{ apply entry_names_Forall in Hok. revert Hok. apply Forall_impl. tauto. }
  destruct (removelast (components file_path)) as [| x l] eqn:E; [reflexivity |].
  destruct (directory_of_names (x :: l)) as (D1 & _ & _ & D4 & _);
    try assumption; try discriminate.
  apply String.eqb_neq in D1. rewrite D1. cbn [negb].
  f_equal. rewrite <- D4. lia.
Qed.

(** ** Depth is a function of the directory *)

Lemma repository_directory_shape (file_path : string) :
  repository_path file_path = true ->
  directory_shape (fst (directory_and_depth file_path))
                  (snd (directory_and_depth file_path)).
Proof.
  intros H. rewrite (directory_and_depth_names _ H).
  destruct (removelast_names _ H) as [Hsf Hok].
  destruct (removelast (components file_path)) as [| x l].
  - left. split; reflexivity.
  - right. exists (x :: l). repeat split; try assumption. discriminate.
Qed.

Lemma removelast_length (A : Type) (l : list A) :
  l <> [] -> List.length l = S (List.length (removelast l)).
Proof.
  induction l as [| x [| y l] IH]; intros H; [congruence | reflexivity |].
  change (removelast (x :: y :: l)) with (x :: removelast (y :: l)).
  simpl List.length in *. rewrite IH; [reflexivity | discriminate].
Qed.

Lemma shape_depth (d : string) (z : Z) :
  directory_shape d z ->
  (0 <= z)%Z /\ z = depth_of_directory d
  /\ (d <> "." -> z = (1 + depth_of_directory (parent_directory d))%Z)
  /\ (d <> "." -> parent_directory d = "." -> z = 1%Z).
Proof.
  intros [[-> ->] | (names & Hne & Hsf & Hok & -> & ->)].
  - repeat split; try reflexivity; try congruence; lia.
  - destruct (directory_of_names names Hne Hsf Hok) as (D1 & D2 & _ & D4 & D5).
    cbv zeta in *.
    assert (Hdepth : depth_of_directory (String.concat "/" names)
                     = Z.of_nat (List.length names)).
    { unfold depth_of_directory. apply String.eqb_neq in D2. rewrite D2. lia. }
    pose proof (removelast_length _ names Hne) as Hlen.
    assert (Hparent :
              (removelast names = []
               /\ parent_directory (String.concat "/" names) = ".")
              \/ (parent_directory (String.concat "/" names) <> "."
                  /\ depth_of_directory (parent_directory (String.concat "/" names))
                     = Z.of_nat (List.length (removelast names)))).
    { unfold parent_directory. rewrite D5.
      destruct (removelast names) as [| x l] eqn:E; [left; split; reflexivity | right].
      destruct (directory_of_names (x :: l)) as (P1 & P2 & _ & P4 & _).
      - discriminate.
      - rewrite <- E. apply Forall_removelast, Hsf.
      - rewrite <- E. apply entry_names_Forall, Forall_removelast, entry_names_Forall, Hok.
      - cbv zeta in *. apply String.eqb_neq in P1. rewrite P1.
        split; [assumption |].
        unfold depth_of_directory. apply String.eqb_neq in P2. rewrite P2. lia. }
    repeat split.
    + lia.
    + symmetry. exact Hdepth.
    + intros _. destruct Hparent as [[E P] | [_ P]]; rewrite P.
      * rewrite E in Hlen. simpl in Hlen. rewrite Hlen. reflexivity.
      * lia.
    + intros _ P. destruct Hparent as [[E _] | [N _]]; [| contradiction].
      rewrite E in Hlen. simpl in Hlen. rewrite Hlen. reflexivity.
Qed.

Lemma record_fields (file_path chunk : string) :
  let r := record {| LangChain.page_content := chunk;
                     LangChain.metadata := file_metadata file_path |} in
  get "source" r = Some (VStr file_path)
  /\ get "file_name" r = Some (VStr (basename file_path))
  /\ get "file_extension" r = Some (VStr (snd (splitext (basename file_path))))
  /\ get "directory" r = Some (VStr (fst (directory_and_depth file_path)))
  /\ get "depth" r = Some (VInt (snd (directory_and_depth file_path))).
Proof.
  repeat split.
Qed.

Lemma indexed_directory_depth (r : document) :
  indexed r ->
  exists d z, get "directory" r = Some (VStr d) /\ get "depth" r = Some (VInt z)
              /\ directory_shape d z.
Proof.
  intros (file_path & chunk & Hp & ->).
  destruct (record_fields file_path chunk) as (_ & _ & _ & Hd & Hz).
  eexists _, _. split; [exact Hd | split; [exact Hz |]].
  apply repository_directory_shape, Hp.
Qed.

Lemma persisted_In (split_text : string -> list string)
      (all_files : list (string * content)) (r : document) :
  In r (persisted split_text all_files) ->
  exists file_path text chunk,
    In (file_path, Text text) all_files /\ strip_nonempty text = true
    /\ In chunk (split_text text)
    /\ r = record {| LangChain.page_content := chunk;
                     LangChain.metadata := file_metadata file_path |}.
Proof.
  unfold persisted, split_documents.
  induction all_files as [| [file_path c] rest IH]; [contradiction |].
  cbn [documents_for_vectorstore].
  destruct (indexable c) as [text |] eqn:E.
  - cbn [flat_map]. rewrite map_app, in_app_iff. intros [H | H].
    + rewrite map_map in H. apply in_map_iff in H. destruct H as (chunk & <- & Hc).
      destruct c as [s | |]; try discriminate. simpl in E.
      destruct (strip_nonempty s) eqn:Es; [| discriminate].
      injection E as ->. exists file_path, text, chunk.
      cbn [LangChain.page_content LangChain.metadata] in *.
      repeat split; auto. left; reflexivity.
    + destruct (IH H) as (fp & t & ch & Hin & Hrest). exists fp, t, ch.
      split; [right; exact Hin | exact Hrest].
  - intros H. destruct (IH H) as (fp & t & ch & Hin & Hrest). exists fp, t, ch.
    split; [right; exact Hin | exact Hrest].
Qed.

Lemma persisted_indexed (split_text : string -> list string)
      (all_files : list (string * content)) :
  Forall (fun f => repository_path (fst f) = true) all_files ->
  Forall indexed (persisted split_text all_files).
Proof.
  intros H. apply Forall_forall. intros r Hr.
  apply persisted_In in Hr. destruct Hr as (fp & t & ch & Hin & _ & _ & ->).
  exists fp, ch. split; [| reflexivity].
  rewrite Forall_forall in H. exact (H _ Hin).
Qed.

(** C2. A record the indexer persists for a file of the repository has an
    integer depth that is at least 0 and is fixed by its directory: 0 for
    the root sentinel ["."], the number of separators plus one for any other
    directory; so the depth is one more than the depth of the parent
    directory, and it is 1 when the parent is the root. *)
Theorem depth_follows_directory :
  forall (split_text : string -> list string)
         (all_files : list (string * content)) (r : document),
    Forall (fun f => repository_path (fst f) = true) all_files ->
    In r (persisted split_text all_files) ->
    exists (d : string) (z : Z),
      get "directory" r = Some (VStr d) /\ get "depth" r = Some (VInt z)
      /\ (0 <= z)%Z
      /\ (d = "." -> z = 0%Z)
      /\ (d <> "." -> z = (Z.of_nat (count sep d) + 1)%Z)
      /\ (d <> "." -> z = (1 + depth_of_directory (parent_directory d))%Z)
      /\ (d <> "." -> parent_directory d = "." -> z = 1%Z).
Proof.
  intros split_text all_files r Hfiles Hr.
  pose proof (persisted_indexed split_text all_files Hfiles) as Hall.
  rewrite Forall_forall in Hall.
  destruct (indexed_directory_depth r (Hall r Hr)) as (d & z & Hd & Hz & Hshape).
  destruct (shape_depth d z Hshape) as (H0 & Hdepth & Hparent & Hroot).
  exists d, z. repeat split; try assumption.
  - intros ->. exact Hdepth.
  - intros N. rewrite Hdepth. unfold depth_of_directory.
    apply String.eqb_neq in N. rewrite N. reflexivity.
Qed.

(** ** Resolving the depth of a directory *)

Lemma get_project (k : string) (d : document) : get k (project [k] d) = get k d.
Proof.
  induction d as [| [k' v] d IH]; [reflexivity |].
  cbn [project filter existsb fst get]. rewrite orb_false_r.
  destruct (k' =? k) eqn:E.
  - cbn [get]. rewrite E. reflexivity.
  - exact IH.
Qed.

Lemma hd_error_filter (A : Type) (f : A -> bool) (l : list A) :
  hd_error (filter f l) = List.find f l.
Proof.
  induction l as [| x l IH]; [reflexivity |].
  simpl. destruct (f x); [reflexivity | exact IH].
Qed.

Lemma select_directory (docs : list document) (p : string) :
  select [("directory", Eq (VStr p))] docs
  = Ok (filter (fun d => cond_holds (Eq (VStr p)) (get "directory" d)) docs).
Proof.
  apply select_one. intros pattern. discriminate.
Qed.

Lemma has_directory (p : string) (d : document) :
  cond_holds (Eq (VStr p)) (get "directory" d) = true <-> get "directory" d = Some (VStr p).
Proof.
  unfold cond_holds, value_eqb. destruct (get "directory" d) as [v |].
  - destruct (value_eq_dec (VStr p) v); split; intros; congruence.
  - destruct (value_eq_dec (VStr p) VNull); split; intros; discriminate.
Qed.

Lemma parent_depth_stored (docs : list document) (p : string) :
  p <> "." ->
  StructureAgent.parent_depth (stored docs) p
  = Ok (match first_record docs p with
        | Some r => get "depth" r
        | None => None
        end).
Proof.
  intros Hp. unfold StructureAgent.parent_depth.
  apply String.eqb_neq in Hp. rewrite Hp.
  cbn [find_one stored]. rewrite select_directory. cbn [bind].
  rewrite hd_error_filter. fold (first_record docs p).
  destruct (first_record docs p) as [r |]; [| reflexivity].
  cbn [option_map]. pose proof (get_project "depth" r) as G.
  destruct (project ["depth"] r); [| rewrite G; reflexivity].
  rewrite <- G. reflexivity.
Qed.

Lemma first_record_spec (docs : list document) (p : string) (r : document) :
  first_record docs p = Some r -> In r docs /\ get "directory" r = Some (VStr p).
Proof.
  intros H. apply find_some in H. rewrite has_directory in H. exact H.
Qed.

Lemma first_record_none (docs : list document) (p : string) :
  first_record docs p = None ->
  forall r, In r docs -> get "directory" r <> Some (VStr p).
Proof.
  intros H r Hr E. apply has_directory in E.
  pose proof (find_none _ _ H r Hr) as N. cbv beta in N. congruence.
Qed.

Lemma count_subdirectories_literal (docs : list document) (p : string) :
  p <> "." -> literal_path p = true ->
  StructureAgent.count_subdirectories_in_directory (stored docs) p
  = match first_record docs p with
    | None => Ok (StructureAgent.not_found p)
    | Some r =>
        match get "depth" r with
        | None => Ok (StructureAgent.not_found p)
        | Some (VInt D) =>
            Ok ("Total number of subdirectories directly in directory '" +:+ p +:+ "': "
                +:+ PyStr.of_nat
                      (List.length (directories_below docs p (VInt (D + 1)))))
        | Some v =>
            try_except (bind (Py.add_one v) (fun _ => Ok ""))
              (fun e => Ok ("Error counting subdirectories in directory '"
                            +:+ p +:+ "': " +:+ e))
        end
    end.
Proof.
  intros Hp H. unfold StructureAgent.count_subdirectories_in_directory.
  rewrite (parent_depth_stored docs p Hp). cbn [bind].
  destruct (first_record docs p) as [r |]; [| reflexivity].
  destruct (get "depth" r) as [[| D | s] |]; try reflexivity.
  cbn [Py.add_one bind].
  rewrite (distinct_query_filter docs p (VInt (D + 1)) Hp H). cbn [bind].
  rewrite without_itself_below. reflexivity.
Qed.

(** C10. In a collection of records the indexer persisted, two records
    with the same directory have the same depth; hence the depth the
    subdirectory tools resolve for a directory is the depth of every record
    of that directory, whichever of them the lookup returns. *)
Theorem same_directory_same_depth :
  forall docs : list document,
    Forall indexed docs ->
    (forall r1 r2, In r1 docs -> In r2 docs ->
                   get "directory" r1 = get "directory" r2 ->
                   get "depth" r1 = get "depth" r2)
    /\ (forall r p, In r docs -> get "directory" r = Some (VStr p) ->
                    StructureAgent.parent_depth (stored docs) p = Ok (get "depth" r)).
Proof.
  intros docs Hall. rewrite Forall_forall in Hall.
  assert (Hsame : forall r1 r2, In r1 docs -> In r2 docs ->
                                get "directory" r1 = get "directory" r2 ->
                                get "depth" r1 = get "depth" r2).
  { intros r1 r2 H1 H2 E.
    destruct (indexed_directory_depth r1 (Hall r1 H1)) as (d1 & z1 & Hd1 & Hz1 & S1).
    destruct (indexed_directory_depth r2 (Hall r2 H2)) as (d2 & z2 & Hd2 & Hz2 & S2).
    rewrite Hd1, Hd2 in E. injection E as ->.
    destruct (shape_depth d2 z1 S1) as (_ & -> & _).
    destruct (shape_depth d2 z2 S2) as (_ & -> & _).
    congruence. }
  split; [exact Hsame |].
  intros r p Hr Hd. destruct (string_dec p ".") as [-> | Hp].
  - destruct (indexed_directory_depth r (Hall r Hr)) as (d & z & Hd' & Hz & S).
    rewrite Hd in Hd'. injection Hd' as <-.
    destruct (shape_depth "." z S) as (_ & -> & _).
    rewrite Hz. reflexivity.
  - rewrite (parent_depth_stored docs p Hp).
    destruct (first_record docs p) as [r' |] eqn:E.
    + apply first_record_spec in E. destruct E as [Hr' Hd'].
      f_equal. apply Hsame; congruence.
    + exfalso. exact (first_record_none docs p E r Hr Hd).
Qed.

(** ** Subdirectories *)

Lemma depth_condition (z : Z) (field : option value) :
  cond_holds (Eq (VInt z)) field = true <-> field = Some (VInt z).
Proof.
  unfold cond_holds, value_eqb. destruct field as [v |].
  - destruct (value_eq_dec (VInt z) v); split; intros; congruence.
  - destruct (value_eq_dec (VInt z) VNull); split; intros; discriminate.
Qed.

Lemma first_record_some (docs : list document) (p : string) (r : document) :
  In r docs -> get "directory" r = Some (VStr p) ->
  exists r', first_record docs p = Some r'.
Proof.
  intros Hr Hd. destruct (first_record docs p) as [r' |] eqn:E; [eauto |].
  exfalso. exact (first_record_none docs p E r Hr Hd).
Qed.

Lemma first_record_absent (docs : list document) (p : string) :
  (forall r, In r docs -> get "directory" r <> Some (VStr p)) ->
  first_record docs p = None.
Proof.
  intros H. destruct (first_record docs p) as [r |] eqn:E; [| reflexivity].
  apply first_record_spec in E. destruct E as [Hr Hd]. elim (H r Hr Hd).
Qed.

(** No record of the directory: the answer is the not-found sentence,
    whatever the characters of the path. *)
Lemma count_subdirectories_not_found (docs : list document) (p : string) :
  p <> "." ->
  (forall r, In r docs -> get "directory" r <> Some (VStr p)) ->
  StructureAgent.count_subdirectories_in_directory (stored docs) p
  = Ok (StructureAgent.not_found p).
Proof.
  intros Hp H. unfold StructureAgent.count_subdirectories_in_directory.
  rewrite (parent_depth_stored docs p Hp), (first_record_absent docs p H).
  reflexivity.
Qed.

(** A path without special characters other than dots: the count is the
    number of distinct directory values that begin with [p ++ "/"] one
    level below the depth [D] of the first record of [p]. *)
Lemma count_subdirectories_of_literal_path
      (docs : list document) (p : string) (r : document) (D : Z) :
  p <> "." -> literal_path p = true ->
  first_record docs p = Some r -> get "depth" r = Some (VInt D) ->
  StructureAgent.count_subdirectories_in_directory (stored docs) p
  = Ok ("Total number of subdirectories directly in directory '" +:+ p +:+ "': "
        +:+ PyStr.of_nat (List.length (directories_below docs p (VInt (D + 1))))).
Proof.
  intros Hp H E Hd. rewrite (count_subdirectories_literal docs p Hp H), E, Hd.
  reflexivity.
Qed.

(** The root: the count is the number of distinct directory values of the
    records at depth 1. *)
Lemma count_subdirectories_root (docs : list document) :
  StructureAgent.count_subdirectories_in_directory (stored docs) "."
  = Ok ("Total number of subdirectories directly in directory '.': "
        +:+ PyStr.of_nat
              (List.length
                 (nodup value_eq_dec
                    (field_values "directory"
                       (filter (fun d => cond_holds (Eq (VInt 1)) (get "depth" d)) docs))))).
Proof.
  unfold StructureAgent.count_subdirectories_in_directory,
    StructureAgent.parent_depth, StructureAgent.query_filter,
    StructureAgent.without_itself.
  cbn [String.eqb Ascii.eqb Bool.eqb bind Py.add_one negb andb].
  cbn [distinct stored].
  rewrite (select_one "depth" (Eq (VInt 1)) docs) by (intros pattern; discriminate).
  reflexivity.
Qed.

(** C6. In a collection of indexed records that has the directory ["src"],
    the count for ["src"] is the number of distinct directory values that
    begin with ["src/"] and lie one level deeper; ["src-old"] and
    ["src-utils"] are never among the values counted. *)
Theorem src_does_not_count_src_old :
  forall docs : list document,
    Forall indexed docs ->
    (exists r, In r docs /\ get "directory" r = Some (VStr "src")) ->
    exists counted : list value,
      StructureAgent.count_subdirectories_in_directory (stored docs) "src"
      = Ok ("Total number of subdirectories directly in directory 'src': "
            +:+ PyStr.of_nat (List.length counted))
      /\ NoDup counted
      /\ (forall v, In v counted <->
                    exists r, In r docs /\ get "directory" r = Some v
                              /\ begins_with "src/" (Some v) = true
                              /\ get "depth" r = Some (VInt 2))
      /\ ~ In (VStr "src-old") counted
      /\ ~ In (VStr "src-utils") counted.
Proof.
  intros docs Hall (r & Hr & Hd).
  destruct (first_record_some docs "src" r Hr Hd) as (r' & E).
  pose proof (first_record_spec docs "src" r' E) as [Hr' Hd'].
  rewrite Forall_forall in Hall.
  destruct (indexed_directory_depth r' (Hall r' Hr')) as (d & z & Hd'' & Hz & S).
  rewrite Hd' in Hd''. injection Hd'' as <-.
  destruct (shape_depth "src" z S) as (_ & Hdepth & _).
  change (depth_of_directory "src") with 1%Z in Hdepth. subst z.
  exists (directories_below docs "src" (VInt 2)).
  assert (Hbegin : forall v, In v (directories_below docs "src" (VInt 2)) ->
                             begins_with "src/" (Some v) = true)
    by (intros v Hv; exact (directories_below_begin docs "src" (VInt 2) v Hv)).
  repeat split.
  - rewrite count_subdirectories_literal; [| discriminate | reflexivity].
    rewrite E, Hz. reflexivity.
  - apply NoDup_nodup.
  - intros Hv. pose proof (Hbegin v Hv) as Hb.
    apply directories_below_spec in Hv. destruct Hv as (d & Hin & Hbelow & Hdir).
    exists d. repeat split; try assumption.
    unfold below in Hbelow. apply andb_prop in Hbelow.
    apply depth_condition, Hbelow.
  - intros (d & Hin & Hdir & Hb & Hdepth). apply directories_below_spec.
    exists d. repeat split; try assumption.
    unfold below. rewrite Hdir. change ("src" +:+ "/") with "src/". rewrite Hb.
    apply depth_condition, Hdepth.
  - intros Hv. apply Hbegin in Hv. discriminate.
  - intros Hv. apply Hbegin in Hv. discriminate.
Qed.

(** C1, at a path with a special character.  For the directory ["a+b"],
    whose records have depth 1, one distinct directory value begins with
    ["a+b/"] at depth 2, yet the tool reports no subdirectory. *)
Theorem plus_directory_counts_nothing :
  first_record plus_repository "a+b"
  = Some [("text", VStr "x"); ("source", VStr "a+b/x.txt");
          ("file_name", VStr "x.txt"); ("file_extension", VStr ".txt");
          ("directory", VStr "a+b"); ("depth", VInt 1)]
  /\ directories_below plus_repository "a+b" (VInt 2) = [VStr "a+b/c"]
  /\ StructureAgent.count_subdirectories_in_directory (stored plus_repository) "a+b"
     = Ok "Total number of subdirectories directly in directory 'a+b': 0".
Proof. repeat split. Qed.

(** C3, at a path with a special character.  Only the dots of a path are
    escaped: for ["a+b"] the pattern is ["^a+b/"], in which [+] is a
    quantifier; it rejects ["a+b/c"], accepts ["aab/c"], and the listing
    names the unrelated directory instead of the subdirectory. *)
Theorem plus_is_not_escaped :
  PyStr.escape_dots "a+b" = "a+b"
  /\ StructureAgent.query_filter "a+b" (VInt 2)
     = [("directory", Regex "^a+b/"); ("depth", Eq (VInt 2))]
  /\ cond_holds (Regex "^a+b/") (Some (VStr "a+b/c")) = false
  /\ cond_holds (Regex "^a+b/") (Some (VStr "aab/c")) = true
  /\ StructureAgent.list_subdirectories_in_directory (stored plus_and_aab_repository) "a+b"
     = Ok "Subdirectories directly in directory 'a+b': aab/c"
  /\ StructureAgent.count_subdirectories_in_directory (stored plus_and_aab_repository) "a+b"
     = Ok "Total number of subdirectories directly in directory 'a+b': 1"
  /\ directories_below plus_and_aab_repository "a+b" (VInt 2) = [VStr "a+b/c"].
Proof. repeat split. Qed.

(** ** Top-level directories *)

Lemma insert_length (A : Type) (leb : A -> A -> bool) (x : A) (l : list A) :
  List.length (Py.insert leb x l) = S (List.length l).
Proof.
  induction l as [| y l IH]; [reflexivity |].
  simpl. destruct (leb x y); simpl; congruence.
Qed.

Lemma sort_length (A : Type) (leb : A -> A -> bool) (l : list A) :
  List.length (Py.sort leb l) = List.length l.
Proof.
  induction l as [| x l IH]; [reflexivity |].
  unfold Py.sort in *. cbn [fold_right]. rewrite insert_length, IH. reflexivity.
Qed.

Lemma strings_of_map (ss : list string) : Py.strings_of (map VStr ss) = Some ss.
Proof.
  induction ss as [| s ss IH]; [reflexivity |].
  cbn [map Py.strings_of]. rewrite IH. reflexivity.
Qed.

Lemma all_strings (l : list value) :
  (forall v, In v l -> exists s, v = VStr s) -> exists ss, l = map VStr ss.
Proof.
  induction l as [| v l IH]; intros H.
  - exists []. reflexivity.
  - destruct (H v (or_introl eq_refl)) as (s & ->).
    destruct IH as (ss & ->); [intros w Hw; apply H; right; exact Hw |].
    exists (s :: ss). reflexivity.
Qed.

Lemma sorted_strings (ss : list string) :
  Py.sorted (map VStr ss) = Ok (map VStr (Py.sort String.leb ss)).
Proof. unfold Py.sorted. rewrite strings_of_map. reflexivity. Qed.

Lemma join_or_none_strings (names : list string) :
  StructureAgent.join_or_none (map VStr names)
  = Ok (listing names).
Proof.
  destruct names as [| n names]; [reflexivity |].
  unfold StructureAgent.join_or_none, Py.join.
  cbn [map]. rewrite <- (map_cons VStr), strings_of_map. reflexivity.
Qed.

Lemma indexed_directories_are_strings (docs : list document) (f : document -> bool) :
  Forall indexed docs ->
  forall v, In v (nodup value_eq_dec (field_values "directory" (filter f docs))) ->
            exists s, v = VStr s.
Proof.
  intros Hall v Hv. rewrite Forall_forall in Hall.
  apply nodup_In, field_values_In in Hv. destruct Hv as (d & Hin & Hd).
  apply filter_In in Hin. destruct Hin as [Hin _].
  destruct (indexed_directory_depth d (Hall d Hin)) as (s & z & Hs & _).
  exists s. congruence.
Qed.

(** C7. For a collection of indexed records, the number the subdirectory
    count reports for the root ["."] is the number of directories that
    [list_top_level_directories] lists. *)
Theorem root_count_is_top_level_count :
  forall docs : list document,
    Forall indexed docs ->
    exists names : list string,
      StructureAgent.top_level_dirs (stored docs) = Ok (map VStr names)
      /\ StructureAgent.list_top_level_directories (stored docs)
         = Ok ("Top-level directories: " +:+ listing names)
      /\ StructureAgent.count_subdirectories_in_directory (stored docs) "."
         = Ok ("Total number of subdirectories directly in directory '.': "
               +:+ PyStr.of_nat (List.length names)).
Proof.
  intros docs Hall.
  set (found := nodup value_eq_dec
                  (field_values "directory"
                     (filter (matches [("depth", Eq (VInt 1))]) docs))).
  assert (Hdistinct : distinct (stored docs) "directory" [("depth", Eq (VInt 1))]
                      = Ok found) by reflexivity.
  destruct (all_strings found (indexed_directories_are_strings docs _ Hall))
    as (ss & Hss).
  exists (Py.sort String.leb ss).
  assert (Htop : StructureAgent.top_level_dirs (stored docs)
                 = Ok (map VStr (Py.sort String.leb ss))).
  { unfold StructureAgent.top_level_dirs. rewrite Hdistinct. cbn [bind].
    rewrite Hss. apply sorted_strings. }
  repeat split.
  - exact Htop.
  - unfold StructureAgent.list_top_level_directories. rewrite Htop. cbn [bind].
    rewrite join_or_none_strings. reflexivity.
  - unfold StructureAgent.count_subdirectories_in_directory,
      StructureAgent.parent_depth, StructureAgent.query_filter,
      StructureAgent.without_itself.
    cbn [String.eqb Ascii.eqb Bool.eqb bind Py.add_one negb andb].
    change (0 + 1)%Z with 1%Z. rewrite Hdistinct. cbn [bind try_except].
    rewrite sort_length, Hss, length_map. reflexivity.
Qed.

(** ** Listing subdirectories *)

Lemma insert_In (A : Type) (leb : A -> A -> bool) (x y : A) (l : list A) :
  In y (Py.insert leb x l) <-> y = x \/ In y l.
Proof.
  induction l as [| z l IH]; simpl.
  - intuition congruence.
  - destruct (leb x z); simpl; [| rewrite IH]; intuition congruence.
Qed.

Lemma sort_In (A : Type) (leb : A -> A -> bool) (y : A) (l : list A) :
  In y (Py.sort leb l) <-> In y l.
Proof.
  induction l as [| x l IH]; [reflexivity |].
  unfold Py.sort in *. cbn [fold_right]. rewrite insert_In, IH.
  simpl. intuition congruence.
Qed.

(** The listing tool on a path without special characters other than dots,
    in a collection of indexed records: the sorted directory values that
    begin with [p ++ "/"] one level below [p]. *)
Lemma list_subdirectories_of_literal_path
      (docs : list document) (p : string) (r : document) (D : Z) :
  Forall indexed docs ->
  p <> "." -> literal_path p = true ->
  first_record docs p = Some r -> get "depth" r = Some (VInt D) ->
  exists names : list string,
    directories_below docs p (VInt (D + 1)) = map VStr names
    /\ StructureAgent.list_subdirectories_in_directory (stored docs) p
       = Ok ("Subdirectories directly in directory '" +:+ p +:+ "': "
             +:+ listing (Py.sort String.leb names)).
Proof.
  intros Hall Hp H E Hd.
  destruct (all_strings (directories_below docs p (VInt (D + 1)))
              (indexed_directories_are_strings docs _ Hall)) as (names & Hnames).
  exists names. split; [exact Hnames |].
  unfold StructureAgent.list_subdirectories_in_directory.
  rewrite (parent_depth_stored docs p Hp), E, Hd. cbn [bind Py.add_one].
  rewrite (distinct_query_filter docs p (VInt (D + 1)) Hp H), Hnames. cbn [bind].
  rewrite sorted_strings. cbn [bind].
  assert (Hself : Py.contains (VStr p) (map VStr (Py.sort String.leb names)) = false).
  { destruct (Py.contains (VStr p) (map VStr (Py.sort String.leb names))) eqn:C;
      [| reflexivity].
    apply contains_In, in_map_iff in C. destruct C as (s & Hs & Hin).
    injection Hs as ->. apply sort_In in Hin.
    assert (Hv : In (VStr p) (directories_below docs p (VInt (D + 1))))
      by (rewrite Hnames; apply in_map; exact Hin).
    apply directories_below_begin in Hv. simpl in Hv.
    rewrite prefix_longer in Hv. discriminate. }
  unfold StructureAgent.without_itself. rewrite Hself, andb_false_r.
  rewrite join_or_none_strings. reflexivity.
Qed.

(** ** Counting files by name *)

Lemma field_values_app (field : string) (a b : list document) :
  field_values field (a ++ b) = field_values field a ++ field_values field b.
Proof.
  induction a as [| d a IH]; [reflexivity |].
  simpl. destruct (get field d); simpl; congruence.
Qed.

Lemma field_values_exists (field : string) (docs : list document) :
  field_values field (filter (matches [(field, Exists true)]) docs)
  = field_values field docs.
Proof.
  induction docs as [| d docs IH]; [reflexivity |].
  cbn [filter]. unfold matches at 1. cbn [forallb fst snd holds cond_holds].
  destruct (get field d) as [v |] eqn:E; cbn [andb negb field_values].
  - rewrite E, IH. reflexivity.
  - rewrite E. exact IH.
Qed.

Lemma unique_file_names_stored (docs : list document) :
  distinct (stored docs) "file_name" [("file_name", Exists true)]
  = Ok (nodup value_eq_dec (field_values "file_name" docs)).
Proof.
  assert (W : well_formed [("file_name", Exists true)] = true) by reflexivity.
  cbn [distinct stored]. unfold select. rewrite (accepted_well_formed _ W). cbn [bind].
  rewrite field_values_exists. reflexivity.
Qed.

Lemma nodup_length_same (l l' : list value) :
  (forall v, In v l <-> In v l') ->
  List.length (nodup value_eq_dec l) = List.length (nodup value_eq_dec l').
Proof.
  intros H. apply Permutation_length, NoDup_Permutation; try apply NoDup_nodup.
  intros v. rewrite !nodup_In. apply H.
Qed.

(** C5. [count_total_files] reports the number of distinct [file_name]
    values of the collection; a record whose file name is already that of
    another record, whatever their directories, adds nothing to it. *)
Theorem count_total_files_counts_names :
  forall docs : list document,
    (exists names : list value,
        StructureAgent.count_total_files (stored docs)
        = Ok ("Total number of unique original files indexed: "
              +:+ PyStr.of_nat (List.length names))
        /\ NoDup names
        /\ forall v, In v names <-> exists d, In d docs /\ get "file_name" d = Some v)
    /\ (forall (before after : list document) (r r' : document),
           docs = before ++ r :: after ->
           In r' (before ++ after) ->
           get "file_name" r = get "file_name" r' ->
           StructureAgent.count_total_files (stored docs)
           = StructureAgent.count_total_files (stored (before ++ after))).
Proof.
  intros docs. split.
  - exists (nodup value_eq_dec (field_values "file_name" docs)). repeat split.
    + unfold StructureAgent.count_total_files.
      rewrite unique_file_names_stored. reflexivity.
    + apply NoDup_nodup.
    + intros H. apply nodup_In, field_values_In in H. exact H.
    + intros H. apply nodup_In, field_values_In. exact H.
  - intros before after r r' -> Hr' E.
    unfold StructureAgent.count_total_files.
    rewrite !unique_file_names_stored. cbn [bind try_except].
    do 3 f_equal. apply nodup_length_same. intros v.
    rewrite !field_values_In. split.
    + intros (d & Hd & Hv). apply in_app_iff in Hd.
      destruct Hd as [Hd | [<- | Hd]].
      * exists d. split; [apply in_app_iff; auto | exact Hv].
      * exists r'. split; [exact Hr' | congruence].
      * exists d. split; [apply in_app_iff; auto | exact Hv].
    + intros (d & Hd & Hv). exists d. split; [| exact Hv].
      apply in_app_iff in Hd. apply in_app_iff. simpl. tauto.
Qed.

(** ** Counting by extension *)

Lemma bump_total (k : value) (groups : list (value * nat)) :
  group_total (bump k groups) = S (group_total groups).
Proof.
  unfold group_total. induction groups as [| [k' n] groups IH]; [reflexivity |].
  cbn [bump]. destruct (value_eqb k k'); simpl in *; lia.
Qed.

Lemma group_count_total (field : string) (docs : list document) :
  group_total (group_count field docs) = List.length docs.
Proof.
  unfold group_count.
  assert (H : forall groups,
             group_total (fold_left (fun gs d => bump (field_or_null field d) gs) docs groups)
             = group_total groups + List.length docs).
  { induction docs as [| d docs IH]; intros groups; cbn [fold_left List.length].
    - lia.
    - rewrite IH, bump_total. lia. }
  rewrite H. reflexivity.
Qed.

Lemma total_of_counts_cons (item : document) (items : list document) :
  total_of_counts (item :: items)
  = match get "count" item with
    | Some (VInt z) => (z + total_of_counts items)%Z
    | _ => total_of_counts items
    end.
Proof. reflexivity. Qed.

Lemma total_of_group_documents (groups : list (value * nat)) :
  total_of_counts (map group_document groups) = Z.of_nat (group_total groups).
Proof.
  unfold group_total. induction groups as [| [k n] groups IH]; [reflexivity |].
  cbn [map]. rewrite total_of_counts_cons, IH.
  change (get "count" (group_document (k, n))) with (Some (VInt (Z.of_nat n))).
  simpl. lia.
Qed.

Lemma total_of_insert (field : string) (d : document) (l : list document) :
  total_of_counts (insert_descending field d l) = total_of_counts (d :: l).
Proof.
  induction l as [| x l IH]; [reflexivity |].
  cbn [insert_descending].
  destruct (value_ltb (field_or_null field d) (field_or_null field x)); [| reflexivity].
  rewrite !total_of_counts_cons, IH, total_of_counts_cons.
  destruct (get "count" x) as [[| zx |] |]; destruct (get "count" d) as [[| zd |] |]; lia.
Qed.

Lemma total_of_sort (field : string) (l : list document) :
  total_of_counts (sort_descending field l) = total_of_counts l.
Proof.
  induction l as [| x l IH]; [reflexivity |].
  unfold sort_descending in *. cbn [fold_right].
  rewrite total_of_insert, !total_of_counts_cons, IH. reflexivity.
Qed.

Lemma field_values_all (field : string) (docs : list document) :
  Forall (fun d => get field d <> None) docs ->
  List.length (field_values field docs) = List.length docs.
Proof.
  induction 1 as [| d docs Hd _ IH]; [reflexivity |].
  cbn [field_values]. destruct (get field d); [simpl; congruence | congruence].
Qed.

(** X19. The per-extension counts sum to the number of persisted chunk
    records; when every record has a file name and no two records share
    one, that is the count [count_total_files] reports. *)
Theorem extension_counts_sum_to_records :
  forall docs : list document,
    exists items : list document,
      StructureAgent.extension_counts (stored docs) = Ok items
      /\ total_of_counts items = Z.of_nat (List.length docs)
      /\ (Forall (fun d => get "file_name" d <> None) docs ->
          NoDup (field_values "file_name" docs) ->
          StructureAgent.count_total_files (stored docs)
          = Ok ("Total number of unique original files indexed: "
                +:+ PyStr.of_nat (List.length docs))).
Proof.
  intros docs.
  exists (sort_descending "count"
            (map group_document (group_count "file_extension" docs))).
  repeat split.
  - rewrite total_of_sort, total_of_group_documents, group_count_total. reflexivity.
  - intros Hall Hnodup. unfold StructureAgent.count_total_files.
    rewrite unique_file_names_stored. cbn [bind try_except].
    rewrite (nodup_fixed_point value_eq_dec Hnodup), (field_values_all _ _ Hall).
    reflexivity.
Qed.

(** C4, at a file of two chunks.  The only file of the repository has a
    unique name and was split into two chunks: [count_files_by_extension]
    reports 2 files for [.py], so the per-extension counts sum to 2, while
    [count_total_files] reports 1 file. *)
Theorem unique_names_two_chunks :
  unique_file_names two_chunks
  /\ Forall indexed two_chunks
  /\ StructureAgent.extension_counts (stored two_chunks)
     = Ok [[("_id", VStr ".py"); ("count", VInt 2)]]
  /\ total_of_counts [[("_id", VStr ".py"); ("count", VInt 2)]] = 2%Z
  /\ StructureAgent.count_files_by_extension (stored two_chunks)
     = Ok ("File extension counts:" +:+ Py.nl +:+ "- .py: 2")
  /\ StructureAgent.count_total_files (stored two_chunks)
     = Ok ("Total number of unique original files indexed: " +:+ PyStr.of_nat 1)
  /\ 2%Z <> Z.of_nat 1.
Proof.
  split; [| split].
  - intros r1 r2 [<- | [<- | []]] [<- | [<- | []]] _; reflexivity.
  - indexed_records.
  - repeat split. discriminate.
Qed.

(** ** Files of a directory are counted and listed per chunk *)

Section Chunks.

(** The splitter the indexer runs with. *)
Variable split_text : string -> list string.

Lemma documents_app (a b : list (string * content)) :
  documents_for_vectorstore (a ++ b)
  = documents_for_vectorstore a ++ documents_for_vectorstore b.
Proof.
  induction a as [| [file_path c] a IH]; [reflexivity |].
  simpl. destruct (indexable c); simpl; congruence.
Qed.

Lemma persisted_app (a b : list (string * content)) :
  persisted split_text (a ++ b) = persisted split_text a ++ persisted split_text b.
Proof.
  unfold persisted, split_documents.
  rewrite documents_app, flat_map_app, map_app. reflexivity.
Qed.

Lemma persisted_cons (file_path text : string) (rest : list (string * content)) :
  strip_nonempty text = true ->
  persisted split_text ((file_path, Text text) :: rest)
  = chunk_records split_text file_path text ++ persisted split_text rest.
Proof.
  intros H. unfold persisted, split_documents, chunk_records.
  cbn [documents_for_vectorstore indexable]. rewrite H.
  cbn [flat_map LangChain.page_content LangChain.metadata].
  rewrite map_app, map_map. reflexivity.
Qed.

Lemma filter_chunk_records (file_path text : string) :
  filter (fun d => cond_holds (Eq (VStr (fst (directory_and_depth file_path))))
                              (get "directory" d))
         (chunk_records split_text file_path text)
  = chunk_records split_text file_path text.
Proof.
  unfold chunk_records. induction (split_text text) as [| chunk chunks IH]; [reflexivity |].
  cbn [map filter]. rewrite IH.
  destruct (record_fields file_path chunk) as (_ & _ & _ & Hd & _).
  cbv zeta in Hd. apply has_directory in Hd. rewrite Hd. reflexivity.
Qed.

Lemma file_names_chunk_records (file_path text : string) :
  field_values "file_name"
    (map (project ["file_name"]) (chunk_records split_text file_path text))
  = map VStr (repeat (basename file_path) (List.length (split_text text))).
Proof.
  unfold chunk_records. induction (split_text text) as [| chunk chunks IH]; [reflexivity |].
  cbn [map field_values List.length repeat]. rewrite get_project, IH.
  destruct (record_fields file_path chunk) as (_ & Hn & _).
  cbv zeta in Hn. rewrite Hn. reflexivity.
Qed.

Lemma persisted_file_names (all_files : list (string * content)) (f : document -> bool) :
  exists names : list string,
    field_values "file_name"
      (map (project ["file_name"]) (filter f (persisted split_text all_files)))
    = map VStr names.
Proof.
  apply all_strings. intros v Hv.
  apply field_values_In in Hv. destruct Hv as (d & Hd & Hv).
  apply in_map_iff in Hd. destruct Hd as (r & <- & Hr).
  rewrite get_project in Hv. apply filter_In in Hr. destruct Hr as [Hr _].
  apply persisted_In in Hr. destruct Hr as (fp & t & ch & _ & _ & _ & ->).
  destruct (record_fields fp ch) as (_ & Hn & _). cbv zeta in Hn.
  exists (basename fp). congruence.
Qed.

End Chunks.

(** C9. A file directly in the directory [p] whose text the splitter cut
    into [n] chunks adds [n] to the count of [count_files_in_directory p],
    and its file name stands [n] times in the listing of
    [list_files_in_directory p]. *)
Theorem files_in_directory_are_chunks :
  forall (split_text : string -> list string)
         (files1 files2 : list (string * content)) (file_path text p : string),
    strip_nonempty text = true ->
    fst (directory_and_depth file_path) = p ->
    let n := List.length (split_text text) in
    let without := stored (persisted split_text (files1 ++ files2)) in
    let with_file :=
      stored (persisted split_text (files1 ++ (file_path, Text text) :: files2)) in
    exists (k : nat) (before after : list string),
      StructureAgent.count_files_in_directory without p
      = Ok ("Total number of files directly in directory '" +:+ p +:+ "': "
            +:+ PyStr.of_nat k)
      /\ StructureAgent.count_files_in_directory with_file p
         = Ok ("Total number of files directly in directory '" +:+ p +:+ "': "
               +:+ PyStr.of_nat (k + n))
      /\ StructureAgent.file_names without p = Ok (map VStr (before ++ after))
      /\ StructureAgent.file_names with_file p
         = Ok (map VStr (before ++ repeat (basename file_path) n ++ after))
      /\ StructureAgent.list_files_in_directory with_file p
         = Ok ("Files found directly in directory '" +:+ p +:+ "': "
               +:+ listing (before ++ repeat (basename file_path) n ++ after)).
Proof.
  intros split_text files1 files2 file_path text p Htext Hp n without with_file.
  set (in_p := fun d : document => cond_holds (Eq (VStr p)) (get "directory" d)).
  set (docs1 := persisted split_text files1).
  set (docs2 := persisted split_text files2).
  set (chunks := chunk_records split_text file_path text).
  assert (Hwithout : persisted split_text (files1 ++ files2) = docs1 ++ docs2)
    by apply persisted_app.
  assert (Hwith : persisted split_text (files1 ++ (file_path, Text text) :: files2)
                  = docs1 ++ chunks ++ docs2)
    by (rewrite persisted_app, persisted_cons; [reflexivity | exact Htext]).
  assert (Hchunks : filter in_p chunks = chunks)
    by (subst in_p p; apply filter_chunk_records).
  destruct (persisted_file_names split_text files1 in_p) as (before & Hbefore).
  destruct (persisted_file_names split_text files2 in_p) as (after & Hafter).
  fold docs1 in Hbefore. fold docs2 in Hafter.
  assert (Hnames : StructureAgent.file_names with_file p
                   = Ok (map VStr (before ++ repeat (basename file_path) n ++ after))).
  { unfold StructureAgent.file_names, with_file. cbn [find stored].
    rewrite select_directory, Hwith. cbn [bind]. fold in_p.
    rewrite !filter_app, Hchunks, !map_app, !field_values_app, Hbefore, Hafter.
    unfold chunks. rewrite file_names_chunk_records. reflexivity. }
  exists (List.length (filter in_p docs1) + List.length (filter in_p docs2)),
    before, after.
  repeat split.
  - unfold StructureAgent.count_files_in_directory, without. cbn [count_documents stored].
    rewrite select_directory, Hwithout. cbn [bind try_except]. fold in_p.
    rewrite filter_app, length_app. reflexivity.
  - unfold StructureAgent.count_files_in_directory, with_file. cbn [count_documents stored].
    rewrite select_directory, Hwith. cbn [bind try_except]. fold in_p.
    rewrite !filter_app, Hchunks, !length_app.
    unfold chunks, chunk_records. rewrite length_map. fold n.
    replace (List.length (filter in_p docs1) + (n + List.length (filter in_p docs2)))
      with (List.length (filter in_p docs1) + List.length (filter in_p docs2) + n)
      by lia.
    reflexivity.
  - unfold StructureAgent.file_names, without. cbn [find stored].
    rewrite select_directory, Hwithout. cbn [bind]. fold in_p.
    rewrite filter_app, !map_app, field_values_app, Hbefore, Hafter. reflexivity.
  - exact Hnames.
  - unfold StructureAgent.list_files_in_directory. rewrite Hnames. cbn [bind].
    rewrite join_or_none_strings. reflexivity.
Qed.


(* ================================================================== *)
(** * Further properties *)

(** ** Sorting *)

Lemma insert_perm (A : Type) (leb : A -> A -> bool) (x : A) (l : list A) :
  Permutation (Py.insert leb x l) (x :: l).
Proof.
  induction l as [| y l IH]; [reflexivity |].
  simpl. destruct (leb x y); [reflexivity |].
  rewrite IH. apply perm_swap.
Qed.

Lemma sort_perm (A : Type) (leb : A -> A -> bool) (l : list A) :
  Permutation (Py.sort leb l) l.
Proof.
  induction l as [| x l IH]; [reflexivity |].
  unfold Py.sort in *. cbn [fold_right]. rewrite insert_perm, IH. reflexivity.
Qed.

Lemma insert_ascending (x : string) (l : list string) :
  ascending l -> ascending (Py.insert String.leb x l).
Proof.
  unfold ascending. induction 1 as [| y l Hl IH Hy]; simpl.
  - repeat constructor.
  - destruct (String.leb x y) eqn:E.
    + constructor; [constructor; assumption | constructor; exact E].
    + assert (Hyx : String.leb y x = true)
        by (destruct (String.leb_total x y); congruence).
      constructor; [exact IH |].
      destruct l as [| z l]; simpl.
      * constructor. exact Hyx.
      * destruct (String.leb x z); constructor; [exact Hyx |].
        inversion Hy; assumption.
Qed.

Lemma sort_ascending (l : list string) : ascending (Py.sort String.leb l).
Proof.
  induction l as [| x l IH]; [constructor |].
  unfold Py.sort in *. cbn [fold_right]. apply insert_ascending, IH.
Qed.

Lemma map_VStr_NoDup (ss : list string) : NoDup (map VStr ss) -> NoDup ss.
Proof.
  induction ss as [| s ss IH]; intros H; [constructor |].
  inversion H as [| ? ? Hin Hrest]; subst. constructor; [| auto].
  intros Hs. apply Hin, in_map, Hs.
Qed.

(** The distinct string values of a field, sorted: what the listing tools
    show for a collection of indexed records. *)
Lemma sorted_distinct_directories (docs : list document) (f : document -> bool) :
  Forall indexed docs ->
  exists names : list string,
    Py.sorted (nodup value_eq_dec (field_values "directory" (filter f docs)))
    = Ok (map VStr names)
    /\ List.length names
       = List.length (nodup value_eq_dec (field_values "directory" (filter f docs)))
    /\ NoDup names /\ ascending names
    /\ forall n, In n names <->
                 exists r, In r docs /\ f r = true /\ get "directory" r = Some (VStr n).
Proof.
  intros Hall.
  destruct (all_strings _ (indexed_directories_are_strings docs f Hall)) as (ss & Hss).
  exists (Py.sort String.leb ss). rewrite Hss.
  assert (Hnodup : NoDup ss)
    by (apply map_VStr_NoDup; rewrite <- Hss; apply NoDup_nodup).
  repeat split.
  - apply sorted_strings.
  - rewrite sort_length, length_map. reflexivity.
  - apply (Permutation_NoDup (Permutation_sym (sort_perm _ String.leb ss)) Hnodup).
  - apply sort_ascending.
  - intros Hn. apply sort_In in Hn.
    assert (Hv : In (VStr n) (map VStr ss)) by (apply in_map, Hn).
    rewrite <- Hss in Hv. apply nodup_In, field_values_In in Hv.
    destruct Hv as (r & Hr & Hd). apply filter_In in Hr. destruct Hr. eauto.
  - intros (r & Hr & Hf & Hd). apply sort_In.
    assert (Hv : In (VStr n) (map VStr ss)).
    { rewrite <- Hss. apply nodup_In, field_values_In. exists r.
      split; [apply filter_In; auto | exact Hd]. }
    apply in_map_iff in Hv. destruct Hv as (s & Hs & Hin). congruence.
Qed.

Lemma not_root_condition (field : option value) (n : string) :
  field = Some (VStr n) -> cond_holds (Ne (VStr ".")) field = true <-> n <> ".".
Proof.
  intros ->. unfold cond_holds, value_eqb.
  destruct (value_eq_dec (VStr ".") (VStr n)) as [E | E]; simpl; split; intros H;
    congruence.
Qed.

(** ** All directories *)

(** X1. For a collection of indexed records, [list_all_directories] lists,
    in ascending order and each once, exactly the directory values other
    than the root sentinel; [count_total_directories] reports how many
    there are. *)
Theorem all_directories_listed_and_counted :
  forall docs : list document,
    Forall indexed docs ->
    exists names : list string,
      StructureAgent.list_all_directories (stored docs)
      = Ok ("All unique directories: " +:+ listing names)
      /\ StructureAgent.count_total_directories (stored docs)
         = Ok ("Total number of unique directories indexed (excluding root): "
               +:+ PyStr.of_nat (List.length names))
      /\ NoDup names /\ ascending names
      /\ forall n, In n names <->
                   n <> "." /\ exists r, In r docs /\ get "directory" r = Some (VStr n).
Proof.
  intros docs Hall.
  set (f := fun d : document => cond_holds (Ne (VStr ".")) (get "directory" d)).
  destruct (sorted_distinct_directories docs f Hall)
    as (names & Hsorted & Hlen & Hnodup & Hasc & Hin).
  assert (Hsel : select [("directory", Ne (VStr "."))] docs = Ok (filter f docs))
    by (apply select_one; discriminate).
  exists names. repeat split; try assumption.
  - unfold StructureAgent.list_all_directories. cbn [distinct stored].
    rewrite Hsel. cbn [bind]. rewrite Hsorted. cbn [bind].
    rewrite join_or_none_strings. reflexivity.
  - unfold StructureAgent.count_total_directories. cbn [distinct stored].
    rewrite Hsel. cbn [bind try_except]. rewrite Hlen. reflexivity.
  - apply Hin in H. destruct H as (r & _ & Hf & Hd).
    unfold f in Hf. apply (not_root_condition _ n Hd), Hf.
  - apply Hin in H. destruct H as (r & Hr & _ & Hd). eauto.
  - intros [Hn (r & Hr & Hd)]. apply Hin. exists r. repeat split; try assumption.
    unfold f. apply (not_root_condition _ n Hd), Hn.
Qed.

(** ** Parents and children *)

Lemma components_append (x rest : string) :
  components (x +:+ String "/" rest) = components x ++ components rest.
Proof.
  induction x as [| c x IH]; [reflexivity |].
  cbn [String.append components]. rewrite IH.
  destruct (Ascii.eqb c sep); [reflexivity |].
  destruct (components_cons x) as (name & names & E). rewrite E. reflexivity.
Qed.

Lemma prefix_split (a b : string) :
  String.prefix a b = true -> exists r, b = a +:+ r.
Proof.
  revert b. induction a as [| c a IH]; intros b H.
  - exists b. reflexivity.
  - destruct b as [| x b]; [discriminate |]. simpl in H.
    destruct (ascii_dec c x) as [-> | N]; [| discriminate].
    destruct (IH b H) as (r & ->). exists r. reflexivity.
Qed.

Lemma prefix_append (a r : string) : String.prefix a (a +:+ r) = true.
Proof.
  induction a as [| c a IH]; [destruct r; reflexivity |].
  simpl. destruct (ascii_dec c c); [exact IH | contradiction].
Qed.

Lemma concat_snoc (init : list string) (l : string) :
  init <> [] ->
  String.concat "/" (init ++ [l]) = String.concat "/" init +:+ String "/" l.
Proof.
  induction init as [| x init IH]; [congruence | intros _].
  destruct init as [| y init]; [reflexivity |].
  change ((x :: y :: init) ++ [l]) with (x :: (y :: init) ++ [l]).
  change ((y :: init) ++ [l]) with (y :: init ++ [l]) at 1.
  rewrite !concat_cons.
  change (y :: init ++ [l]) with ((y :: init) ++ [l]).
  rewrite IH by discriminate. rewrite append_assoc. reflexivity.
Qed.

(** The names of a directory other than the root, from its shape. *)
Lemma shape_names (d : string) (z : Z) :
  directory_shape d z -> d <> "." ->
  components d <> []
  /\ Forall sepfree (components d)
  /\ forallb entry_name (components d) = true
  /\ d = String.concat "/" (components d)
  /\ z = Z.of_nat (List.length (components d)).
Proof.
  intros [[-> _] | (names & Hne & Hsf & Hok & -> & ->)] Hd; [congruence |].
  destruct (directory_of_names names Hne Hsf Hok) as (_ & _ & Hc & _).
  cbv zeta in Hc. rewrite Hc. auto.
Qed.

Lemma parent_of_names (names : list string) :
  names <> [] -> Forall sepfree names -> forallb entry_name names = true ->
  parent_directory (String.concat "/" names)
  = match removelast names with
    | [] => "."
    | init => String.concat "/" init
    end.
Proof.
  intros Hne Hsf Hok.
  destruct (directory_of_names names Hne Hsf Hok) as (_ & _ & _ & _ & Hdir).
  cbv zeta in Hdir. unfold parent_directory. rewrite Hdir.
  destruct (removelast names) as [| x l] eqn:E; [reflexivity |].
  destruct (directory_of_names (x :: l)) as (P1 & _).
  - discriminate.
  - rewrite <- E. apply Forall_removelast, Hsf.
  - rewrite <- E. apply entry_names_Forall, Forall_removelast, entry_names_Forall, Hok.
  - cbv zeta in P1. apply String.eqb_neq in P1. rewrite P1. reflexivity.
Qed.

Lemma removelast_snoc (A : Type) (l : list A) (x : A) : removelast (l ++ [x]) = l.
Proof.
  induction l as [| y l IH]; [reflexivity |].
  simpl. rewrite IH. destruct (l ++ [x]) eqn:E; [| reflexivity].
  destruct l; discriminate.
Qed.

Lemma snoc_removelast (A : Type) (l : list A) :
  l <> [] -> exists x, l = removelast l ++ [x].
Proof.
  intros H. destruct (exists_last H) as (l' & x & ->).
  exists x. rewrite removelast_snoc. reflexivity.
Qed.

(** A directory lies directly in [p] exactly when its string begins with
    [p ++ "/"] and it has one name more. *)
Lemma child_of_directory (p n : string) (zp zn : Z) :
  directory_shape p zp -> directory_shape n zn -> p <> "." ->
  (String.prefix (p +:+ "/") n = true /\ zn = (zp + 1)%Z) <-> parent_directory n = p.
Proof.
  intros Sp Sn Hp.
  destruct (shape_names p zp Sp Hp) as (Pne & Psf & Pok & Pd & Pz).
  split.
  - intros [Hpre Hz].
    assert (Hn : n <> ".").
    { intros ->. destruct Sn as [[_ ->] | (names & Hne & Hsf & Hok & Hd & _)].
      - lia.
      - destruct (directory_of_names names Hne Hsf Hok) as (_ & D2 & _).
        cbv zeta in D2. congruence. }
    destruct (shape_names n zn Sn Hn) as (Nne & Nsf & Nok & Nd & Nz).
    apply prefix_split in Hpre. destruct Hpre as (r & Hr).
    rewrite append_assoc in Hr. cbn [String.append] in Hr.
    assert (Hc : components n = components p ++ components r)
      by (rewrite Hr at 1; apply components_append).
    assert (Hlen : List.length (components r) = 1).
    { rewrite Hc, length_app in Nz. lia. }
    destruct (components r) as [| x [| y l]] eqn:Er; try discriminate.
    rewrite Nd at 1. rewrite parent_of_names by assumption.
    rewrite Hc, removelast_snoc.
    destruct (components p) as [| a P]; [congruence |]. symmetry. exact Pd.
  - intros Hparent.
    assert (Hn : n <> ".") by (intros ->; apply Hp; rewrite <- Hparent; reflexivity).
    destruct (shape_names n zn Sn Hn) as (Nne & Nsf & Nok & Nd & Nz).
    rewrite Nd in Hparent at 1. rewrite parent_of_names in Hparent by assumption.
    destruct (removelast (components n)) as [| a init] eqn:E; [congruence |].
    assert (Hinit : components p = a :: init).
    { rewrite <- Hparent. apply components_concat; [discriminate |].
      rewrite <- E. apply Forall_removelast, Nsf. }
    destruct (snoc_removelast _ (components n) Nne) as (x & Hx). rewrite E in Hx.
    split.
    + rewrite Nd, Hx, concat_snoc by discriminate. rewrite Hparent.
      change (String "/" x) with ("/" +:+ x). rewrite <- append_assoc.
      apply prefix_append.
    + rewrite Nz, Pz, Hinit, Hx, length_app. simpl. lia.
Qed.

(** A directory lies directly in the root exactly when its depth is 1. *)
Lemma child_of_root (n : string) (zn : Z) :
  directory_shape n zn -> zn = 1%Z <-> n <> "." /\ parent_directory n = ".".
Proof.
  intros Sn. destruct (shape_depth n zn Sn) as (_ & Hdepth & Hparent & Hroot).
  split.
  - intros ->. assert (Hn : n <> ".") by (intros ->; discriminate).
    split; [exact Hn |]. specialize (Hparent Hn).
    unfold depth_of_directory in Hparent.
    destruct (parent_directory n =? ".") eqn:E; [apply String.eqb_eq, E | lia].
  - intros [Hn Hp]. exact (Hroot Hn Hp).
Qed.

Lemma indexed_record_shape (docs : list document) (r : document) (n : string) :
  Forall indexed docs -> In r docs -> get "directory" r = Some (VStr n) ->
  exists z, get "depth" r = Some (VInt z) /\ directory_shape n z.
Proof.
  intros Hall Hr Hd. rewrite Forall_forall in Hall.
  destruct (indexed_directory_depth r (Hall r Hr)) as (d & z & Hd' & Hz & S).
  exists z. split; [exact Hz | congruence].
Qed.

(** ** Top-level directories, as children of the root *)

(** X2. For a collection of indexed records, the directories that
    [list_top_level_directories] lists, in ascending order and each once,
    are exactly the indexed directories whose parent is the root;
    [count_top_level_directories] reports how many there are. *)
Theorem top_level_directories_are_children_of_root :
  forall docs : list document,
    Forall indexed docs ->
    exists names : list string,
      StructureAgent.list_top_level_directories (stored docs)
      = Ok ("Top-level directories: " +:+ listing names)
      /\ StructureAgent.count_top_level_directories (stored docs)
         = Ok ("Total number of top-level directories indexed: "
               +:+ PyStr.of_nat (List.length names))
      /\ NoDup names /\ ascending names
      /\ forall n, In n names <->
                   n <> "." /\ parent_directory n = "."
                   /\ exists r, In r docs /\ get "directory" r = Some (VStr n).
Proof.
  intros docs Hall.
  set (f := fun d : document => cond_holds (Eq (VInt 1)) (get "depth" d)).
  destruct (sorted_distinct_directories docs f Hall)
    as (names & Hsorted & Hlen & Hnodup & Hasc & Hin).
  assert (Hsel : select [("depth", Eq (VInt 1))] docs = Ok (filter f docs))
    by (apply select_one; discriminate).
  assert (Hchild : forall r n, In r docs -> get "directory" r = Some (VStr n) ->
                               f r = true <-> n <> "." /\ parent_directory n = ".").
  { intros r n Hr Hd.
    destruct (indexed_record_shape docs r n Hall Hr Hd) as (z & Hz & S).
    unfold f. rewrite depth_condition, Hz, <- (child_of_root n z S).
    split; congruence. }
  exists names. repeat split; try assumption.
  - unfold StructureAgent.list_top_level_directories, StructureAgent.top_level_dirs.
    cbn [distinct stored]. rewrite Hsel. cbn [bind]. rewrite Hsorted. cbn [bind].
    rewrite join_or_none_strings. reflexivity.
  - unfold StructureAgent.count_top_level_directories. cbn [distinct stored].
    rewrite Hsel. cbn [bind try_except]. rewrite Hlen. reflexivity.
  - apply Hin in H. destruct H as (r & Hr & Hf & Hd).
    apply (Hchild r n Hr Hd) in Hf. tauto.
  - apply Hin in H. destruct H as (r & Hr & Hf & Hd).
    apply (Hchild r n Hr Hd) in Hf. tauto.
  - apply Hin in H. destruct H as (r & Hr & _ & Hd). eauto.
  - intros (Hn & Hp & r & Hr & Hd). apply Hin. exists r.
    repeat split; try assumption. apply (Hchild r n Hr Hd). auto.
Qed.

(** ** Subdirectories, as children of a directory *)

(** X3. For a collection of indexed records and a directory [p] that has a
    record and no special character other than dots, the subdirectories
    that [list_subdirectories_in_directory p] lists, in ascending order and
    each once, are exactly the indexed directories whose parent is [p];
    [count_subdirectories_in_directory p] reports how many there are. *)
Theorem subdirectories_are_children :
  forall (docs : list document) (p : string),
    Forall indexed docs ->
    p <> "." -> literal_path p = true ->
    (exists r, In r docs /\ get "directory" r = Some (VStr p)) ->
    exists names : list string,
      StructureAgent.list_subdirectories_in_directory (stored docs) p
      = Ok ("Subdirectories directly in directory '" +:+ p +:+ "': " +:+ listing names)
      /\ StructureAgent.count_subdirectories_in_directory (stored docs) p
         = Ok ("Total number of subdirectories directly in directory '" +:+ p +:+ "': "
               +:+ PyStr.of_nat (List.length names))
      /\ NoDup names /\ ascending names
      /\ forall n, In n names <->
                   parent_directory n = p
                   /\ exists r, In r docs /\ get "directory" r = Some (VStr n).
Proof.
  intros docs p Hall Hp Hlit (r0 & Hr0 & Hd0).
  destruct (first_record_some docs p r0 Hr0 Hd0) as (r1 & E).
  pose proof (first_record_spec docs p r1 E) as [Hr1 Hd1].
  destruct (indexed_record_shape docs r1 p Hall Hr1 Hd1) as (D & HD & Sp).
  pose (f := below p (VInt (D + 1))).
  destruct (sorted_distinct_directories docs (below p (VInt (D + 1))) Hall)
    as (names & Hsorted & Hlen & Hnodup & Hasc & Hin).
  fold (directories_below docs p (VInt (D + 1))) in Hsorted, Hlen.
  assert (Hchild : forall r n, In r docs -> get "directory" r = Some (VStr n) ->
                               f r = true <-> parent_directory n = p).
  { intros r n Hr Hd.
    destruct (indexed_record_shape docs r n Hall Hr Hd) as (z & Hz & Sn).
    rewrite <- (child_of_directory p n D z Sp Sn Hp).
    unfold f, below. rewrite Hd, Hz, andb_true_iff, depth_condition.
    cbn [begins_with]. split; intros [H1 H2]; split; congruence. }
  assert (Hself : Py.contains (VStr p) (map VStr names) = false).
  { destruct (Py.contains (VStr p) (map VStr names)) eqn:C; [| reflexivity].
    apply contains_In, in_map_iff in C. destruct C as (s & Hs & Hs').
    injection Hs as ->. apply Hin in Hs'. destruct Hs' as (r & _ & Hf & Hd).
    unfold f, below in Hf. rewrite Hd in Hf. cbn [begins_with] in Hf.
    rewrite prefix_longer in Hf. discriminate. }
  exists names. repeat split; try assumption.
  - unfold StructureAgent.list_subdirectories_in_directory.
    rewrite (parent_depth_stored docs p Hp), E, HD. cbn [bind Py.add_one].
    rewrite (distinct_query_filter docs p (VInt (D + 1)) Hp Hlit). cbn [bind].
    rewrite Hsorted. cbn [bind].
    unfold StructureAgent.without_itself. rewrite Hself, andb_false_r.
    rewrite join_or_none_strings. reflexivity.
  - rewrite (count_subdirectories_of_literal_path docs p r1 D Hp Hlit E HD), Hlen.
    reflexivity.
  - apply Hin in H. destruct H as (r & Hr & Hf & Hd). apply (Hchild r n Hr Hd), Hf.
  - apply Hin in H. destruct H as (r & Hr & _ & Hd). eauto.
  - intros (Hparent & r & Hr & Hd). apply Hin. exists r.
    repeat split; try assumption. apply (Hchild r n Hr Hd), Hparent.
Qed.

(** ** The two subdirectory tools agree *)






(** ** A directory without direct files *)

(** When no record has the directory [p], the file tools answer 0 and
    [None] and both subdirectory tools answer that [p] was not found. *)
Lemma directory_without_records :
  forall (docs : list document) (p : string),
    p <> "." ->
    (forall r, In r docs -> get "directory" r <> Some (VStr p)) ->
    StructureAgent.count_files_in_directory (stored docs) p
    = Ok ("Total number of files directly in directory '" +:+ p +:+ "': 0")
    /\ StructureAgent.list_files_in_directory (stored docs) p
       = Ok ("Files found directly in directory '" +:+ p +:+ "': None")
    /\ StructureAgent.count_subdirectories_in_directory (stored docs) p
       = Ok (StructureAgent.not_found p)
    /\ StructureAgent.list_subdirectories_in_directory (stored docs) p
       = Ok (StructureAgent.not_found p).
Proof.
  intros docs p Hp Hnone.
  assert (Hfilter : filter (fun d => cond_holds (Eq (VStr p)) (get "directory" d)) docs
                    = []).
  { induction docs as [| d docs IH]; [reflexivity |].
    cbn [filter].
    destruct (cond_holds (Eq (VStr p)) (get "directory" d)) eqn:E.
    - apply has_directory in E. elim (Hnone d (or_introl eq_refl) E).
    - apply IH. intros r Hr. apply Hnone. right. exact Hr. }
  repeat split.
  - unfold StructureAgent.count_files_in_directory. cbn [count_documents stored].
    rewrite select_directory, Hfilter. reflexivity.
  - unfold StructureAgent.list_files_in_directory, StructureAgent.file_names.
    cbn [find stored]. rewrite select_directory, Hfilter. reflexivity.
  - apply count_subdirectories_not_found; assumption.
  - unfold StructureAgent.list_subdirectories_in_directory.
    rewrite (parent_depth_stored docs p Hp), (first_record_absent docs p Hnone).
    reflexivity.
Qed.

(** X5. A directory in which no indexed file lies directly has no record
    of its own after a run: when no fetched file with a text other than
    white space has [p] as the directory of its path, the file tools answer
    0 and [None] for [p] and both subdirectory tools answer that [p] was not
    found, whatever lies in the directories below [p]. *)
Theorem directory_without_files_is_invisible :
  forall (split_text : string -> list string)
         (all_files : list (string * content)) (p : string),
    p <> "." ->
    (forall file_path text,
        In (file_path, Text text) all_files -> strip_nonempty text = true ->
        dirname file_path <> p) ->
    let docs := persisted split_text all_files in
    StructureAgent.count_files_in_directory (stored docs) p
    = Ok ("Total number of files directly in directory '" +:+ p +:+ "': 0")
    /\ StructureAgent.list_files_in_directory (stored docs) p
       = Ok ("Files found directly in directory '" +:+ p +:+ "': None")
    /\ StructureAgent.count_subdirectories_in_directory (stored docs) p
       = Ok (StructureAgent.not_found p)
    /\ StructureAgent.list_subdirectories_in_directory (stored docs) p
       = Ok (StructureAgent.not_found p).
Proof.
  intros split_text all_files p Hp Hfiles docs.
  apply directory_without_records; [exact Hp |].
  intros r Hr Hd. apply persisted_In in Hr.
  destruct Hr as (file_path & text & chunk & Hin & Htext & _ & ->).
  destruct (record_fields file_path chunk) as (_ & _ & _ & Hd' & _).
  cbv zeta in Hd'. rewrite Hd' in Hd. injection Hd as Hd.
  unfold directory_and_depth in Hd.
  destruct (dirname file_path =? "") eqn:E; cbn [negb fst] in Hd.
  - elim Hp. symmetry. exact Hd.
  - exact (Hfiles file_path text Hin Htext Hd).
Qed.

(** ** Paths and the fields of a record *)

Lemma concat_components (p : string) : String.concat "/" (components p) = p.
Proof.
  induction p as [| c rest IH]; [reflexivity |].
  cbn [components]. destruct (components_cons rest) as (name & names & E).
  rewrite E in *. destruct (Ascii.eqb c sep) eqn:Ec.
  - apply Ascii.eqb_eq in Ec. subst c. rewrite concat_cons, IH. reflexivity.
  - rewrite concat_cons_char, IH. reflexivity.
Qed.

Lemma basename_components (p : string) : basename p = last (components p) "".
Proof. unfold basename. rewrite rsplit_components. reflexivity. Qed.

(** Joining [dirname] and [basename] of a repository path gives it back. *)
Lemma path_round_trip (file_path : string) :
  repository_path file_path = true ->
  file_path = (if dirname file_path =? "" then basename file_path
               else dirname file_path +:+ "/" +:+ basename file_path)
  /\ basename file_path <> "" /\ sepfree (basename file_path).
Proof.
  intros H. destruct (removelast_names _ H) as [Hsf Hok].
  assert (Hne : Forall (fun n => n <> "") (removelast (components file_path))).
  { apply entry_names_Forall in Hok. revert Hok. apply Forall_impl. tauto. }
  rewrite (dirname_components _ Hne), basename_components.
  destruct (components_cons file_path) as (name & names & E).
  assert (Hcs : components file_path <> []) by (rewrite E; discriminate).
  destruct (snoc_removelast _ (components file_path) Hcs) as (x & Hx).
  assert (Hlast : last (components file_path) "" = x)
    by (rewrite Hx; apply last_last).
  assert (Hxok : x <> "" /\ sepfree x).
  { pose proof (components_sepfree file_path) as S.
    unfold repository_path in H. apply entry_names_Forall in H.
    rewrite Hx in S, H. apply Forall_app in S, H.
    destruct S as [_ S], H as [_ H]. inversion S; inversion H; subst. tauto. }
  rewrite Hlast. split; [| exact Hxok].
  rewrite <- (concat_components file_path) at 1.
  destruct (removelast (components file_path)) as [| a init] eqn:Ei.
  - rewrite Hx. reflexivity.
  - destruct (directory_of_names (a :: init)) as (D1 & _);
      [discriminate | exact Hsf | exact Hok |].
    cbv zeta in D1. apply String.eqb_neq in D1. rewrite D1.
    rewrite Hx at 1. rewrite concat_snoc by discriminate. reflexivity.
Qed.

(** A repository path is its directory and its base name joined by a
    separator, the base name alone at the root. *)
Lemma path_is_directory_and_name (file_path : string) :
  repository_path file_path = true ->
  file_path = (if fst (directory_and_depth file_path) =? "." then basename file_path
               else fst (directory_and_depth file_path) +:+ "/" +:+ basename file_path)
  /\ basename file_path <> "" /\ count sep (basename file_path) = 0.
Proof.
  intros Hp.
  destruct (path_round_trip file_path Hp) as (Hround & Hne & Hsf).
  split; [| split; assumption].
  destruct (removelast_names _ Hp) as [Hsf' Hok].
  assert (Hnonempty : Forall (fun n => n <> "") (removelast (components file_path))).
  { apply entry_names_Forall in Hok. revert Hok. apply Forall_impl. tauto. }
  rewrite (dirname_components _ Hnonempty) in Hround.
  rewrite (directory_and_depth_names _ Hp).
  destruct (removelast (components file_path)) as [| a init] eqn:E;
    [exact Hround |].
  destruct (directory_of_names (a :: init)) as (D1 & D2 & _);
    [discriminate | exact Hsf' | exact Hok |].
  cbv zeta in D1, D2. apply String.eqb_neq in D1, D2.
  cbn [fst]. rewrite D1 in Hround. rewrite D2. exact Hround.
Qed.

(** X6. In a record the indexer persists for a file of the repository, the
    source is the directory and the file name joined by a separator, or
    the file name alone for a file at the root; the file name is not empty
    and has no separator. *)
Theorem source_is_directory_and_file_name :
  forall r : document,
    indexed r ->
    exists source directory file_name : string,
      get "source" r = Some (VStr source)
      /\ get "directory" r = Some (VStr directory)
      /\ get "file_name" r = Some (VStr file_name)
      /\ source = (if directory =? "." then file_name
                   else directory +:+ "/" +:+ file_name)
      /\ file_name <> "" /\ count sep file_name = 0.
Proof.
  intros r (file_path & chunk & Hp & ->).
  destruct (record_fields file_path chunk) as (Hs & Hn & _ & Hd & _).
  cbv zeta in *.
  exists file_path, (fst (directory_and_depth file_path)), (basename file_path).
  destruct (path_is_directory_and_name file_path Hp) as (Hround & Hne & Hsf).
  split; [exact Hs | split; [exact Hd | split; [exact Hn |]]].
  split; [exact Hround | split; [exact Hne | exact Hsf]].
Qed.

(** ** The files of a directory *)

Lemma field_values_project (k : string) (l : list document) :
  field_values k (map (project [k]) l) = field_values k l.
Proof.
  induction l as [| d l IH]; [reflexivity |].
  cbn [map field_values]. rewrite get_project, IH. reflexivity.
Qed.

Lemma indexed_file_names (l : list document) :
  Forall indexed l ->
  exists names : list string,
    field_values "file_name" l = map VStr names
    /\ List.length names = List.length l.
Proof.
  induction 1 as [| r l Hr _ (names & IH & Hlen)]; [exists []; split; reflexivity |].
  destruct Hr as (file_path & chunk & _ & ->).
  exists (basename file_path :: names). cbn [field_values].
  destruct (record_fields file_path chunk) as (_ & Hn & _). cbv zeta in Hn.
  rewrite Hn, IH. simpl. rewrite Hlen. split; reflexivity.
Qed.

(** X7. For a collection of indexed records, [list_files_in_directory p]
    lists the file names of the records whose directory is exactly [p] and
    of no other, so every name listed is that of a file at [p/name] (at
    [name] for the root); [count_files_in_directory p] reports how many
    names are listed. *)
Theorem files_listed_are_directly_inside :
  forall (docs : list document) (p : string),
    Forall indexed docs ->
    exists names : list string,
      StructureAgent.list_files_in_directory (stored docs) p
      = Ok ("Files found directly in directory '" +:+ p +:+ "': " +:+ listing names)
      /\ StructureAgent.count_files_in_directory (stored docs) p
         = Ok ("Total number of files directly in directory '" +:+ p +:+ "': "
               +:+ PyStr.of_nat (List.length names))
      /\ (forall n, In n names <->
                    exists r, In r docs /\ get "directory" r = Some (VStr p)
                              /\ get "file_name" r = Some (VStr n))
      /\ (forall n, In n names ->
                    exists r, In r docs
                              /\ get "source" r
                                 = Some (VStr (if p =? "." then n else p +:+ "/" +:+ n))).
Proof.
  intros docs p Hall.
  set (in_p := fun d : document => cond_holds (Eq (VStr p)) (get "directory" d)).
  assert (Hsub : Forall indexed (filter in_p docs)).
  { rewrite Forall_forall in *. intros r Hr. apply filter_In in Hr.
    apply Hall, Hr. }
  destruct (indexed_file_names _ Hsub) as (names & Hnames & Hlen).
  assert (Hiff : forall n, In n names <->
                           exists r, In r docs /\ get "directory" r = Some (VStr p)
                                     /\ get "file_name" r = Some (VStr n)).
  { intros n. split.
    - intros Hn. assert (Hv : In (VStr n) (field_values "file_name" (filter in_p docs)))
        by (rewrite Hnames; apply in_map, Hn).
      apply field_values_In in Hv. destruct Hv as (r & Hr & Hf).
      apply filter_In in Hr. destruct Hr as [Hr Hd]. apply has_directory in Hd. eauto.
    - intros (r & Hr & Hd & Hf).
      assert (Hv : In (VStr n) (field_values "file_name" (filter in_p docs))).
      { apply field_values_In. exists r. split; [| exact Hf].
        apply filter_In. split; [exact Hr | apply has_directory, Hd]. }
      rewrite Hnames in Hv. apply in_map_iff in Hv.
      destruct Hv as (s & Hs & Hin). congruence. }
  exists names. repeat split.
  - unfold StructureAgent.list_files_in_directory, StructureAgent.file_names.
    cbn [find stored]. rewrite select_directory. cbn [bind]. fold in_p.
    rewrite field_values_project, Hnames. cbn [bind].
    rewrite join_or_none_strings. reflexivity.
  - unfold StructureAgent.count_files_in_directory. cbn [count_documents stored].
    rewrite select_directory. cbn [bind try_except]. fold in_p.
    rewrite Hlen. reflexivity.
  - apply Hiff.
  - apply Hiff.
  - intros n Hn. apply Hiff in Hn. destruct Hn as (r & Hr & Hd & Hf).
    exists r. split; [exact Hr |]. rewrite Forall_forall in Hall.
    destruct (Hall r Hr) as (file_path & chunk & Hp & ->).
    destruct (record_fields file_path chunk) as (Hs & Hn' & _ & Hd' & _).
    cbv zeta in Hs, Hn', Hd'.
    destruct (path_is_directory_and_name file_path Hp) as (Hround & _).
    rewrite Hd in Hd'. injection Hd' as Ep. rewrite Hf in Hn'. injection Hn' as En.
    rewrite Hs, Ep, En, <- Hround. reflexivity.
Qed.

(** ** Groups of an aggregation *)

Lemma value_eqb_eq (v w : value) : value_eqb v w = true <-> v = w.
Proof. unfold value_eqb. destruct (value_eq_dec v w); split; congruence. Qed.

Lemma value_eqb_refl (v : value) : value_eqb v v = true.
Proof. apply value_eqb_eq. reflexivity. Qed.

Lemma group_of_bump (k k' : value) (groups : list (value * nat)) :
  group_of k' (bump k groups)
  = group_of k' groups + (if value_eqb k' k then 1 else 0).
Proof.
  induction groups as [| [k0 n] groups IH]; cbn [bump group_of].
  - destruct (value_eqb k' k); reflexivity.
  - destruct (value_eqb k k0) eqn:E; cbn [group_of].
    + apply value_eqb_eq in E. subst k0.
      destruct (value_eqb k' k); lia.
    + destruct (value_eqb k' k0) eqn:E'; [| exact IH].
      apply value_eqb_eq in E'. subst k0.
      destruct (value_eqb k' k) eqn:E''; [| lia].
      apply value_eqb_eq in E''. subst k'. rewrite value_eqb_refl in E. discriminate.
Qed.

Lemma bump_keys (k k' : value) (groups : list (value * nat)) :
  In k' (map fst (bump k groups)) <-> k' = k \/ In k' (map fst groups).
Proof.
  induction groups as [| [k0 n] groups IH]; cbn [bump map fst In].
  - intuition congruence.
  - destruct (value_eqb k k0) eqn:E; cbn [map fst In].
    + apply value_eqb_eq in E. subst k0. intuition congruence.
    + rewrite IH. intuition congruence.
Qed.

Lemma bump_NoDup (k : value) (groups : list (value * nat)) :
  NoDup (map fst groups) -> NoDup (map fst (bump k groups)).
Proof.
  induction groups as [| [k0 n] groups IH]; cbn [bump map fst]; intros H.
  - repeat constructor. intros [].
  - inversion H as [| ? ? Hin Hrest]; subst.
    destruct (value_eqb k k0) eqn:E; cbn [map fst].
    + constructor; assumption.
    + constructor; [| apply IH, Hrest].
      rewrite bump_keys. intros [-> | Hk]; [| contradiction].
      rewrite value_eqb_refl in E. discriminate.
Qed.

Lemma bump_positive (k : value) (groups : list (value * nat)) :
  Forall (fun g => 0 < snd g) groups -> Forall (fun g => 0 < snd g) (bump k groups).
Proof.
  induction 1 as [| [k0 n] groups Hn Hrest IH]; cbn [bump].
  - repeat constructor.
  - destruct (value_eqb k k0); constructor; simpl in *; auto; lia.
Qed.

(** What a well-formed list of groups says about its entries. *)
Lemma group_entries (groups : list (value * nat)) (k : value) (n : nat) :
  NoDup (map fst groups) -> Forall (fun g => 0 < snd g) groups ->
  In (k, n) groups <-> 0 < n /\ group_of k groups = n.
Proof.
  induction groups as [| [k0 n0] groups IH]; intros Hnd Hpos; cbn [In group_of].
  - split; [contradiction | lia].
  - inversion Hnd as [| ? ? Hin Hrest]; inversion Hpos as [| ? ? Hn0 Hpos']; subst.
    simpl in Hn0. specialize (IH Hrest Hpos').
    destruct (value_eqb k k0) eqn:E.
    + apply value_eqb_eq in E. subst k0. split.
      * intros [H | H]; [injection H as <-; auto |].
        elim Hin. apply (in_map fst) in H. exact H.
      * intros [_ <-]. left. reflexivity.
    + split.
      * intros [H | H]; [injection H as <- <-; rewrite value_eqb_refl in E; discriminate |].
        apply IH, H.
      * intros H. right. apply IH, H.
Qed.

Lemma group_count_spec (field : string) (docs : list document) :
  NoDup (map fst (group_count field docs))
  /\ Forall (fun g => 0 < snd g) (group_count field docs)
  /\ forall k, group_of k (group_count field docs) = documents_with field k docs.
Proof.
  unfold group_count, documents_with.
  assert (H : forall groups,
             NoDup (map fst groups) -> Forall (fun g => 0 < snd g) groups ->
             let result := fold_left (fun gs d => bump (field_or_null field d) gs)
                                     docs groups in
             NoDup (map fst result) /\ Forall (fun g => 0 < snd g) result
             /\ forall k, group_of k result
                          = group_of k groups
                            + List.length
                                (filter (fun d => value_eqb k (field_or_null field d)) docs)).
  { induction docs as [| d docs IH]; intros groups Hnd Hpos; cbn [fold_left filter].
    - split; [exact Hnd | split; [exact Hpos | intros k; simpl; lia]].
    - destruct (IH (bump (field_or_null field d) groups)
                   (bump_NoDup _ _ Hnd) (bump_positive _ _ Hpos)) as (H1 & H2 & H3).
      split; [exact H1 | split; [exact H2 |]].
      intros k. rewrite H3, group_of_bump.
      destruct (value_eqb k (field_or_null field d)); simpl; lia. }
  destruct (H [] (NoDup_nil _) (Forall_nil _)) as (H1 & H2 & H3).
  split; [exact H1 | split; [exact H2 | exact H3]].
Qed.

(** ** Sorting the groups *)

Lemma insert_descending_groups (g : value * nat) (gs : list (value * nat)) :
  insert_descending "count" (group_document g) (map group_document gs)
  = map group_document (insert_group g gs).
Proof.
  induction gs as [| h gs IH]; [reflexivity |].
  cbn [map insert_descending insert_group].
  change (value_ltb (field_or_null "count" (group_document g))
                    (field_or_null "count" (group_document h)))
    with (Z.of_nat (snd g) <? Z.of_nat (snd h))%Z.
  destruct (Z.ltb_spec (Z.of_nat (snd g)) (Z.of_nat (snd h)));
    destruct (Nat.ltb_spec (snd g) (snd h)); try lia.
  - cbn [map]. rewrite IH. reflexivity.
  - reflexivity.
Qed.

Lemma sort_descending_groups (gs : list (value * nat)) :
  sort_descending "count" (map group_document gs) = map group_document (sort_groups gs).
Proof.
  induction gs as [| g gs IH]; [reflexivity |].
  unfold sort_descending, sort_groups in *. cbn [map fold_right].
  rewrite IH. apply insert_descending_groups.
Qed.

Lemma insert_group_perm (g : value * nat) (gs : list (value * nat)) :
  Permutation (insert_group g gs) (g :: gs).
Proof.
  induction gs as [| h gs IH]; [reflexivity |].
  cbn [insert_group]. destruct (snd g <? snd h)%nat; [| reflexivity].
  rewrite IH. apply perm_swap.
Qed.

Lemma sort_groups_perm (gs : list (value * nat)) : Permutation (sort_groups gs) gs.
Proof.
  induction gs as [| g gs IH]; [reflexivity |].
  unfold sort_groups in *. cbn [fold_right]. rewrite insert_group_perm, IH. reflexivity.
Qed.

Lemma insert_group_descending (g : value * nat) (gs : list (value * nat)) :
  descending (map snd gs) -> descending (map snd (insert_group g gs)).
Proof.
  unfold descending. induction gs as [| h gs IH]; intros H.
  - repeat constructor.
  - cbn [insert_group]. inversion H as [| ? ? Hrest Hhd]; subst.
    destruct (Nat.ltb_spec (snd g) (snd h)).
    + cbn [map]. constructor; [apply IH, Hrest |].
      destruct gs as [| h' gs]; cbn [insert_group map].
      * constructor. lia.
      * destruct (snd g <? snd h')%nat; constructor;
          [inversion Hhd; assumption | lia].
    + cbn [map]. constructor; [exact H | constructor; lia].
Qed.

Lemma sort_groups_descending (gs : list (value * nat)) :
  descending (map snd (sort_groups gs)).
Proof.
  induction gs as [| g gs IH]; [constructor |].
  unfold sort_groups in *. cbn [fold_right]. apply insert_group_descending, IH.
Qed.

(** ** The answer of [count_files_by_extension] *)

Lemma documents_with_positive (field : string) (k : value) (docs : list document) :
  0 < documents_with field k docs ->
  exists d, In d docs /\ field_or_null field d = k.
Proof.
  unfold documents_with. intros H.
  destruct (filter (fun d => value_eqb k (field_or_null field d)) docs) as [| d l] eqn:E;
    [simpl in H; lia |].
  assert (Hd : In d (filter (fun d => value_eqb k (field_or_null field d)) docs))
    by (rewrite E; left; reflexivity).
  apply filter_In in Hd. destruct Hd as [Hd Hk]. apply value_eqb_eq in Hk. eauto.
Qed.

Lemma documents_with_extension (e : string) (docs : list document) :
  documents_with "file_extension" (VStr e) docs = records_with_extension e docs.
Proof.
  unfold documents_with, records_with_extension. f_equal. apply filter_ext.
  intros d. unfold field_or_null, cond_holds.
  destruct (get "file_extension" d); reflexivity.
Qed.

Lemma extension_line_of_group (e : string) (n : nat) :
  StructureAgent.extension_line (group_document (VStr e, n)) = Ok (extension_row (e, n)).
Proof.
  unfold StructureAgent.extension_line, extension_row, Py.getitem.
  cbn [group_document get fst snd String.eqb Ascii.eqb Bool.eqb bind Py.truthy Py.str].
  destruct (e =? ""); reflexivity.
Qed.

Lemma for_each_groups (gs : list (value * nat)) :
  (forall g, In g gs -> fst g = VStr (Py.str (fst g))) ->
  Py.for_each StructureAgent.extension_line (map group_document gs)
  = Ok (map extension_row (map (fun g => (Py.str (fst g), snd g)) gs)).
Proof.
  induction gs as [| [k n] gs IH]; intros H; [reflexivity |].
  cbn [map Py.for_each fst snd].
  pose proof (H (k, n) (or_introl eq_refl)) as Hk. cbn [fst] in Hk.
  rewrite Hk at 1. rewrite extension_line_of_group. cbn [bind].
  rewrite IH by (intros g Hg; apply H; right; exact Hg). reflexivity.
Qed.

Lemma NoDup_map_on (A B : Type) (f : A -> B) (l : list A) :
  (forall x y, In x l -> In y l -> f x = f y -> x = y) ->
  NoDup l -> NoDup (map f l).
Proof.
  induction l as [| a l IH]; intros Hinj Hnd; [constructor |].
  inversion Hnd as [| ? ? Hin Hrest]; subst. cbn [map]. constructor.
  - intros H. apply in_map_iff in H. destruct H as (y & Hy & Hyl).
    assert (y = a) by (apply Hinj; [right; exact Hyl | left; reflexivity | exact Hy]).
    subst y. contradiction.
  - apply IH; [| exact Hrest]. intros x y Hx Hy. apply Hinj; right; assumption.
Qed.

(** X8. For a collection of indexed records, [count_files_by_extension]
    answers with one line per extension that occurs, each once, from the
    largest count to the smallest; the count of an extension is the number
    of records with it, and the empty extension is written [None].  Only
    for the empty collection is the answer that no data was found. *)
Theorem extension_lines_count_records :
  forall docs : list document,
    Forall indexed docs ->
    exists buckets : list (string * nat),
      StructureAgent.count_files_by_extension (stored docs)
      = Ok (match buckets with
            | [] => "No file extension data found."
            | _ => "File extension counts:" +:+ Py.nl
                   +:+ String.concat Py.nl (map extension_row buckets)
            end)
      /\ NoDup (map fst buckets)
      /\ descending (map snd buckets)
      /\ (forall e n, In (e, n) buckets <->
                      0 < n /\ n = records_with_extension e docs)
      /\ (buckets = [] <-> docs = []).
Proof.
  intros docs Hall.
  destruct (group_count_spec "file_extension" docs) as (Hnd & Hpos & Hof).
  pose proof (group_count_total "file_extension" docs) as Htotal.
  remember (group_count "file_extension" docs) as groups eqn:Eg.
  pose proof (sort_groups_perm groups) as Hperm.
  assert (Hkeys : forall g, In g (sort_groups groups) -> fst g = VStr (Py.str (fst g))).
  { intros [k n] Hg. apply (Permutation_in _ Hperm) in Hg.
    apply (group_entries groups k n Hnd Hpos) in Hg. destruct Hg as [Hn Hk].
    rewrite Hof in Hk. rewrite <- Hk in Hn.
    apply documents_with_positive in Hn. destruct Hn as (d & Hd & Hf).
    rewrite Forall_forall in Hall. destruct (Hall d Hd) as (fp & ch & _ & ->).
    destruct (record_fields fp ch) as (_ & _ & He & _). cbv zeta in He.
    unfold field_or_null in Hf. rewrite He in Hf. subst k. reflexivity. }
  assert (Hentries : forall e n, In (VStr e, n) (sort_groups groups) <->
                                 0 < n /\ n = records_with_extension e docs).
  { intros e n. rewrite <- documents_with_extension, <- Hof. split; intros H.
    - apply (Permutation_in _ Hperm) in H.
      apply (group_entries groups (VStr e) n Hnd Hpos) in H. intuition congruence.
    - apply (Permutation_in _ (Permutation_sym Hperm)).
      apply (group_entries groups (VStr e) n Hnd Hpos). intuition congruence. }
  exists (map (fun g => (Py.str (fst g), snd g)) (sort_groups groups)).
  assert (Hitems : StructureAgent.extension_counts (stored docs)
                   = Ok (map group_document (sort_groups groups))).
  { unfold StructureAgent.extension_counts. cbn [aggregate stored fold_left run_stage].
    rewrite <- Eg, sort_descending_groups. reflexivity. }
  split; [| split; [| split; [| split]]].
  - unfold StructureAgent.count_files_by_extension. rewrite Hitems. cbn [bind].
    destruct (sort_groups groups) as [| g gs]; [reflexivity |].
    change (match map group_document (g :: gs) with
            | [] => Ok "No file extension data found."
            | _ :: _ =>
                lines <- Py.for_each StructureAgent.extension_line
                           (map group_document (g :: gs)) ;;
                Ok ("File extension counts:" +:+ Py.nl +:+ String.concat Py.nl lines)
            end)
      with (lines <- Py.for_each StructureAgent.extension_line
                       (map group_document (g :: gs)) ;;
            Ok ("File extension counts:" +:+ Py.nl +:+ String.concat Py.nl lines)).
    rewrite (for_each_groups (g :: gs) Hkeys). reflexivity.
  - rewrite map_map. cbn [fst]. rewrite <- map_map.
    apply NoDup_map_on.
    + intros x y Hx Hy Hxy. apply in_map_iff in Hx, Hy.
      destruct Hx as (gx & <- & Hx), Hy as (gy & <- & Hy).
      rewrite (Hkeys _ Hx), (Hkeys _ Hy). congruence.
    + apply (Permutation_NoDup (Permutation_map fst (Permutation_sym Hperm)) Hnd).
  - rewrite map_map. cbn [snd]. apply sort_groups_descending.
  - intros e n. rewrite <- Hentries, in_map_iff. split.
    + intros ([k m] & Heq & Hg). injection Heq as <- <-.
      pose proof (Hkeys _ Hg) as Hk. cbn [fst] in Hk. rewrite <- Hk. exact Hg.
    + intros Hg. exists (VStr e, n). split; [reflexivity | exact Hg].
  - split.
    + intros Hb. apply map_eq_nil in Hb.
      destruct docs as [| d docs]; [reflexivity |].
      assert (Hlen : List.length (sort_groups groups) = 0) by (rewrite Hb; reflexivity).
      rewrite (Permutation_length Hperm) in Hlen.
      destruct groups; [unfold group_total in Htotal; simpl in Htotal; lia | discriminate].
    + intros ->. subst groups. reflexivity.
Qed.

(** ** What the indexer persists *)

Section Persisted.

Variable split_text : string -> list string.

Lemma persisted_skip (file_path : string) (c : content) (rest : list (string * content)) :
  indexable c = None ->
  persisted split_text ((file_path, c) :: rest) = persisted split_text rest.
Proof.
  intros H. unfold persisted. cbn [documents_for_vectorstore]. rewrite H. reflexivity.
Qed.

Lemma persisted_file (file_path : string) (c : content) (rest : list (string * content)) :
  persisted split_text ((file_path, c) :: rest)
  = match indexable c with
    | Some text => chunk_records split_text file_path text
    | None => []
    end ++ persisted split_text rest.
Proof.
  destruct (indexable c) as [text |] eqn:E.
  - destruct c as [s | |]; try discriminate. simpl in E.
    destruct (strip_nonempty s) eqn:Es; [| discriminate]. injection E as ->.
    apply persisted_cons, Es.
  - apply persisted_skip, E.
Qed.

Lemma source_of_chunk_records (file_path text p : string) :
  filter (fun r => cond_holds (Eq (VStr p)) (get "source" r))
         (chunk_records split_text file_path text)
  = if p =? file_path then chunk_records split_text file_path text else [].
Proof.
  unfold chunk_records.
  induction (split_text text) as [| chunk chunks IH];
    [destruct (p =? file_path); reflexivity |].
  cbn [map filter]. rewrite IH.
  destruct (record_fields file_path chunk) as (Hs & _).
  cbv zeta in Hs. rewrite Hs. cbn [cond_holds].
  destruct (String.eqb_spec p file_path) as [-> | N].
  - rewrite value_eqb_refl. reflexivity.
  - destruct (value_eqb (VStr p) (VStr file_path)) eqn:E; [| reflexivity].
    apply value_eqb_eq in E. injection E as E. contradiction.
Qed.

Lemma source_is_a_key (all_files : list (string * content)) (r : document) :
  In r (persisted split_text all_files) ->
  exists file_path, In file_path (map fst all_files)
                    /\ get "source" r = Some (VStr file_path).
Proof.
  intros Hr. apply persisted_In in Hr.
  destruct Hr as (file_path & text & chunk & Hin & _ & _ & ->).
  exists file_path. split; [| reflexivity].
  apply in_map_iff. exists (file_path, Text text). split; [reflexivity | exact Hin].
Qed.

Lemma source_absent (all_files : list (string * content)) (p : string) :
  ~ In p (map fst all_files) ->
  filter (fun r => cond_holds (Eq (VStr p)) (get "source" r))
         (persisted split_text all_files) = [].
Proof.
  induction all_files as [| [file_path c] rest IH]; [reflexivity |].
  cbn [map fst In]. intros H.
  rewrite persisted_file, filter_app, IH by tauto.
  destruct (indexable c) as [text |]; [| reflexivity].
  rewrite source_of_chunk_records.
  destruct (String.eqb_spec p file_path) as [-> | N]; [| reflexivity].
  elim H. left. reflexivity.
Qed.

(** X9. After a run over a dictionary of fetched files, the records whose
    source is the path of a file are its chunks and nothing else: one
    record per chunk of its text, in the order of the chunks, each made of
    the chunk and the metadata of the file, when the file is a text with
    something other than white space in it, and none when it is binary, was
    not fetched or is blank.  Every record has the path of a fetched file
    as its source, so the number of records is the sum of the chunk
    counts. *)
Theorem records_are_the_chunks_of_text_files :
  forall all_files : list (string * content),
    NoDup (map fst all_files) ->
    (forall file_path c,
        In (file_path, c) all_files ->
        filter (fun r => cond_holds (Eq (VStr file_path)) (get "source" r))
               (persisted split_text all_files)
        = match indexable c with
          | Some text => chunk_records split_text file_path text
          | None => []
          end)
    /\ (forall r, In r (persisted split_text all_files) ->
                  exists file_path, In file_path (map fst all_files)
                                    /\ get "source" r = Some (VStr file_path))
    /\ List.length (persisted split_text all_files)
       = list_sum (map (chunks_of split_text) all_files).
Proof.
  intros all_files Hnodup. split; [| split].
  - induction all_files as [| [file_path0 c0] rest IH]; [intros ? ? [] |].
    cbn [map fst] in Hnodup. inversion Hnodup as [| ? ? Hnot Hrest]; subst.
    intros file_path c Hin. rewrite persisted_file, filter_app.
    destruct Hin as [E | Hin].
    + injection E as -> ->. rewrite (source_absent rest file_path Hnot), app_nil_r.
      destruct (indexable c) as [text |]; [| reflexivity].
      rewrite source_of_chunk_records, String.eqb_refl. reflexivity.
    + rewrite (IH Hrest file_path c Hin).
      assert (N : file_path <> file_path0).
      { intros ->. apply Hnot. apply in_map_iff.
        exists (file_path0, c). split; [reflexivity | exact Hin]. }
      destruct (indexable c0) as [text0 |]; [| reflexivity].
      rewrite source_of_chunk_records.
      destruct (String.eqb_spec file_path file_path0); [contradiction | reflexivity].
  - intros r. apply source_is_a_key.
  - clear Hnodup. induction all_files as [| [file_path c] rest IH]; [reflexivity |].
    rewrite persisted_file, length_app, IH.
    change (list_sum (map (chunks_of split_text) ((file_path, c) :: rest)))
      with (chunks_of split_text (file_path, c)
            + list_sum (map (chunks_of split_text) rest)).
    f_equal. unfold chunks_of. cbn [snd].
    destruct (indexable c); [unfold chunk_records; apply length_map | reflexivity].
Qed.

End Persisted.

(** ** The extension of a file name *)

Lemma rsplit_after_sepfree (s : string) : sepfree s -> rsplit_after sep s = ("", s).
Proof.
  unfold sepfree. induction s as [| c s IH]; [reflexivity |].
  simpl. destruct (Ascii.eqb c sep); [discriminate |].
  intros H. rewrite (IH H). reflexivity.
Qed.

Lemma rsplit_at_none (c : ascii) (s : string) : rsplit_at c s = None -> count c s = 0.
Proof.
  induction s as [| x s IH]; [reflexivity |].
  simpl. destruct (rsplit_at c s) as [[root ext] |]; [discriminate |].
  destruct (Ascii.eqb x c); [discriminate |]. intros _. apply IH. reflexivity.
Qed.

Lemma rsplit_at_some (c : ascii) (s root ext : string) :
  rsplit_at c s = Some (root, ext) ->
  s = root +:+ ext /\ exists e, ext = String c e /\ count c e = 0.
Proof.
  revert root ext. induction s as [| x s IH]; intros root ext; [discriminate |].
  simpl. destruct (rsplit_at c s) as [[root' ext'] |] eqn:E.
  - intros H. injection H as <- <-. destruct (IH root' ext' eq_refl) as (-> & He).
    split; [reflexivity | exact He].
  - destruct (Ascii.eqb x c) eqn:Ex; [| discriminate].
    intros H. injection H as <- <-. apply Ascii.eqb_eq in Ex. subst x.
    split; [reflexivity |]. exists s. split; [reflexivity | apply rsplit_at_none, E].
Qed.

Lemma all_char_app (c : ascii) (s t : string) :
  all_char c (s +:+ t) = all_char c s && all_char c t.
Proof.
  induction s as [| x s IH]; [reflexivity |].
  simpl. rewrite IH. apply andb_assoc.
Qed.

Lemma basename_sepfree (p : string) : sepfree (basename p).
Proof.
  rewrite basename_components.
  destruct (components_cons p) as (name & names & E).
  assert (Hne : components p <> []) by (rewrite E; discriminate).
  destruct (snoc_removelast _ (components p) Hne) as (x & Hx).
  pose proof (components_sepfree p) as S. rewrite Hx in S |- *.
  rewrite last_last. apply Forall_app in S. destruct S as [_ S].
  inversion S; assumption.
Qed.

(** X10. In the record of a file, the file name is a base followed by the
    extension.  The extension is either empty, and then the name has no dot
    but leading ones, or it starts at the last dot of the name, and then
    something other than dots stands before it. *)
Theorem extension_starts_at_the_last_dot :
  forall file_path chunk : string,
    let r := record {| LangChain.page_content := chunk;
                       LangChain.metadata := file_metadata file_path |} in
    exists base ext : string,
      get "file_name" r = Some (VStr (base +:+ ext))
      /\ get "file_extension" r = Some (VStr ext)
      /\ ((ext = ""
           /\ exists dots rest, base = dots +:+ rest
                                /\ all_char dot dots = true /\ count dot rest = 0)
          \/ (exists e, ext = String dot e /\ count dot e = 0
                        /\ all_char dot base = false)).
Proof.
  intros file_path chunk r.
  destruct (record_fields file_path chunk) as (_ & Hn & He & _). cbv zeta in Hn, He.
  fold r in Hn, He. rewrite Hn, He. clear Hn He.
  unfold splitext. rewrite (rsplit_after_sepfree _ (basename_sepfree file_path)).
  destruct (rsplit_at dot (basename file_path)) as [[root ext] |] eqn:E.
  - destruct (rsplit_at_some _ _ _ _ E) as (Hname & e & -> & Hcount).
    destruct (all_char dot root) eqn:Hroot; cbn [snd String.append].
    + exists (basename file_path), "". split; [| split; [reflexivity |]].
      * f_equal. f_equal. clear. induction (basename file_path); simpl; congruence.
      * left. split; [reflexivity |].
        exists (root +:+ String dot ""), e. repeat split.
        -- rewrite Hname, append_assoc. reflexivity.
        -- rewrite all_char_app, Hroot. reflexivity.
        -- exact Hcount.
    + exists root, (String dot e). split; [rewrite Hname; reflexivity |].
      split; [reflexivity |]. right. exists e. auto.
  - cbn [snd]. exists (basename file_path), "". split; [| split; [reflexivity |]].
    + f_equal. f_equal. clear. induction (basename file_path); simpl; congruence.
    + left. split; [reflexivity |]. exists "", (basename file_path).
      repeat split. apply rsplit_at_none, E.
Qed.

(** ** Running the indexer twice *)

Lemma nodup_app_incl (a b : list value) :
  incl a b -> nodup value_eq_dec (a ++ b) = nodup value_eq_dec b.
Proof.
  induction a as [| x a IH]; intros H; [reflexivity |].
  cbn [app nodup].
  destruct (in_dec value_eq_dec x (a ++ b)) as [_ | N].
  - apply IH. intros y Hy. apply H. right. exact Hy.
  - elim N. apply in_or_app. right. apply H. left. reflexivity.
Qed.

Lemma distinct_doubled (docs : list document) (field : string) (q : query) :
  distinct (stored (docs ++ docs)) field q = distinct (stored docs) field q.
Proof.
  cbn [distinct stored]. unfold select. destruct (accepted q); [| reflexivity].
  cbn [bind]. rewrite filter_app, field_values_app, nodup_app_incl; [reflexivity |].
  intros v Hv. exact Hv.
Qed.

(** X11. A second run over the same files adds every record once more:
    the count of files in a directory doubles, while the tools that count
    or list distinct values answer as after the first run. *)
Theorem second_run_duplicates_records :
  forall (split_text : string -> list string)
         (all_files : list (string * content)) (p : string),
    let once := LoadData.run split_text [] all_files in
    let twice := LoadData.run split_text once all_files in
    List.length twice = List.length once + List.length once
    /\ (exists k : nat,
           StructureAgent.count_files_in_directory (stored once) p
           = Ok ("Total number of files directly in directory '" +:+ p +:+ "': "
                 +:+ PyStr.of_nat k)
           /\ StructureAgent.count_files_in_directory (stored twice) p
              = Ok ("Total number of files directly in directory '" +:+ p +:+ "': "
                    +:+ PyStr.of_nat (k + k)))
    /\ StructureAgent.count_total_files (stored twice)
       = StructureAgent.count_total_files (stored once)
    /\ StructureAgent.count_total_directories (stored twice)
       = StructureAgent.count_total_directories (stored once)
    /\ StructureAgent.count_top_level_directories (stored twice)
       = StructureAgent.count_top_level_directories (stored once)
    /\ StructureAgent.list_all_directories (stored twice)
       = StructureAgent.list_all_directories (stored once)
    /\ StructureAgent.list_top_level_directories (stored twice)
       = StructureAgent.list_top_level_directories (stored once).
Proof.
  intros split_text all_files p once twice.
  assert (Htwice : twice = once ++ once) by reflexivity.
  rewrite Htwice. clearbody once. clear twice Htwice.
  split; [apply length_app | split].
  - exists (List.length
              (filter (fun d => cond_holds (Eq (VStr p)) (get "directory" d)) once)).
    unfold StructureAgent.count_files_in_directory. cbn [count_documents stored].
    rewrite !select_directory. cbn [bind try_except].
    rewrite filter_app, length_app. split; reflexivity.
  - unfold StructureAgent.count_total_files, StructureAgent.count_total_directories,
      StructureAgent.count_top_level_directories, StructureAgent.list_all_directories,
      StructureAgent.list_top_level_directories, StructureAgent.top_level_dirs.
    rewrite !distinct_doubled. repeat split.
Qed.

(** ** The answer of the content tools *)

Lemma concat_contains (sep' : string) (l : list string) (x : string) :
  In x l -> exists before after, String.concat sep' l = before +:+ x +:+ after.
Proof.
  induction l as [| y l IH]; [contradiction |].
  intros [-> | Hx].
  - exists "". destruct l as [| z l].
    + exists "". simpl. clear. induction x; simpl; congruence.
    + exists (sep' +:+ String.concat sep' (z :: l)). reflexivity.
  - destruct (IH Hx) as (before & after & E).
    destruct l as [| z l]; [contradiction |].
    exists (y +:+ sep' +:+ before), after.
    change (String.concat sep' (y :: z :: l))
      with (y +:+ sep' +:+ String.concat sep' (z :: l)).
    rewrite E, !append_assoc. reflexivity.
Qed.

Lemma formatted_chunks (docs : list LangChain.Document) :
  docs <> [] ->
  let answer := String.concat ContentAgent.separator (map ContentAgent.formatted docs) in
  String.prefix "Source: " answer = true
  /\ forall d, In d docs ->
               exists before after,
                 answer = before +:+ ContentAgent.formatted d +:+ after.
Proof.
  intros Hne answer. split.
  - subst answer. destruct docs as [| d [| d' docs]]; [congruence | |].
    + unfold ContentAgent.formatted. cbn [map String.concat]. apply prefix_append.
    + change (String.concat ContentAgent.separator
                (map ContentAgent.formatted (d :: d' :: docs)))
        with (ContentAgent.formatted d +:+ ContentAgent.separator
              +:+ String.concat ContentAgent.separator
                    (map ContentAgent.formatted (d' :: docs))).
      unfold ContentAgent.formatted at 1. rewrite append_assoc. apply prefix_append.
  - intros d Hd. apply concat_contains, in_map, Hd.
Qed.

(** X12. When the similarity search returns chunks, the answer of
    [content_search] begins with the first source line and contains, for
    every chunk returned, its source path followed by its text; when it
    returns none, the answer is the fixed sentence saying so.
    [summarize_repo_content] does the same with its fixed query and 20
    chunks. *)
Theorem content_answer_shows_every_chunk :
  forall (vs : LangChain.vector_store) (q : string) (docs broad : list LangChain.Document),
    LangChain.similarity_search vs q 5 = Ok docs ->
    LangChain.similarity_search vs "overview of the repository content and structure" 20
    = Ok broad ->
    (exists answer,
        ContentAgent.content_search vs q = Ok answer
        /\ match docs with
           | [] => answer = "No relevant document chunks found."
           | _ => String.prefix "Source: " answer = true
                  /\ forall d, In d docs ->
                               exists before after,
                                 answer = before +:+ ContentAgent.formatted d +:+ after
           end)
    /\ (exists answer,
           ContentAgent.summarize_repo_content vs = Ok answer
           /\ match broad with
              | [] => answer = "Could not retrieve content for a general summary."
              | _ => String.prefix "Source: " answer = true
                     /\ forall d, In d broad ->
                                  exists before after,
                                    answer = before +:+ ContentAgent.formatted d +:+ after
              end).
Proof.
  intros vs q docs broad Hdocs Hbroad. split.
  - unfold ContentAgent.content_search. rewrite Hdocs. cbn [bind].
    destruct docs as [| d docs]; [eexists; split; reflexivity |].
    eexists. split; [reflexivity |]. apply formatted_chunks. discriminate.
  - unfold ContentAgent.summarize_repo_content. rewrite Hbroad. cbn [bind].
    destruct broad as [| d broad']; [eexists; split; reflexivity |].
    eexists. split; [reflexivity |]. apply formatted_chunks. discriminate.
Qed.

(** ** White space and fences *)

Lemma lstrip_spaces (pre s : string) :
  all_chars is_space pre = true -> PyText.lstrip (pre +:+ s) = PyText.lstrip s.
Proof.
  induction pre as [| c pre IH]; [reflexivity |].
  cbn [all_chars String.append PyText.lstrip]. intros H.
  apply andb_prop in H. destruct H as [Hc Hpre]. rewrite Hc. apply IH, Hpre.
Qed.

Lemma rstrip_all_spaces (post : string) :
  all_chars is_space post = true -> PyText.rstrip post = "".
Proof.
  induction post as [| c post IH]; [reflexivity |].
  cbn [all_chars PyText.rstrip]. intros H.
  apply andb_prop in H. destruct H as [Hc Hpost]. rewrite (IH Hpost), Hc. reflexivity.
Qed.

Lemma rstrip_spaces (s post : string) :
  all_chars is_space post = true -> PyText.rstrip (s +:+ post) = PyText.rstrip s.
Proof.
  intros H. induction s as [| c s IH]; [apply rstrip_all_spaces, H |].
  cbn [String.append PyText.rstrip]. rewrite IH. reflexivity.
Qed.

Lemma rstrip_last (s : string) (x : ascii) :
  is_space x = false -> PyText.rstrip (s +:+ String x "") = s +:+ String x "".
Proof.
  intros H. induction s as [| c s IH].
  - simpl. rewrite H. reflexivity.
  - cbn [String.append PyText.rstrip]. rewrite IH.
    destruct (s +:+ String x "") eqn:E; [| reflexivity].
    elim (append_not_empty _ _ _ E).
Qed.

(** Stripping a text that begins and ends with something other than white
    space, put between white space, gives the text. *)
Lemma strip_between_spaces (pre post s : string) (a x : ascii) :
  all_chars is_space pre = true -> all_chars is_space post = true ->
  is_space a = false -> is_space x = false ->
  PyText.strip (pre +:+ (String a s +:+ String x "") +:+ post)
  = String a s +:+ String x "".
Proof.
  intros Hpre Hpost Ha Hx. unfold PyText.strip.
  rewrite (lstrip_spaces _ _ Hpre).
  cbn [String.append PyText.lstrip]. rewrite Ha.
  change (String a ((s +:+ String x "") +:+ post))
    with ((String a s +:+ String x "") +:+ post).
  rewrite (rstrip_spaces _ _ Hpost). apply (rstrip_last (String a s) x Hx).
Qed.

Lemma endswith_append (body suffix : string) :
  PyText.endswith suffix (body +:+ suffix) = true.
Proof.
  induction body as [| c body IH]; cbn [String.append PyText.endswith].
  - destruct suffix; simpl; [reflexivity |]. rewrite Ascii.eqb_refl, String.eqb_refl.
    reflexivity.
  - rewrite IH. apply orb_true_r.
Qed.

Lemma length_append (s t : string) :
  String.length (s +:+ t) = String.length s + String.length t.
Proof. induction s as [| c s IH]; simpl; [reflexivity | now rewrite IH]. Qed.

Lemma substring_head (s t : string) : String.substring 0 (String.length s) (s +:+ t) = s.
Proof.
  induction s as [| c s IH]; [destruct t; reflexivity |].
  simpl. rewrite IH. reflexivity.
Qed.

Lemma drop_last_append (body suffix : string) :
  PyText.drop_last (String.length suffix) (body +:+ suffix) = body.
Proof.
  unfold PyText.drop_last. rewrite length_append.
  replace (String.length body + String.length suffix - String.length suffix)
    with (String.length body) by lia.
  apply substring_head.
Qed.

Lemma count_lstrip (c : ascii) (s : string) : count c (PyText.lstrip s) <= count c s.
Proof.
  induction s as [| x s IH]; [reflexivity |].
  cbn [PyText.lstrip]. destruct (is_space x); [simpl; lia | reflexivity].
Qed.

Lemma count_rstrip (c : ascii) (s : string) : count c (PyText.rstrip s) <= count c s.
Proof.
  induction s as [| x s IH]; [reflexivity |].
  cbn [PyText.rstrip]. destruct (PyText.rstrip s) as [| y r] eqn:E.
  - destruct (is_space x); simpl in *; lia.
  - cbn [count] in *. lia.
Qed.

Lemma count_prefix (c : ascii) (start s : string) :
  String.prefix (String c start) s = true -> 0 < count c s.
Proof.
  destruct s as [| x s]; [discriminate |]. simpl.
  destruct (ascii_dec c x) as [<- | N]; [| discriminate].
  intros _. rewrite Ascii.eqb_refl. lia.
Qed.

Lemma unfenced (raw : string) :
  count "`" raw = 0 -> PyText.startswith "```text" (PyText.strip raw) = false.
Proof.
  intros H. destruct (PyText.startswith "```text" (PyText.strip raw)) eqn:E; [| reflexivity].
  apply count_prefix in E. unfold PyText.strip in E.
  pose proof (count_rstrip "`" (PyText.lstrip raw)).
  pose proof (count_lstrip "`" raw). lia.
Qed.

(** ** The query function never raises *)

(** X13. Whatever the three agent executors and [json.loads] do,
    [query_data] and the two routing tools return and never raise.  An
    exception [e] of an executor becomes the returned text: the sentence
    "An error occurred during router agent processing: e" for the router,
    "Error routing query to Structure Agent: e" and "Error routing query to
    Content Agent: e" for the tools.  An empty query is answered with the
    request to enter a question, without calling the router. *)
Theorem query_data_never_raises
  (structure_agent_executor content_agent_executor router_agent_executor : Router.executor)
  (json_loads : string -> Router.loaded) (query : string) :
  (exists a, Router.query_data router_agent_executor json_loads query = Ok a) /\
  (exists v, Router.structure_agent_tool structure_agent_executor query = Ok v) /\
  (exists v, Router.content_agent_tool content_agent_executor query = Ok v) /\
  Router.query_data router_agent_executor json_loads ""
  = Ok (Router.Text "Please enter a question about the repository content or structure.") /\
  (forall e, query <> "" ->
     Router.invoke router_agent_executor query = Raise e ->
     Router.query_data router_agent_executor json_loads query
     = Ok (Router.Text ("An error occurred during router agent processing: " +:+ e))) /\
  (forall e,
     Router.invoke structure_agent_executor query = Raise e ->
     Router.structure_agent_tool structure_agent_executor query
     = Ok (Mongo.VStr ("Error routing query to Structure Agent: " +:+ e))) /\
  (forall e,
     Router.invoke content_agent_executor query = Raise e ->
     Router.content_agent_tool content_agent_executor query
     = Ok (Mongo.VStr ("Error routing query to Content Agent: " +:+ e))).
Proof.
  split; [| split; [| split; [| split; [| split; [| split]]]]].
  - unfold Router.query_data. destruct (query =? ""); [eexists; reflexivity |].
    match goal with |- exists a, try_except ?c ?h = Ok a => destruct c as [a | e] end;
      eexists; reflexivity.
  - unfold Router.structure_agent_tool.
    destruct (Router.invoke structure_agent_executor query); eexists; reflexivity.
  - unfold Router.content_agent_tool.
    destruct (Router.invoke content_agent_executor query); eexists; reflexivity.
  - reflexivity.
  - intros e Hq He. unfold Router.query_data.
    destruct (String.eqb_spec query "") as [-> | _]; [elim Hq; reflexivity |].
    rewrite He. reflexivity.
  - intros e He. unfold Router.structure_agent_tool. rewrite He. reflexivity.
  - intros e He. unfold Router.content_agent_tool. rewrite He. reflexivity.
Qed.

(** ** What the query function makes of the router's output *)

(** X14. An output of the router that holds no backquote is returned as it
    is, white space at its ends included, and [json.loads] is not
    consulted; a response without an "output" entry is answered with
    "Router Agent failed to produce an output.". *)
Theorem unfenced_output_is_relayed
  (router_agent_executor : Router.executor) (json_loads : string -> Router.loaded)
  (query : string) (agent_response : Mongo.document) :
  query <> "" ->
  Router.invoke router_agent_executor query = Ok agent_response ->
  (forall raw_output,
     Mongo.get "output" agent_response = Some (Mongo.VStr raw_output) ->
     count "`" raw_output = 0 ->
     Router.query_data router_agent_executor json_loads query = Ok (Router.Text raw_output)) /\
  (Mongo.get "output" agent_response = None ->
   Router.query_data router_agent_executor json_loads query
   = Ok (Router.Text "Router Agent failed to produce an output.")).
Proof.
  intros Hq Hinvoke.
  assert (Hrelay : forall raw_output,
    Router.get_or agent_response "output" "Router Agent failed to produce an output."
    = Mongo.VStr raw_output ->
    count "`" raw_output = 0 ->
    Router.query_data router_agent_executor json_loads query = Ok (Router.Text raw_output)).
  { intros raw_output Hget Hcount. unfold Router.query_data.
    destruct (String.eqb_spec query "") as [-> | _]; [elim Hq; reflexivity |].
    rewrite Hinvoke. cbn [bind]. rewrite Hget. cbn [Router.as_string bind].
    rewrite (unfenced _ Hcount). reflexivity. }
  split.
  - intros raw_output Hget. apply Hrelay. unfold Router.get_or. now rewrite Hget.
  - intros Hget. apply Hrelay; [| reflexivity]. unfold Router.get_or. now rewrite Hget.
Qed.

Lemma fence_shape (c : ascii) (body : string) :
  "```text" +:+ String c (body +:+ "```")
  = String "`" ("``text" +:+ String c (body +:+ "``")) +:+ String "`" "".
Proof.
  cbn [String.append]. rewrite (append_assoc body "``" "`"). reflexivity.
Qed.

(** X15. An output of the router that is, between white space, the mark
    "```text", one more character, a body and the closing mark "```" is
    unwrapped: the character after "```text" is dropped whatever it is, and
    the answer follows [json.loads] on the stripped body.  A JSON object
    with an "output" entry gives the value of that entry, any other JSON
    value and a text that is no JSON give the stripped body, and another
    exception of [json.loads] gives the error sentence. *)
Theorem fenced_output_is_unwrapped
  (router_agent_executor : Router.executor) (json_loads : string -> Router.loaded)
  (query : string) (agent_response : Mongo.document)
  (pre post body : string) (c : ascii) :
  query <> "" ->
  Router.invoke router_agent_executor query = Ok agent_response ->
  Mongo.get "output" agent_response
  = Some (Mongo.VStr (pre +:+ ("```text" +:+ String c (body +:+ "```")) +:+ post)) ->
  all_chars is_space pre = true ->
  all_chars is_space post = true ->
  Router.query_data router_agent_executor json_loads query
  = Ok match json_loads (PyText.strip body) with
       | Router.Loaded (Router.JObject fields) =>
           match Router.field "output" fields with
           | Some output => Router.Parsed output
           | None => Router.Text (PyText.strip body)
           end
       | Router.Loaded _ => Router.Text (PyText.strip body)
       | Router.DecodeError _ => Router.Text (PyText.strip body)
       | Router.OtherError e =>
           Router.Text ("An error occurred during router agent processing: " +:+ e)
       end.
Proof.
  intros Hq Hinvoke Hget Hpre Hpost. unfold Router.query_data.
  destruct (String.eqb_spec query "") as [-> | _]; [elim Hq; reflexivity |].
  rewrite Hinvoke. cbn [bind]. unfold Router.get_or. rewrite Hget.
  cbn [Router.as_string bind]. unfold Router.cleaned_output.
  rewrite fence_shape, (strip_between_spaces pre post _ "`" "`" Hpre Hpost eq_refl eq_refl).
  rewrite <- fence_shape. unfold PyText.startswith. rewrite prefix_append.
  change (PyText.drop 8 ("```text" +:+ String c (body +:+ "```"))) with (body +:+ "```").
  rewrite endswith_append.
  change 3 with (String.length "```"). rewrite drop_last_append.
  unfold Router.parsed_output.
  destruct (json_loads (PyText.strip body)) as [[| | | | | fields] | e | e]; try reflexivity.
  destruct (Router.field "output" fields); reflexivity.
Qed.

(** ** Dictionaries *)

Lemma keys_dict_set {V : Type} (k : string) (v : V) (d : Fetcher.dict V) (p : string) :
  In p (keys (Fetcher.dict_set k v d)) <-> p = k \/ In p (keys d).
Proof.
  unfold keys. induction d as [| [k' v'] rest IH]; cbn [Fetcher.dict_set].
  - simpl. intuition.
  - destruct (String.eqb_spec k' k) as [-> | N]; cbn [map fst In].
    + intuition.
    + rewrite IH. intuition.
Qed.

Lemma In_dict_set {V : Type} (k : string) (v : V) (d : Fetcher.dict V) (p : string) (c : V) :
  In (p, c) (Fetcher.dict_set k v d) -> (p = k /\ c = v) \/ In (p, c) d.
Proof.
  induction d as [| [k' v'] rest IH]; cbn [Fetcher.dict_set].
  - intros [H | []]. injection H as <- <-. left. split; reflexivity.
  - destruct (String.eqb_spec k' k) as [-> | N].
    + intros [H | H]; [injection H as <- <-; left; split; reflexivity |].
      right. right. exact H.
    + intros [H | H]; [right; left; exact H |].
      destruct (IH H) as [E | E]; [left; exact E | right; right; exact E].
Qed.

Lemma NoDup_dict_set {V : Type} (k : string) (v : V) (d : Fetcher.dict V) :
  NoDup (keys d) -> NoDup (keys (Fetcher.dict_set k v d)).
Proof.
  induction d as [| [k' v'] rest IH]; cbn [Fetcher.dict_set].
  - intros _. repeat constructor. intros [].
  - intros H. inversion H as [| ? ? Hnot Hrest]; subst.
    destruct (String.eqb_spec k' k) as [-> | N].
    + exact H.
    + change (NoDup (k' :: keys (Fetcher.dict_set k v rest))). constructor.
      * rewrite keys_dict_set. intros [E | E]; [elim N; exact E | exact (Hnot E)].
      * apply IH, Hrest.
Qed.

Lemma keys_dict_update {V : Type} (sub d : Fetcher.dict V) (p : string) :
  In p (keys (Fetcher.dict_update d sub)) <-> In p (keys d) \/ In p (keys sub).
Proof.
  unfold Fetcher.dict_update. revert d.
  induction sub as [| [k v] sub IH]; intros d; cbn [fold_left fst snd].
  - simpl. intuition.
  - rewrite IH, keys_dict_set. unfold keys. cbn [map fst In]. intuition.
Qed.

Lemma In_dict_update {V : Type} (sub d : Fetcher.dict V) (p : string) (c : V) :
  In (p, c) (Fetcher.dict_update d sub) -> In (p, c) d \/ In (p, c) sub.
Proof.
  unfold Fetcher.dict_update. revert d.
  induction sub as [| [k v] sub IH]; intros d; cbn [fold_left fst snd].
  - intros H. left. exact H.
  - intros H. destruct (IH _ H) as [E | E]; [| right; right; exact E].
    destruct (In_dict_set _ _ _ _ _ E) as [[-> ->] | E']; [right; left; reflexivity |].
    left. exact E'.
Qed.

Lemma NoDup_dict_update {V : Type} (sub d : Fetcher.dict V) :
  NoDup (keys d) -> NoDup (keys (Fetcher.dict_update d sub)).
Proof.
  unfold Fetcher.dict_update. revert d.
  induction sub as [| [k v] sub IH]; intros d H; cbn [fold_left fst snd].
  - exact H.
  - apply IH, NoDup_dict_set, H.
Qed.

(** ** Walking the repository *)

Section Fetched.

Variable bytes : Type.
Variable b64decode : string -> result bytes.
Variable decode_utf8 : bytes -> option string.
Variable requests_get : string -> result Fetcher.response.
Variable owner : string.
Variable repo : string.

Let file_content := Fetcher.get_file_content bytes b64decode decode_utf8 requests_get owner repo.
Let collect := Fetcher.collect bytes b64decode decode_utf8 requests_get owner repo.
Let all_files := Fetcher.get_all_files bytes b64decode decode_utf8 requests_get owner repo.

Lemma collect_file (get_sub : string -> result (Fetcher.dict content))
      (i : Fetcher.item) (rest : list Fetcher.item) (acc : Fetcher.dict content) :
  Fetcher.type i = "file" ->
  collect get_sub (i :: rest) acc
  = (c <- file_content (Fetcher.path i) ;;
     collect get_sub rest (Fetcher.dict_set (Fetcher.path i) c acc)).
Proof. intros H. unfold collect, file_content. cbn [Fetcher.collect]. rewrite H. reflexivity. Qed.

Lemma collect_dir (get_sub : string -> result (Fetcher.dict content))
      (i : Fetcher.item) (rest : list Fetcher.item) (acc : Fetcher.dict content) :
  Fetcher.type i = "dir" ->
  collect get_sub (i :: rest) acc
  = (sub <- get_sub (Fetcher.path i) ;;
     collect get_sub rest (Fetcher.dict_update acc sub)).
Proof. intros H. unfold collect. cbn [Fetcher.collect]. rewrite H. reflexivity. Qed.

Lemma collect_other (get_sub : string -> result (Fetcher.dict content))
      (i : Fetcher.item) (rest : list Fetcher.item) (acc : Fetcher.dict content) :
  Fetcher.type i <> "file" -> Fetcher.type i <> "dir" ->
  collect get_sub (i :: rest) acc = collect get_sub rest acc.
Proof.
  intros Hf Hd. unfold collect. cbn [Fetcher.collect].
  destruct (String.eqb_spec (Fetcher.type i) "file"); [contradiction |].
  destruct (String.eqb_spec (Fetcher.type i) "dir"); [contradiction |]. reflexivity.
Qed.

(** The three cases of an entry of the loop. *)
Lemma entry_cases (i : Fetcher.item) :
  Fetcher.type i = "file" \/ Fetcher.type i = "dir"
  \/ (Fetcher.type i <> "file" /\ Fetcher.type i <> "dir").
Proof.
  destruct (String.eqb_spec (Fetcher.type i) "file"); [left; assumption |].
  destruct (String.eqb_spec (Fetcher.type i) "dir"); [right; left; assumption |].
  right. right. split; assumption.
Qed.

Lemma collect_keys (get_sub : string -> result (Fetcher.dict content))
      (items : list Fetcher.item) :
  forall acc d, collect get_sub items acc = Ok d ->
  forall p, In p (keys d) <->
    In p (keys acc)
    \/ (exists i, In i items /\ Fetcher.type i = "file" /\ Fetcher.path i = p)
    \/ (exists i sub, In i items /\ Fetcher.type i = "dir"
                      /\ get_sub (Fetcher.path i) = Ok sub /\ In p (keys sub)).
Proof.
  induction items as [| i rest IH]; intros acc d H p.
  - injection H as <-. split; [auto |].
    intros [E | [(i & [] & _) | (i & sub & [] & _)]]. exact E.
  - destruct (entry_cases i) as [Hf | [Hd | [Hf Hd]]].
    + rewrite (collect_file _ _ _ _ Hf) in H.
      destruct (file_content (Fetcher.path i)) as [c | e] eqn:Ec; [| discriminate].
      cbn [bind] in H. rewrite (IH _ _ H p), keys_dict_set. split.
      * intros [[-> | E] | [(j & Hj & Hjf & Hjp) | (j & sub & Hj & Hjd & Hsub & Hp)]].
        -- right. left. exists i. split; [left; reflexivity | split; [exact Hf | reflexivity]].
        -- left. exact E.
        -- right. left. exists j. split; [right; exact Hj | split; assumption].
        -- right. right. exists j, sub. split; [right; exact Hj | repeat split; assumption].
      * intros [E | [(j & [<- | Hj] & Hjf & Hjp) | (j & sub & [<- | Hj] & Hjd & Hsub & Hp)]].
        -- left. right. exact E.
        -- left. left. symmetry. exact Hjp.
        -- right. left. exists j. repeat split; assumption.
        -- rewrite Hf in Hjd. discriminate.
        -- right. right. exists j, sub. repeat split; assumption.
    + rewrite (collect_dir _ _ _ _ Hd) in H.
      destruct (get_sub (Fetcher.path i)) as [sub0 | e] eqn:Es; [| discriminate].
      cbn [bind] in H. rewrite (IH _ _ H p), keys_dict_update. split.
      * intros [[E | E] | [(j & Hj & Hjf & Hjp) | (j & sub & Hj & Hjd & Hsub & Hp)]].
        -- left. exact E.
        -- right. right. exists i, sub0.
           split; [left; reflexivity | repeat split; assumption].
        -- right. left. exists j. split; [right; exact Hj | split; assumption].
        -- right. right. exists j, sub. split; [right; exact Hj | repeat split; assumption].
      * intros [E | [(j & [<- | Hj] & Hjf & Hjp) | (j & sub & [<- | Hj] & Hjd & Hsub & Hp)]].
        -- left. left. exact E.
        -- rewrite Hd in Hjf. discriminate.
        -- right. left. exists j. repeat split; assumption.
        -- rewrite Es in Hsub. injection Hsub as <-. left. right. exact Hp.
        -- right. right. exists j, sub. repeat split; assumption.
    + rewrite (collect_other _ _ _ _ Hf Hd) in H. rewrite (IH _ _ H p). split.
      * intros [E | [(j & Hj & Hjf & Hjp) | (j & sub & Hj & Hjd & Hsub & Hp)]].
        -- left. exact E.
        -- right. left. exists j. split; [right; exact Hj | split; assumption].
        -- right. right. exists j, sub. split; [right; exact Hj | repeat split; assumption].
      * intros [E | [(j & [<- | Hj] & Hjf & Hjp) | (j & sub & [<- | Hj] & Hjd & Hsub & Hp)]].
        -- left. exact E.
        -- contradiction.
        -- right. left. exists j. repeat split; assumption.
        -- contradiction.
        -- right. right. exists j, sub. repeat split; assumption.
Qed.

Lemma collect_calls (get_sub : string -> result (Fetcher.dict content))
      (items : list Fetcher.item) :
  forall acc d, collect get_sub items acc = Ok d ->
  (forall i, In i items -> Fetcher.type i = "file" ->
     exists c, file_content (Fetcher.path i) = Ok c)
  /\ (forall i, In i items -> Fetcher.type i = "dir" ->
        exists sub, get_sub (Fetcher.path i) = Ok sub).
Proof.
  induction items as [| i rest IH]; intros acc d H.
  - split; intros i [].
  - destruct (entry_cases i) as [Hf | [Hd | [Hf Hd]]].
    + rewrite (collect_file _ _ _ _ Hf) in H.
      destruct (file_content (Fetcher.path i)) as [c | e] eqn:Ec; [| discriminate].
      cbn [bind] in H. destruct (IH _ _ H) as [IHf IHd]. split.
      * intros j [<- | Hj] Hjf; [exists c; exact Ec | exact (IHf j Hj Hjf)].
      * intros j [<- | Hj] Hjd; [rewrite Hf in Hjd; discriminate | exact (IHd j Hj Hjd)].
    + rewrite (collect_dir _ _ _ _ Hd) in H.
      destruct (get_sub (Fetcher.path i)) as [sub | e] eqn:Es; [| discriminate].
      cbn [bind] in H. destruct (IH _ _ H) as [IHf IHd]. split.
      * intros j [<- | Hj] Hjf; [rewrite Hd in Hjf; discriminate | exact (IHf j Hj Hjf)].
      * intros j [<- | Hj] Hjd; [exists sub; exact Es | exact (IHd j Hj Hjd)].
    + rewrite (collect_other _ _ _ _ Hf Hd) in H. destruct (IH _ _ H) as [IHf IHd]. split.
      * intros j [<- | Hj] Hjf; [contradiction | exact (IHf j Hj Hjf)].
      * intros j [<- | Hj] Hjd; [contradiction | exact (IHd j Hj Hjd)].
Qed.

Lemma collect_returns (get_sub : string -> result (Fetcher.dict content))
      (items : list Fetcher.item) :
  (forall i, In i items -> Fetcher.type i = "file" ->
     exists c, file_content (Fetcher.path i) = Ok c) ->
  (forall i, In i items -> Fetcher.type i = "dir" ->
     exists sub, get_sub (Fetcher.path i) = Ok sub) ->
  forall acc, exists d, collect get_sub items acc = Ok d.
Proof.
  induction items as [| i rest IH]; intros Hfiles Hdirs acc.
  - exists acc. reflexivity.
  - assert (IH' : forall acc, exists d, collect get_sub rest acc = Ok d).
    { apply IH; intros j Hj; [apply Hfiles | apply Hdirs]; right; exact Hj. }
    destruct (entry_cases i) as [Hf | [Hd | [Hf Hd]]].
    + rewrite (collect_file _ _ _ _ Hf).
      destruct (Hfiles i (or_introl eq_refl) Hf) as [c ->]. apply IH'.
    + rewrite (collect_dir _ _ _ _ Hd).
      destruct (Hdirs i (or_introl eq_refl) Hd) as [sub ->]. apply IH'.
    + rewrite (collect_other _ _ _ _ Hf Hd). apply IH'.
Qed.

Lemma collect_NoDup (get_sub : string -> result (Fetcher.dict content))
      (items : list Fetcher.item) :
  forall acc d, collect get_sub items acc = Ok d -> NoDup (keys acc) -> NoDup (keys d).
Proof.
  induction items as [| i rest IH]; intros acc d H Hacc.
  - injection H as <-. exact Hacc.
  - destruct (entry_cases i) as [Hf | [Hd | [Hf Hd]]].
    + rewrite (collect_file _ _ _ _ Hf) in H.
      destruct (file_content (Fetcher.path i)) as [c | e]; [| discriminate].
      exact (IH _ _ H (NoDup_dict_set _ _ _ Hacc)).
    + rewrite (collect_dir _ _ _ _ Hd) in H.
      destruct (get_sub (Fetcher.path i)) as [sub | e]; [| discriminate].
      exact (IH _ _ H (NoDup_dict_update _ _ Hacc)).
    + rewrite (collect_other _ _ _ _ Hf Hd) in H. exact (IH _ _ H Hacc).
Qed.

Lemma collect_values (P : string -> content -> Prop)
      (get_sub : string -> result (Fetcher.dict content)) (items : list Fetcher.item) :
  (forall i c, In i items -> Fetcher.type i = "file" ->
     file_content (Fetcher.path i) = Ok c -> P (Fetcher.path i) c) ->
  (forall i sub p c, In i items -> Fetcher.type i = "dir" ->
     get_sub (Fetcher.path i) = Ok sub -> In (p, c) sub -> P p c) ->
  forall acc d, collect get_sub items acc = Ok d ->
  (forall p c, In (p, c) acc -> P p c) ->
  forall p c, In (p, c) d -> P p c.
Proof.
  induction items as [| i rest IH]; intros Hfiles Hdirs acc d H Hacc.
  - injection H as <-. exact Hacc.
  - assert (IH' : forall acc d, collect get_sub rest acc = Ok d ->
                  (forall p c, In (p, c) acc -> P p c) ->
                  forall p c, In (p, c) d -> P p c).
    { apply IH.
      - intros j c Hj. apply Hfiles. right. exact Hj.
      - intros j sub p c Hj. apply (Hdirs j sub p c). right. exact Hj. }
    destruct (entry_cases i) as [Hf | [Hd | [Hf Hd]]].
    + rewrite (collect_file _ _ _ _ Hf) in H.
      destruct (file_content (Fetcher.path i)) as [c | e] eqn:Ec; [| discriminate].
      apply (IH' _ _ H). intros p c' Hin.
      destruct (In_dict_set _ _ _ _ _ Hin) as [[-> ->] | E]; [| exact (Hacc _ _ E)].
      exact (Hfiles i c (or_introl eq_refl) Hf Ec).
    + rewrite (collect_dir _ _ _ _ Hd) in H.
      destruct (get_sub (Fetcher.path i)) as [sub | e] eqn:Es; [| discriminate].
      apply (IH' _ _ H). intros p c Hin.
      destruct (In_dict_update _ _ _ _ Hin) as [E | E]; [exact (Hacc _ _ E) |].
      exact (Hdirs i sub p c (or_introl eq_refl) Hd Es E).
    + rewrite (collect_other _ _ _ _ Hf Hd) in H. exact (IH' _ _ H Hacc).
Qed.

Lemma collect_same (get_sub get_sub' : string -> result (Fetcher.dict content))
      (items : list Fetcher.item) :
  (forall i sub, In i items -> Fetcher.type i = "dir" ->
     get_sub (Fetcher.path i) = Ok sub -> get_sub' (Fetcher.path i) = Ok sub) ->
  forall acc d, collect get_sub items acc = Ok d -> collect get_sub' items acc = Ok d.
Proof.
  induction items as [| i rest IH]; intros Hsame acc d H; [exact H |].
  assert (IH' : forall acc d, collect get_sub rest acc = Ok d ->
                collect get_sub' rest acc = Ok d).
  { apply IH. intros j sub Hj. apply Hsame. right. exact Hj. }
  destruct (entry_cases i) as [Hf | [Hd | [Hf Hd]]].
  - rewrite (collect_file _ _ _ _ Hf) in H. rewrite (collect_file _ _ _ _ Hf).
    destruct (file_content (Fetcher.path i)) as [c | e]; [| discriminate H].
    apply IH', H.
  - rewrite (collect_dir _ _ _ _ Hd) in H. rewrite (collect_dir _ _ _ _ Hd).
    destruct (get_sub (Fetcher.path i)) as [sub | e] eqn:Es; [| discriminate H].
    rewrite (Hsame i sub (or_introl eq_refl) Hd Es). apply IH', H.
  - rewrite (collect_other _ _ _ _ Hf Hd) in H. rewrite (collect_other _ _ _ _ Hf Hd).
    apply IH', H.
Qed.

(** What a returning call has gone through. *)
Lemma all_files_returned (limit : nat) (path : string) (d : Fetcher.dict content) :
  all_files limit path = Ok d ->
  exists n response,
    limit = S n
    /\ requests_get (Fetcher.url owner repo path) = Ok response
    /\ ((Fetcher.status_code response <> 200%Z /\ d = [])
        \/ (exists items, lists requests_get owner repo path items
                          /\ collect (all_files n) items [] = Ok d)).
Proof.
  destruct limit as [| n]; [discriminate |]. intros H.
  unfold all_files in H. cbn [Fetcher.get_all_files] in H.
  destruct (requests_get (Fetcher.url owner repo path)) as [response | e] eqn:Er;
    [| discriminate].
  cbn [bind] in H. exists n, response. split; [reflexivity | split; [reflexivity |]].
  destruct (Z.eqb_spec (Fetcher.status_code response) 200) as [E | N].
  - right. destruct (Fetcher.json response) as [items | ? ?] eqn:Ej; [| discriminate].
    exists items. split; [| exact H]. exists response. repeat split; assumption.
  - left. injection H as <-. split; [exact N | reflexivity].
Qed.

Lemma all_files_listing (n : nat) (path : string) (items : list Fetcher.item) :
  lists requests_get owner repo path items ->
  all_files (S n) path = collect (all_files n) items [].
Proof.
  intros (response & Er & Es & Ej). unfold all_files, collect.
  cbn [Fetcher.get_all_files]. rewrite Er. cbn [bind]. rewrite Es, Ej. reflexivity.
Qed.

Lemma lists_once (path : string) (items items' : list Fetcher.item) :
  lists requests_get owner repo path items -> lists requests_get owner repo path items' ->
  items = items'.
Proof.
  intros (r & Er & _ & Ej) (r' & Er' & _ & Ej'). congruence.
Qed.

Lemma fetched_sound (limit : nat) :
  forall path d, all_files limit path = Ok d ->
  NoDup (keys d)
  /\ (forall p, In p (keys d) -> file_listed requests_get owner repo path p)
  /\ (forall p c, In (p, c) d -> file_content p = Ok c).
Proof.
  induction limit as [| n IH]; intros path d H; [discriminate |].
  destruct (all_files_returned _ _ _ H) as (n' & response & Hn & Er & [[_ ->] | Hl]).
  - split; [constructor | split; [intros p [] | intros p c []]].
  - injection Hn as <-. destruct Hl as (items & Hlists & Hc).
    split; [| split].
    + apply (collect_NoDup _ _ _ _ Hc). constructor.
    + intros p Hp. apply (collect_keys _ _ _ _ Hc) in Hp.
      destruct Hp as [[] | [(i & Hi & Hf & <-) | (i & sub & Hi & Hd & Hsub & Hp)]].
      * exact (listed_here _ _ _ _ _ _ Hlists Hi Hf).
      * apply (listed_below _ _ _ _ _ _ _ Hlists Hi Hd).
        exact (proj1 (proj2 (IH _ _ Hsub)) p Hp).
    + apply (collect_values (fun p c => file_content p = Ok c) (all_files n) items)
        with (acc := []) (d := d).
      * intros i c _ _ E. exact E.
      * intros i sub p c _ _ Hsub Hin. exact (proj2 (proj2 (IH _ _ Hsub)) p c Hin).
      * exact Hc.
      * intros p c [].
Qed.

Lemma fetched_complete (path p : string) :
  file_listed requests_get owner repo path p ->
  forall limit d, all_files limit path = Ok d -> In p (keys d).
Proof.
  induction 1 as [path items i Hlists Hi Hf | path items i p Hlists Hi Hd _ IH];
    intros limit d H.
  - destruct (all_files_returned _ _ _ H) as (n & response & -> & Er & [[N _] | Hl]).
    + destruct Hlists as (r & Er' & Es & _). congruence.
    + destruct Hl as (items' & Hlists' & Hc).
      rewrite <- (lists_once _ _ _ Hlists Hlists') in Hc.
      apply (collect_keys _ _ _ _ Hc). right. left. exists i. repeat split; assumption.
  - destruct (all_files_returned _ _ _ H) as (n & response & -> & Er & [[N _] | Hl]).
    + destruct Hlists as (r & Er' & Es & _). congruence.
    + destruct Hl as (items' & Hlists' & Hc).
      rewrite <- (lists_once _ _ _ Hlists Hlists') in Hc.
      destruct (proj2 (collect_calls _ _ _ _ Hc) i Hi Hd) as [sub Hsub].
      apply (collect_keys _ _ _ _ Hc). right. right. exists i, sub.
      repeat split; try assumption. exact (IH _ _ Hsub).
Qed.

(** X16. When [get_all_files] returns, the keys of its dictionary are
    exactly the paths of the file entries of the listing of [path] and of
    the listings of the directory entries found from it, each once; each is
    mapped to what [get_file_content] gives for it.  Entries that are
    neither files nor directories, and directories whose listing is not
    answered with status 200, add nothing. *)
Theorem fetched_files_are_the_listed_files
  (limit : nat) (path : string) (all_contents : Fetcher.dict content) :
  Fetcher.get_all_files bytes b64decode decode_utf8 requests_get owner repo limit path
  = Ok all_contents ->
  NoDup (keys all_contents)
  /\ (forall p, In p (keys all_contents) <-> file_listed requests_get owner repo path p)
  /\ (forall p c, In (p, c) all_contents ->
        Fetcher.get_file_content bytes b64decode decode_utf8 requests_get owner repo p
        = Ok c).
Proof.
  intros H. destruct (fetched_sound _ _ _ H) as (Hnodup & Hlisted & Hvalues).
  split; [exact Hnodup | split; [| exact Hvalues]].
  intros p. split; [apply Hlisted |]. intros Hp. exact (fetched_complete _ _ Hp _ _ H).
Qed.

Lemma all_files_more (limit : nat) :
  forall path d more, all_files limit path = Ok d -> all_files (limit + more) path = Ok d.
Proof.
  induction limit as [| n IH]; intros path d more H; [discriminate |].
  destruct (all_files_returned _ _ _ H) as (n' & response & Hn & Er & [[N ->] | Hl]).
  - unfold all_files. cbn [Nat.add Fetcher.get_all_files]. rewrite Er. cbn [bind].
    destruct (Z.eqb_spec (Fetcher.status_code response) 200); [contradiction | reflexivity].
  - injection Hn as <-. destruct Hl as (items & Hlists & Hc).
    change (S n + more) with (S (n + more)). rewrite (all_files_listing _ _ _ Hlists).
    apply (collect_same (all_files n)); [| exact Hc].
    intros i sub _ _ Hsub. apply IH, Hsub.
Qed.

Lemma all_files_answers (limit : nat) :
  forall path d, all_files limit path = Ok d ->
  answers_within bytes b64decode decode_utf8 requests_get owner repo limit path.
Proof.
  induction limit as [| n IH]; intros path d H; [discriminate |].
  destruct (all_files_returned _ _ _ H) as (n' & response & Hn & Er & [[N _] | Hl]).
  - exact (answers_without_listing _ _ _ _ _ _ _ _ _ Er N).
  - injection Hn as <-. destruct Hl as (items & Hlists & Hc).
    destruct (collect_calls _ _ _ _ Hc) as [Hfiles Hdirs].
    apply (answers_with_listing _ _ _ _ _ _ _ _ items Hlists Hfiles).
    intros i Hi Hd. destruct (Hdirs i Hi Hd) as [sub Hsub]. exact (IH _ _ Hsub).
Qed.

Lemma answers_all_files (limit : nat) (path : string) :
  answers_within bytes b64decode decode_utf8 requests_get owner repo limit path ->
  exists d, all_files limit path = Ok d.
Proof.
  induction 1 as [n path response Er N | n path items Hlists Hfiles _ IH].
  - exists []. unfold all_files. cbn [Fetcher.get_all_files]. rewrite Er. cbn [bind].
    destruct (Z.eqb_spec (Fetcher.status_code response) 200); [contradiction | reflexivity].
  - rewrite (all_files_listing _ _ _ Hlists). apply collect_returns; assumption.
Qed.

(** X17. [get_all_files] returns a dictionary, rather than raise, exactly
    when every request of the walk is answered, file entries with the
    object of a file or a status other than 200, directory entries with a
    listing or a status other than 200, and directories are nested less
    deep than the limit of nested calls.  A larger limit then gives the
    same dictionary. *)
Theorem get_all_files_returns (limit : nat) (path : string) :
  ((exists all_contents,
      Fetcher.get_all_files bytes b64decode decode_utf8 requests_get owner repo limit path
      = Ok all_contents)
   <-> answers_within bytes b64decode decode_utf8 requests_get owner repo limit path)
  /\ (forall all_contents more,
        Fetcher.get_all_files bytes b64decode decode_utf8 requests_get owner repo limit path
        = Ok all_contents ->
        Fetcher.get_all_files bytes b64decode decode_utf8 requests_get owner repo
          (limit + more) path
        = Ok all_contents).
Proof.
  split; [split |].
  - intros [d H]. exact (all_files_answers _ _ _ H).
  - apply answers_all_files.
  - intros d more H. exact (all_files_more _ _ _ _ H).
Qed.

(** ** From the contents API to the records *)

Variable split_text : string -> list string.

Lemma persisted_of_file (files : list (string * content))
      (file_path text chunk : string) :
  In (file_path, Text text) files -> strip_nonempty text = true ->
  In chunk (split_text text) ->
  In (("text", VStr chunk) :: file_metadata file_path) (persisted split_text files).
Proof.
  intros Hin Htext Hchunk. apply in_split in Hin. destruct Hin as (l1 & l2 & ->).
  rewrite persisted_app, (persisted_cons _ _ _ _ Htext).
  apply in_or_app. right. apply in_or_app. left.
  unfold chunk_records. apply in_map_iff. exists chunk. split; [reflexivity | exact Hchunk].
Qed.

(** X18. The records made from what [get_all_files] returned are exactly
    the chunks of the listed files for which [get_file_content] gives a
    text with something other than white space in it; a listed file that
    could not be fetched or decoded, or is binary, leaves no record. *)
Theorem records_come_from_listed_text_files
  (limit : nat) (path : string) (all_contents : Fetcher.dict content) (r : document) :
  Fetcher.get_all_files bytes b64decode decode_utf8 requests_get owner repo limit path
  = Ok all_contents ->
  (In r (persisted split_text all_contents) <->
   exists file_path text chunk,
     file_listed requests_get owner repo path file_path
     /\ Fetcher.get_file_content bytes b64decode decode_utf8 requests_get owner repo
          file_path = Ok (Text text)
     /\ strip_nonempty text = true
     /\ In chunk (split_text text)
     /\ r = ("text", VStr chunk) :: file_metadata file_path).
Proof.
  intros H. destruct (fetched_sound _ _ _ H) as (_ & Hlisted & Hvalues). split.
  - intros Hr. apply persisted_In in Hr.
    destruct Hr as (file_path & text & chunk & Hin & Htext & Hchunk & ->).
    exists file_path, text, chunk. split; [| split; [| repeat split; assumption]].
    + apply Hlisted. unfold keys. apply in_map_iff.
      exists (file_path, Text text). split; [reflexivity | exact Hin].
    + exact (Hvalues _ _ Hin).
  - intros (file_path & text & chunk & Hfile & Hcontent & Htext & Hchunk & ->).
    pose proof (fetched_complete _ _ Hfile _ _ H) as Hkey.
    unfold keys in Hkey. apply in_map_iff in Hkey. destruct Hkey as ([p c] & Hp & Hin).
    cbn [fst] in Hp. subst p.
    pose proof (Hvalues _ _ Hin) as Hc. unfold file_content in Hc.
    rewrite Hcontent in Hc. injection Hc as <-.
    exact (persisted_of_file _ _ _ _ Hin Htext Hchunk).
Qed.

End Fetched.


End AnyServer.

(* ================================================================== *)
(** * The statements at concrete inputs

    No input below needs a pattern outside the fragment; the server is the
    strict one. *)

#[global] Existing Instance strict_server.

Lemma depth_follows_directory_witness :
  let files := [("a.py", Text "x"); ("src/b.py", Text "y"); ("src/utils/c.py", Text "z")] in
  let r := [("text", VStr "z"); ("source", VStr "src/utils/c.py");
            ("file_name", VStr "c.py"); ("file_extension", VStr ".py");
            ("directory", VStr "src/utils"); ("depth", VInt 2)] in
  Forall (fun f => repository_path (fst f) = true) files
  /\ In r (persisted (fun s => [s]) files)
  /\ exists (d : string) (z : Z),
      get "directory" r = Some (VStr d) /\ get "depth" r = Some (VInt z)
      /\ (0 <= z)%Z
      /\ (d = "." -> z = 0%Z)
      /\ (d <> "." -> z = (Z.of_nat (count sep d) + 1)%Z)
      /\ (d <> "." -> z = (1 + depth_of_directory (parent_directory d))%Z)
      /\ (d <> "." -> parent_directory d = "." -> z = 1%Z).
Proof.
  intros files r.
  assert (Hfiles : Forall (fun f => repository_path (fst f) = true) files)
    by (repeat constructor).
  assert (Hr : In r (persisted (fun s => [s]) files))
    by (simpl; auto).
  split; [exact Hfiles | split; [exact Hr |]].
  exact (depth_follows_directory (fun s => [s]) files r Hfiles Hr).
Defined.

Lemma same_directory_same_depth_witness :
  let docs := persisted (fun s => [s; s])
                [("src/b.py", Text "y"); ("src/c.py", Text "z"); ("a.py", Text "x")] in
  Forall indexed docs
  /\ (forall r1 r2, In r1 docs -> In r2 docs ->
                    get "directory" r1 = get "directory" r2 ->
                    get "depth" r1 = get "depth" r2)
  /\ StructureAgent.parent_depth (stored docs) "src" = Ok (Some (VInt 1)).
Proof.
  intros docs.
  assert (Hall : Forall indexed docs).
  { indexed_records. }
  destruct (same_directory_same_depth docs Hall) as [Hsame Hresolve].
  split; [exact Hall | split; [exact Hsame |]].
  apply (Hresolve [("text", VStr "z"); ("source", VStr "src/c.py");
                   ("file_name", VStr "c.py"); ("file_extension", VStr ".py");
                   ("directory", VStr "src"); ("depth", VInt 1)] "src").
  - simpl. auto.
  - reflexivity.
Defined.

Lemma src_does_not_count_src_old_witness :
  let docs := persisted (fun s => [s])
                [("src/b.py", Text "y"); ("src-old/d.py", Text "w");
                 ("src/utils/c.py", Text "z"); ("src-old/e/f.py", Text "v")] in
  Forall indexed docs
  /\ (exists r, In r docs /\ get "directory" r = Some (VStr "src"))
  /\ exists counted : list value,
      StructureAgent.count_subdirectories_in_directory (stored docs) "src"
      = Ok ("Total number of subdirectories directly in directory 'src': "
            +:+ PyStr.of_nat (List.length counted))
      /\ NoDup counted
      /\ (forall v, In v counted <->
                    exists r, In r docs /\ get "directory" r = Some v
                              /\ begins_with "src/" (Some v) = true
                              /\ get "depth" r = Some (VInt 2))
      /\ ~ In (VStr "src-old") counted
      /\ ~ In (VStr "src-utils") counted.
Proof.
  intros docs.
  assert (Hall : Forall indexed docs).
  { indexed_records. }
  assert (Hsrc : exists r, In r docs /\ get "directory" r = Some (VStr "src")).
  { eexists. split; [left; reflexivity | reflexivity]. }
  split; [exact Hall | split; [exact Hsrc |]].
  exact (src_does_not_count_src_old docs Hall Hsrc).
Defined.

Lemma root_count_is_top_level_count_witness :
  let docs := persisted (fun s => [s; s])
                [("a.py", Text "x"); ("src/b.py", Text "y");
                 ("src/utils/c.py", Text "z"); ("docs/d.md", Text "w")] in
  Forall indexed docs
  /\ exists names : list string,
      StructureAgent.top_level_dirs (stored docs) = Ok (map VStr names)
      /\ StructureAgent.list_top_level_directories (stored docs)
         = Ok ("Top-level directories: " +:+ listing names)
      /\ StructureAgent.count_subdirectories_in_directory (stored docs) "."
         = Ok ("Total number of subdirectories directly in directory '.': "
               +:+ PyStr.of_nat (List.length names)).
Proof.
  intros docs.
  assert (Hall : Forall indexed docs).
  { indexed_records. }
  split; [exact Hall |].
  exact (root_count_is_top_level_count docs Hall).
Defined.

Lemma count_total_files_counts_names_witness :
  let docs := persisted (fun s => [s])
                [("src/util.py", Text "x"); ("tests/util.py", Text "y")] in
  StructureAgent.count_total_files (stored docs)
  = Ok "Total number of unique original files indexed: 1".
Proof.
  intros docs.
  destruct (count_total_files_counts_names docs) as [_ Honce].
  rewrite (Honce [] (tl docs) (hd [] docs) (hd [] (tl docs))).
  - reflexivity.
  - reflexivity.
  - simpl. auto.
  - reflexivity.
Defined.

Lemma extension_counts_sum_to_records_witness :
  let docs := persisted (fun s => [s])
                [("a.py", Text "x"); ("src/b.py", Text "y"); ("README", Text "z")] in
  Forall (fun d => get "file_name" d <> None) docs
  /\ NoDup (field_values "file_name" docs)
  /\ StructureAgent.count_total_files (stored docs)
     = Ok ("Total number of unique original files indexed: "
           +:+ PyStr.of_nat (List.length docs)).
Proof.
  intros docs.
  assert (Hall : Forall (fun d => get "file_name" d <> None) docs)
    by (repeat constructor; discriminate).
  assert (Hnodup : NoDup (field_values "file_name" docs)).
  { simpl. repeat constructor; simpl; intuition discriminate. }
  split; [exact Hall | split; [exact Hnodup |]].
  destruct (extension_counts_sum_to_records docs) as (items & _ & _ & H).
  exact (H Hall Hnodup).
Defined.

Lemma files_in_directory_are_chunks_witness :
  let split_text := fun s : string => [s; s; s] in
  let files1 := [("src/a.py", Text "x")] in
  let files2 := [("README.md", Text "z")] in
  strip_nonempty "y" = true
  /\ fst (directory_and_depth "src/b.py") = "src"
  /\ exists (k : nat) (before after : list string),
      StructureAgent.count_files_in_directory
        (stored (persisted split_text (files1 ++ files2))) "src"
      = Ok ("Total number of files directly in directory 'src': " +:+ PyStr.of_nat k)
      /\ StructureAgent.count_files_in_directory
           (stored (persisted split_text (files1 ++ ("src/b.py", Text "y") :: files2)))
           "src"
         = Ok ("Total number of files directly in directory 'src': "
               +:+ PyStr.of_nat (k + 3))
      /\ StructureAgent.file_names
           (stored (persisted split_text (files1 ++ files2))) "src"
         = Ok (map VStr (before ++ after))
      /\ StructureAgent.file_names
           (stored (persisted split_text (files1 ++ ("src/b.py", Text "y") :: files2)))
           "src"
         = Ok (map VStr (before ++ repeat "b.py" 3 ++ after))
      /\ StructureAgent.list_files_in_directory
           (stored (persisted split_text (files1 ++ ("src/b.py", Text "y") :: files2)))
           "src"
         = Ok ("Files found directly in directory 'src': "
               +:+ listing (before ++ repeat "b.py" 3 ++ after)).
Proof.
  intros split_text files1 files2.
  split; [reflexivity | split; [reflexivity |]].
  exact (files_in_directory_are_chunks split_text files1 files2 "src/b.py" "y" "src"
           eq_refl eq_refl).
Defined.

Lemma all_directories_listed_and_counted_witness :
  let docs := persisted (fun s => [s; s])
                [("a.py", Text "x"); ("src/utils/c.py", Text "z");
                 ("src/b.py", Text "y"); ("docs/d.md", Text "w")] in
  Forall indexed docs
  /\ exists names : list string,
      StructureAgent.list_all_directories (stored docs)
      = Ok ("All unique directories: " +:+ listing names)
      /\ StructureAgent.count_total_directories (stored docs)
         = Ok ("Total number of unique directories indexed (excluding root): "
               +:+ PyStr.of_nat (List.length names))
      /\ NoDup names /\ ascending names
      /\ forall n, In n names <->
                   n <> "." /\ exists r, In r docs /\ get "directory" r = Some (VStr n).
Proof.
  intros docs.
  assert (Hall : Forall indexed docs) by indexed_records.
  split; [exact Hall |].
  exact (all_directories_listed_and_counted docs Hall).
Defined.

Lemma top_level_directories_are_children_of_root_witness :
  let docs := persisted (fun s => [s; s])
                [("a.py", Text "x"); ("src/utils/c.py", Text "z");
                 ("src/b.py", Text "y"); ("docs/d.md", Text "w")] in
  Forall indexed docs
  /\ exists names : list string,
      StructureAgent.list_top_level_directories (stored docs)
      = Ok ("Top-level directories: " +:+ listing names)
      /\ StructureAgent.count_top_level_directories (stored docs)
         = Ok ("Total number of top-level directories indexed: "
               +:+ PyStr.of_nat (List.length names))
      /\ NoDup names /\ ascending names
      /\ forall n, In n names <->
                   n <> "." /\ parent_directory n = "."
                   /\ exists r, In r docs /\ get "directory" r = Some (VStr n).
Proof.
  intros docs.
  assert (Hall : Forall indexed docs) by indexed_records.
  split; [exact Hall |].
  exact (top_level_directories_are_children_of_root docs Hall).
Defined.

Lemma subdirectories_are_children_witness :
  let docs := persisted (fun s => [s])
                [("src/b.py", Text "y"); ("src/utils/c.py", Text "z");
                 ("src/v1.2/d.py", Text "w"); ("src/utils/deep/e.py", Text "v");
                 ("src-old/f.py", Text "u")] in
  Forall indexed docs
  /\ "src" <> "."
  /\ literal_path "src" = true
  /\ (exists r, In r docs /\ get "directory" r = Some (VStr "src"))
  /\ exists names : list string,
      StructureAgent.list_subdirectories_in_directory (stored docs) "src"
      = Ok ("Subdirectories directly in directory 'src': " +:+ listing names)
      /\ StructureAgent.count_subdirectories_in_directory (stored docs) "src"
         = Ok ("Total number of subdirectories directly in directory 'src': "
               +:+ PyStr.of_nat (List.length names))
      /\ NoDup names /\ ascending names
      /\ forall n, In n names <->
                   parent_directory n = "src"
                   /\ exists r, In r docs /\ get "directory" r = Some (VStr n).
Proof.
  intros docs.
  assert (Hall : Forall indexed docs) by indexed_records.
  assert (Hp : "src" <> ".") by discriminate.
  assert (Hsrc : exists r, In r docs /\ get "directory" r = Some (VStr "src")).
  { eexists. split; [left; reflexivity | reflexivity]. }
  split; [exact Hall | split; [exact Hp | split; [reflexivity | split; [exact Hsrc |]]]].
  exact (subdirectories_are_children docs "src" Hall Hp eq_refl Hsrc).
Defined.


Lemma directory_without_files_is_invisible_witness :
  let all_files := [("src/utils/c.py", Text "z"); ("src/core/d.py", Text "w")] in
  let docs := persisted (fun s => [s]) all_files in
  "src" <> "."
  /\ (forall file_path text,
         In (file_path, Text text) all_files -> strip_nonempty text = true ->
         dirname file_path <> "src")
  /\ StructureAgent.count_subdirectories_in_directory (stored docs) "src"
     = Ok "Directory 'src' not found or has no subdirectories indexed."
  /\ StructureAgent.list_files_in_directory (stored docs) "src"
     = Ok "Files found directly in directory 'src': None".
Proof.
  intros all_files docs.
  assert (Hp : "src" <> ".") by discriminate.
  assert (Hfiles : forall file_path text,
             In (file_path, Text text) all_files -> strip_nonempty text = true ->
             dirname file_path <> "src").
  { intros file_path text [H | [H | []]] _; injection H as <- <-;
      vm_compute; discriminate. }
  split; [exact Hp | split; [exact Hfiles |]].
  destruct (directory_without_files_is_invisible (fun s => [s]) all_files "src" Hp Hfiles)
    as (_ & Hlist & Hcount & _).
  split; [exact Hcount | exact Hlist].
Defined.

Lemma source_is_directory_and_file_name_witness :
  let r := [("text", VStr "z"); ("source", VStr "src/utils/c.py");
            ("file_name", VStr "c.py"); ("file_extension", VStr ".py");
            ("directory", VStr "src/utils"); ("depth", VInt 2)] in
  indexed r
  /\ exists source directory file_name : string,
      get "source" r = Some (VStr source)
      /\ get "directory" r = Some (VStr directory)
      /\ get "file_name" r = Some (VStr file_name)
      /\ source = (if directory =? "." then file_name
                   else directory +:+ "/" +:+ file_name)
      /\ file_name <> "" /\ count sep file_name = 0.
Proof.
  intros r.
  assert (Hr : indexed r) by (unfold r; indexed_record).
  split; [exact Hr |].
  exact (source_is_directory_and_file_name r Hr).
Defined.

Lemma files_listed_are_directly_inside_witness :
  let docs := persisted (fun s => [s])
                [("src/b.py", Text "y"); ("src/utils/c.py", Text "z");
                 ("src/a.py", Text "x")] in
  Forall indexed docs
  /\ exists names : list string,
      StructureAgent.list_files_in_directory (stored docs) "src"
      = Ok ("Files found directly in directory 'src': " +:+ listing names)
      /\ StructureAgent.count_files_in_directory (stored docs) "src"
         = Ok ("Total number of files directly in directory 'src': "
               +:+ PyStr.of_nat (List.length names))
      /\ (forall n, In n names <->
                    exists r, In r docs /\ get "directory" r = Some (VStr "src")
                              /\ get "file_name" r = Some (VStr n))
      /\ (forall n, In n names ->
                    exists r, In r docs
                              /\ get "source" r
                                 = Some (VStr (if "src" =? "." then n
                                               else "src" +:+ "/" +:+ n))).
Proof.
  intros docs.
  assert (Hall : Forall indexed docs) by indexed_records.
  split; [exact Hall |].
  exact (files_listed_are_directly_inside docs "src" Hall).
Defined.

Lemma extension_lines_count_records_witness :
  let docs := persisted (fun s => [s; s])
                [("a.py", Text "x"); ("README", Text "y"); ("src/b.py", Text "z")] in
  Forall indexed docs
  /\ exists buckets : list (string * nat),
      StructureAgent.count_files_by_extension (stored docs)
      = Ok (match buckets with
            | [] => "No file extension data found."
            | _ => "File extension counts:" +:+ Py.nl
                   +:+ String.concat Py.nl (map extension_row buckets)
            end)
      /\ NoDup (map fst buckets)
      /\ descending (map snd buckets)
      /\ (forall e n, In (e, n) buckets <->
                      0 < n /\ n = records_with_extension e docs)
      /\ (buckets = [] <-> docs = []).
Proof.
  intros docs.
  assert (Hall : Forall indexed docs) by indexed_records.
  split; [exact Hall |].
  exact (extension_lines_count_records docs Hall).
Defined.

Lemma records_are_the_chunks_of_text_files_witness :
  let split_text := fun s : string => [s; s] in
  let all_files := [("a.py", Text "x"); ("blank.txt", Text (String "160" (String "010" "")));
                    ("logo.png", Binary); ("b.py", Missing)] in
  NoDup (map fst all_files)
  /\ filter (fun r => cond_holds (Eq (VStr "a.py")) (get "source" r))
            (persisted split_text all_files)
     = chunk_records split_text "a.py" "x"
  /\ filter (fun r => cond_holds (Eq (VStr "blank.txt")) (get "source" r))
            (persisted split_text all_files)
     = []
  /\ List.length (persisted split_text all_files) = 2.
Proof.
  intros split_text all_files.
  assert (Hnodup : NoDup (map fst all_files)).
  { simpl. repeat constructor; simpl; intuition discriminate. }
  split; [exact Hnodup |].
  destruct (records_are_the_chunks_of_text_files split_text all_files Hnodup)
    as (Hfiles & _ & Hlength).
  split; [| split].
  - exact (Hfiles "a.py" (Text "x") (or_introl eq_refl)).
  - exact (Hfiles "blank.txt" (Text (String "160" (String "010" "")))
             (or_intror (or_introl eq_refl))).
  - exact Hlength.
Defined.

Lemma content_answer_shows_every_chunk_witness :
  let chunk := {| LangChain.page_content := "import os";
                  LangChain.metadata := [("source", VStr "src/b.py")] |} in
  let vs := {| LangChain.similarity_search :=
                 fun _ k => Ok (if k =? 5 then [chunk; chunk] else [])%nat |} in
  exists answer,
    ContentAgent.content_search vs "What does b.py import?" = Ok answer
    /\ String.prefix "Source: " answer = true
    /\ forall d, In d [chunk; chunk] ->
                 exists before after,
                   answer = before +:+ ContentAgent.formatted d +:+ after.
Proof.
  intros chunk vs.
  destruct (content_answer_shows_every_chunk vs "What does b.py import?"
              [chunk; chunk] [] eq_refl eq_refl) as [H _].
  exact H.
Defined.

Lemma query_data_never_raises_witness :
  let failing := {| Router.invoke := fun _ => Raise "timed out" |} in
  let json_loads := fun _ => Router.DecodeError "no value" in
  "how many files?" <> ""
  /\ Router.invoke failing "how many files?" = Raise "timed out"
  /\ Router.query_data failing json_loads "how many files?"
     = Ok (Router.Text "An error occurred during router agent processing: timed out")
  /\ Router.structure_agent_tool failing "how many files?"
     = Ok (Mongo.VStr "Error routing query to Structure Agent: timed out")
  /\ Router.content_agent_tool failing "how many files?"
     = Ok (Mongo.VStr "Error routing query to Content Agent: timed out").
Proof.
  intros failing json_loads.
  assert (Hq : "how many files?" <> "") by discriminate.
  assert (He : Router.invoke failing "how many files?" = Raise "timed out") by reflexivity.
  split; [exact Hq | split; [exact He |]].
  destruct (query_data_never_raises failing failing failing json_loads "how many files?")
    as (_ & _ & _ & _ & Hrouter & Hstructure & Hcontent).
  split; [exact (Hrouter _ Hq He) | split; [exact (Hstructure _ He) | exact (Hcontent _ He)]].
Defined.

Lemma unfenced_output_is_relayed_witness :
  let router := {| Router.invoke := fun _ => Ok [("output", Mongo.VStr " There are 12 files. ")] |} in
  let json_loads := fun _ => Router.DecodeError "no value" in
  "how many files?" <> ""
  /\ Router.invoke router "how many files?" = Ok [("output", Mongo.VStr " There are 12 files. ")]
  /\ Mongo.get "output" [("output", Mongo.VStr " There are 12 files. ")]
     = Some (Mongo.VStr " There are 12 files. ")
  /\ count "`" " There are 12 files. " = 0
  /\ Router.query_data router json_loads "how many files?"
     = Ok (Router.Text " There are 12 files. ").
Proof.
  intros router json_loads.
  assert (Hq : "how many files?" <> "") by discriminate.
  assert (Hinvoke : Router.invoke router "how many files?"
                    = Ok [("output", Mongo.VStr " There are 12 files. ")]) by reflexivity.
  assert (Hget : Mongo.get "output" [("output", Mongo.VStr " There are 12 files. ")]
                 = Some (Mongo.VStr " There are 12 files. ")) by reflexivity.
  assert (Hcount : count "`" " There are 12 files. " = 0) by reflexivity.
  split; [exact Hq | split; [exact Hinvoke | split; [exact Hget | split; [exact Hcount |]]]].
  exact (proj1 (unfenced_output_is_relayed router json_loads _ _ Hq Hinvoke) _ Hget Hcount).
Defined.

Lemma fenced_output_is_unwrapped_witness :
  let body := " 12 files" +:+ String "160" "" in
  let raw_output := " " +:+ ("```text" +:+ String "010" (body +:+ "```")) +:+ " " in
  let router := {| Router.invoke := fun _ => Ok [("output", Mongo.VStr raw_output)] |} in
  let json_loads := fun s =>
    if s =? "12 files" then Router.DecodeError "Extra data" else Router.OtherError s in
  "how many files?" <> ""
  /\ Router.invoke router "how many files?" = Ok [("output", Mongo.VStr raw_output)]
  /\ Mongo.get "output" [("output", Mongo.VStr raw_output)] = Some (Mongo.VStr raw_output)
  /\ all_chars is_space " " = true
  /\ Router.query_data router json_loads "how many files?" = Ok (Router.Text "12 files").
Proof.
  intros body raw_output router json_loads.
  assert (Hq : "how many files?" <> "") by discriminate.
  assert (Hinvoke : Router.invoke router "how many files?"
                    = Ok [("output", Mongo.VStr raw_output)]) by reflexivity.
  assert (Hget : Mongo.get "output" [("output", Mongo.VStr raw_output)]
                 = Some (Mongo.VStr raw_output)) by reflexivity.
  assert (Hspace : all_chars is_space " " = true) by reflexivity.
  split; [exact Hq | split; [exact Hinvoke | split; [exact Hget | split; [exact Hspace |]]]].
  exact (fenced_output_is_unwrapped router json_loads _ _ " " " " body "010"
           Hq Hinvoke Hget Hspace Hspace).
Defined.

Lemma fetched_files_are_the_listed_files_witness :
  let all_contents := [("README.md", Text "hello"); ("src/a.py", Text "print(1)")] in
  Fetcher.get_all_files string small_b64decode Some small_repository "o" "r" 2 ""
  = Ok all_contents
  /\ NoDup (keys all_contents)
  /\ (forall p, In p (keys all_contents) <-> file_listed small_repository "o" "r" "" p)
  /\ (forall p c, In (p, c) all_contents ->
        Fetcher.get_file_content string small_b64decode Some small_repository "o" "r" p
        = Ok c).
Proof.
  intros all_contents.
  assert (H : Fetcher.get_all_files string small_b64decode Some small_repository
                "o" "r" 2 "" = Ok all_contents) by (vm_compute; reflexivity).
  split; [exact H |].
  exact (fetched_files_are_the_listed_files string small_b64decode Some small_repository
           "o" "r" 2 "" all_contents H).
Defined.

Lemma get_all_files_returns_witness :
  let all_contents := [("README.md", Text "hello"); ("src/a.py", Text "print(1)")] in
  Fetcher.get_all_files string small_b64decode Some small_repository "o" "r" 2 ""
  = Ok all_contents
  /\ answers_within string small_b64decode Some small_repository "o" "r" 2 ""
  /\ Fetcher.get_all_files string small_b64decode Some small_repository "o" "r" (2 + 40) ""
     = Ok all_contents.
Proof.
  intros all_contents.
  assert (H : Fetcher.get_all_files string small_b64decode Some small_repository
                "o" "r" 2 "" = Ok all_contents) by (vm_compute; reflexivity).
  split; [exact H |].
  destruct (get_all_files_returns string small_b64decode Some small_repository
              "o" "r" 2 "") as [[Hanswers _] Hmore].
  split; [exact (Hanswers (ex_intro _ all_contents H)) | exact (Hmore all_contents 40 H)].
Defined.

Lemma records_come_from_listed_text_files_witness :
  let all_contents := [("README.md", Text "hello"); ("src/a.py", Text "print(1)")] in
  let r := ("text", VStr "print(1)") :: file_metadata "src/a.py" in
  Fetcher.get_all_files string small_b64decode Some small_repository "o" "r" 2 ""
  = Ok all_contents
  /\ (In r (persisted (fun s => [s]) all_contents) <->
      exists file_path text chunk,
        file_listed small_repository "o" "r" "" file_path
        /\ Fetcher.get_file_content string small_b64decode Some small_repository "o" "r"
             file_path = Ok (Text text)
        /\ strip_nonempty text = true
        /\ In chunk [text]
        /\ r = ("text", VStr chunk) :: file_metadata file_path).
Proof.
  intros all_contents r.
  assert (H : Fetcher.get_all_files string small_b64decode Some small_repository
                "o" "r" 2 "" = Ok all_contents) by (vm_compute; reflexivity).
  split; [exact H |].
  exact (records_come_from_listed_text_files string small_b64decode Some small_repository
           "o" "r" (fun s => [s]) 2 "" all_contents r H).
Defined.

